(** * Coffee-lot intake backend (src/main.py): a shallow embedding

    The Flask handlers of [src/main.py] are embedded as functions in a small
    state-and-exception monad over a [world] that holds the three PostgreSQL
    tables, the availability of the database and the source of UUIDs.

    Modelling conventions.
    - JSON request bodies and Python values are [pyval]; a Python [dict] is a
      [gmap string pyval].
    - Strings are sequences of characters with code points below 256.
      [str.strip] removes Python's white space, SQL [TRIM] removes blanks only.
      SQL [LOWER] follows the locale of the database: it is taken as under a
      UTF-8 or Latin-1 ctype, where it lowers A-Z and the accented capitals;
      the C locale lowers A-Z only.  Locales agree on ASCII text, and the
      statements on registry keys are made for ASCII names.
    - Python floats are represented by the rational they denote (finite floats
      only); the only float operations of the program are comparisons.
    - [date.fromisoformat] is taken on the texts [YYYY-MM-DD], the inverse of
      [date.isoformat], which every version of Python reads alike.  Newer
      versions also read other ISO forms (basic and week dates) that this
      function refuses; the statements on dates are made for the texts of the
      form [YYYY-MM-DD] and for the texts that no version reads.
    - The store is reached through [get_db_connection], which raises when the
      database is down.  A statement either takes effect or raises; the only
      multi-statement transaction (the import) rolls back when it raises. *)

From Stdlib Require Import ZArith QArith Ascii String List Lia DecimalString DecimalNat.
From stdpp Require Import gmap strings list fin_maps.

#[local] Set Warnings "-register-all,-clear-no-such-hyp".
#[local] Open Scope Z_scope.

(** ** Python values *)

Record date := Date { year : Z; month : Z; day : Z }.

Inductive pyval :=
| PNone
| PBool (b : bool)
| PInt (z : Z)
| PFloat (q : Q)
| PStr (s : string)
| PDate (d : date)
| PList (l : list pyval)
| PDict (m : gmap string pyval).

(** Python exceptions the program can meet; [DatabaseError] stands for every
    [psycopg2.Error]. *)
Inductive exn := TypeError | AttributeError | ValueError | DatabaseError.

Inductive result (A : Type) :=
| Ok (a : A)
| Raise (e : exn).
Arguments Ok {A} a.
Arguments Raise {A} e.

(** Truth value of an object, as [if x:] and [not x] compute it. *)
Definition truthy (v : pyval) : bool :=
  match v with
  | PNone => false
  | PBool b => b
  | PInt z => negb (z =? 0)
  | PFloat q => negb (Qeq_bool q 0)
  | PStr s => negb (String.eqb s "")
  | PDate _ => true
  | PList l => match l with [] => false | _ => true end
  | PDict m => negb (bool_decide (m = ∅))
  end.

(** [d.get(k)] and [d.get(k, default)]. *)
Definition dict_get (d : gmap string pyval) (k : string) : pyval :=
  default PNone (d !! k).

Definition dict_get_default (d : gmap string pyval) (k : string) (dflt : pyval) : pyval :=
  default dflt (d !! k).

(** [a <= v] and [v <= b] for an int literal on one side: defined between
    numbers ([bool] is a subclass of [int]), [TypeError] otherwise. *)
Definition int_le_py (a : Z) (v : pyval) : result bool :=
  match v with
  | PBool b => Ok (a <=? Z.b2z b)
  | PInt z => Ok (a <=? z)
  | PFloat q => Ok (Qle_bool (inject_Z a) q)
  | _ => Raise TypeError
  end.

Definition py_le_int (v : pyval) (b : Z) : result bool :=
  match v with
  | PBool c => Ok (Z.b2z c <=? b)
  | PInt z => Ok (z <=? b)
  | PFloat q => Ok (Qle_bool q (inject_Z b))
  | _ => Raise TypeError
  end.

(** The chained comparison [a <= v <= b]: [a <= v and v <= b]. *)
Definition chained_le (a : Z) (v : pyval) (b : Z) : result bool :=
  match int_le_py a v with
  | Raise e => Raise e
  | Ok false => Ok false
  | Ok true => py_le_int v b
  end.

(** ** Strings: [str.strip], SQL [TRIM] and [LOWER] *)

Definition py_isspace (c : ascii) : bool :=
  let n := nat_of_ascii c in
  ((9 <=? n) && (n <=? 13) || (28 <=? n) && (n <=? 32) || (n =? 133) || (n =? 160))%nat.

Definition sql_isblank (c : ascii) : bool := Ascii.eqb c " ".

Fixpoint ltrim_by (p : ascii -> bool) (s : string) : string :=
  match s with
  | EmptyString => EmptyString
  | String c s' => if p c then ltrim_by p s' else s
  end.

Fixpoint rtrim_by (p : ascii -> bool) (s : string) : string :=
  match s with
  | EmptyString => EmptyString
  | String c s' =>
      match rtrim_by p s' with
      | EmptyString => if p c then EmptyString else String c EmptyString
      | r => String c r
      end
  end.

(** [s.strip()] *)
Definition strip (s : string) : string := rtrim_by py_isspace (ltrim_by py_isspace s).

(** SQL [TRIM(s)] *)
Definition TRIM (s : string) : string := rtrim_by sql_isblank (ltrim_by sql_isblank s).

(** The lower case of a character below 256: A-Z, and the capitals from
    code point 192 to 222, the multiplication sign 215 apart. *)
Definition lower_char (c : ascii) : ascii :=
  let n := nat_of_ascii c in
  if ((65 <=? n) && (n <=? 90) || (192 <=? n) && (n <=? 222) && negb (n =? 215))%nat
  then ascii_of_nat (n + 32) else c.

(** SQL [LOWER(s)] *)
Fixpoint LOWER (s : string) : string :=
  match s with
  | EmptyString => EmptyString
  | String c s' => String (lower_char c) (LOWER s')
  end.

(** The expression of the functional unique indexes: [TRIM(LOWER(name))]. *)
Definition normalized (s : string) : string := TRIM (LOWER s).

(** [x.strip()] on an arbitrary object: only [str] has the method. *)
Definition py_strip (v : pyval) : result string :=
  match v with
  | PStr s => Ok (strip s)
  | _ => Raise AttributeError
  end.

(** ** Dates: [date.fromisoformat] and [date.isoformat] *)

(** The value of a decimal digit (code points 48 to 57). *)
Definition digit_of (c : ascii) : option Z :=
  let n := Z.of_nat (nat_of_ascii c) in
  if (48 <=? n) && (n <=? 57) then Some (n - 48) else None.

Definition digit_char (n : Z) : ascii := ascii_of_nat (48 + Z.to_nat (n mod 10)).

Definition is_leap (y : Z) : bool :=
  ((y mod 4 =? 0) && negb (y mod 100 =? 0)) || (y mod 400 =? 0).

Definition days_in_month (y m : Z) : Z :=
  if m =? 2 then (if is_leap y then 29 else 28)
  else if (m =? 4) || (m =? 6) || (m =? 9) || (m =? 11) then 30
  else 31.

(** The range checks of the [date] constructor (MINYEAR = 1, MAXYEAR = 9999). *)
Definition valid_date (d : date) : bool :=
  (1 <=? year d) && (year d <=? 9999) &&
  (1 <=? month d) && (month d <=? 12) &&
  (1 <=? day d) && (day d <=? days_in_month (year d) (month d)).

Definition number2 (a b : ascii) : option Z :=
  match digit_of a, digit_of b with
  | Some x, Some y => Some (10 * x + y)
  | _, _ => None
  end.

Definition number4 (a b c d : ascii) : option Z :=
  match number2 a b, number2 c d with
  | Some x, Some y => Some (100 * x + y)
  | _, _ => None
  end.

(** [date.fromisoformat(s)] for a [str]; [None] is [ValueError]. *)
Definition fromisoformat (s : string) : option date :=
  match s with
  | String y1 (String y2 (String y3 (String y4 (String h1
      (String m1 (String m2 (String h2 (String d1 (String d2 EmptyString))))))))) =>
      if Ascii.eqb h1 "-" && Ascii.eqb h2 "-" then
        match number4 y1 y2 y3 y4, number2 m1 m2, number2 d1 d2 with
        | Some y, Some m, Some d =>
            if valid_date (Date y m d) then Some (Date y m d) else None
        | _, _, _ => None
        end
      else None
  | _ => None
  end.

(** [d.isoformat()], that is ["%04d-%02d-%02d" % (year, month, day)]; a
    [date] has at most four digits in its year. *)
Definition isoformat (d : date) : string :=
  String (digit_char (year d / 1000)) (String (digit_char (year d / 100))
  (String (digit_char (year d / 10)) (String (digit_char (year d))
  (String "-" (String (digit_char (month d / 10)) (String (digit_char (month d))
  (String "-" (String (digit_char (day d / 10)) (String (digit_char (day d))
  EmptyString))))))))).

(** [date.fromisoformat(v)] on an arbitrary object. *)
Definition py_fromisoformat (v : pyval) : result date :=
  match v with
  | PStr s => match fromisoformat s with Some d => Ok d | None => Raise ValueError end
  | _ => Raise TypeError
  end.

(** ** The store

    Column types of [CREATE TABLE coffee_lots]. *)
Inductive sqltype := VARCHAR (n : nat) | INTEGER | DOUBLE_PRECISION | DATE.

Definition coffee_lots_table : list (string * sqltype) :=
  [ ("id", VARCHAR 255); ("lote_numero", VARCHAR 255); ("balanca", VARCHAR 255);
    ("caminhoneiro", VARCHAR 255); ("data_entrada", DATE);
    ("qtd_lotes_veiculo", INTEGER); ("boca_entrada", INTEGER);
    ("situacao_cafe_veiculo", VARCHAR 255); ("safra", VARCHAR 255);
    ("nome_produtor", VARCHAR 255); ("nome_propriedade", VARCHAR 255);
    ("endereco", VARCHAR 255); ("telefone", VARCHAR 255);
    ("tipo_servico", VARCHAR 255); ("qtd_sacas", INTEGER);
    ("peso_total_sacas_kg", DOUBLE_PRECISION); ("peso_total_bag_kg", DOUBLE_PRECISION);
    ("qtd_bags", INTEGER); ("divisao_bags_kg", DOUBLE_PRECISION);
    ("peso_entrada_caminhao_kg", DOUBLE_PRECISION); ("fair_trade", VARCHAR 255);
    ("empresa", VARCHAR 255); ("status", VARCHAR 50) ].

Definition COFFEE_LOT_COLUMNS : list string :=
  [ "id"; "lote_numero"; "balanca"; "caminhoneiro"; "data_entrada";
    "qtd_lotes_veiculo"; "boca_entrada"; "situacao_cafe_veiculo"; "safra";
    "nome_produtor"; "nome_propriedade"; "endereco"; "telefone";
    "tipo_servico"; "qtd_sacas"; "peso_total_sacas_kg"; "peso_total_bag_kg";
    "qtd_bags"; "divisao_bags_kg"; "peso_entrada_caminhao_kg"; "fair_trade";
    "empresa"; "status" ].

Definition column_type (col : string) : option sqltype :=
  (list_to_map coffee_lots_table : gmap string sqltype) !! col.

Fixpoint all_blank (s : string) : bool :=
  match s with
  | EmptyString => true
  | String c s' => sql_isblank c && all_blank s'
  end.

Fixpoint string_take (n : nat) (s : string) : string :=
  match n, s with
  | S n', String c s' => String c (string_take n' s')
  | _, _ => EmptyString
  end.

Fixpoint string_drop (n : nat) (s : string) : string :=
  match n, s with
  | S n', String _ s' => string_drop n' s'
  | _, _ => s
  end.

(** Assignment of a string to a [VARCHAR(n)] column: an over-long value is an
    error unless the excess is blanks, which are cut. *)
Definition varchar (n : nat) (s : string) : option string :=
  if (String.length s <=? n)%nat then Some s
  else if all_blank (string_drop n s) then Some (string_take n s)
  else None.

(** The value a column of type [t] holds, and returns on a later read, after
    the Python value [v] was written to it; [None] when the store raises.
    Only the conversions that keep the value are modelled: [None] to NULL,
    [str] to VARCHAR, [int] to INTEGER (32 bits), [int] (up to 2^53) and
    [float] to DOUBLE PRECISION, [date] to DATE.  The text and rounding
    conversions PostgreSQL would attempt on other pairs are left out, those
    writes raise here. *)
Definition store_value (t : sqltype) (v : pyval) : option pyval :=
  match v, t with
  | PNone, _ => Some PNone
  | PStr s, VARCHAR n => PStr <$> varchar n s
  | PInt z, INTEGER =>
      if (-2147483648 <=? z) && (z <=? 2147483647) then Some (PInt z) else None
  | PInt z, DOUBLE_PRECISION =>
      if (-9007199254740992 <=? z) && (z <=? 9007199254740992)
      then Some (PFloat (inject_Z z)) else None
  | PFloat q, DOUBLE_PRECISION => Some (PFloat q)
  | PDate d, DATE => Some (PDate d)
  | _, _ => None
  end.

Record producer := Producer {
  producer_id : string;
  producer_name : string;            (* name VARCHAR(255) NOT NULL *)
  producer_property : option string  (* property_name VARCHAR(255) *)
}.

Record driver := Driver {
  driver_id : string;
  driver_name : string               (* name VARCHAR(255) NOT NULL *)
}.

(** The world of a request: the database (reachable or not, with its three
    tables), the number of connections opened so far, and the source of
    random UUIDs ([uuid.uuid4] and [uuid_generate_v4]) with its position. *)
Record world := World {
  db_up : bool;
  connections : nat;
  uuids : nat -> string;
  uuid_next : nat;
  coffee_lots : list (gmap string pyval);
  producers : list producer;
  drivers : list driver
}.

Definition set_coffee_lots (l : list (gmap string pyval)) (w : world) : world :=
  World (db_up w) (connections w) (uuids w) (uuid_next w) l (producers w) (drivers w).

Definition set_producers (l : list producer) (w : world) : world :=
  World (db_up w) (connections w) (uuids w) (uuid_next w) (coffee_lots w) l (drivers w).

Definition set_drivers (l : list driver) (w : world) : world :=
  World (db_up w) (connections w) (uuids w) (uuid_next w) (coffee_lots w) (producers w) l.

(** ** The monad of handlers: state and exceptions *)

Definition M (A : Type) : Type := world -> result A * world.

Definition ret {A} (a : A) : M A := fun w => (Ok a, w).

Definition raise {A} (e : exn) : M A := fun w => (Raise e, w).

Definition lift {A} (r : result A) : M A := fun w => (r, w).

Definition bind {A B} (m : M A) (k : A -> M B) : M B :=
  fun w => match m w with
           | (Ok a, w') => k a w'
           | (Raise e, w') => (Raise e, w')
           end.

Notation "'let*' x := m 'in' k" := (bind m (fun x => k))
  (at level 10, x name, m at level 100, k at level 200).

(** [try: m  except Exception as e: h e] *)
Definition try_except {A} (m : M A) (h : exn -> M A) : M A :=
  fun w => match m w with
           | (Ok a, w') => (Ok a, w')
           | (Raise e, w') => h e w'
           end.

(** A transaction that raises before its [commit] is undone when the
    connection is closed: the tables are those of the start. *)
Definition rolled_back {A} (m : M A) : M A :=
  fun w => match m w with
           | (Ok a, w') => (Ok a, w')
           | (Raise e, w') =>
               (Raise e, World (db_up w') (connections w') (uuids w') (uuid_next w')
                               (coffee_lots w) (producers w) (drivers w))
           end.

(** The world after one more connection attempt. *)
Definition connected (w : world) : world :=
  World (db_up w) (S (connections w)) (uuids w) (uuid_next w)
        (coffee_lots w) (producers w) (drivers w).

Definition get_db_connection : M unit :=
  fun w => if db_up w then (Ok tt, connected w) else (Raise DatabaseError, connected w).

(** [uuid.uuid4()], and [uuid_generate_v4()] of the store. *)
Definition uuid4 : M string :=
  fun w => (Ok (uuids w (uuid_next w)),
            World (db_up w) (connections w) (uuids w) (S (uuid_next w))
                  (coffee_lots w) (producers w) (drivers w)).

(** ** SQL statements *)

(** [stored = %s] for a character column and a [str] parameter. *)
Definition sql_eq_str (stored : pyval) (s : string) : bool :=
  match stored with
  | PStr t => String.eqb t s
  | _ => false
  end.

(** [stored = %s] for an INTEGER column and a numeric parameter (an [int] is
    sent as an integer literal, a [float] as a numeric one). *)
Definition sql_eq_number (stored param : pyval) : bool :=
  match stored, param with
  | PInt z, PInt b => z =? b
  | PInt z, PFloat q => Qeq_bool (inject_Z z) q
  | _, _ => false
  end.

(** [SELECT id FROM coffee_lots WHERE status = 'active' AND boca_entrada = %s]
    with [AND id != %s] appended when [current_lot_id] is true; the result is
    [cur.fetchone() is not None].  A [bool] parameter is sent as [true] or
    [false], and PostgreSQL has no operator [integer = boolean]; the range
    check of [validate_boca_entrada] lets nothing but numbers reach this
    query. *)
Definition occupies (boca_num : pyval) (current_lot_id : option string)
    (lot : gmap string pyval) : bool :=
  sql_eq_str (dict_get lot "status") "active" &&
  sql_eq_number (dict_get lot "boca_entrada") boca_num &&
  match current_lot_id with
  | Some i => if String.eqb i "" then true
              else match dict_get lot "id" with
                   | PStr j => negb (String.eqb j i)
                   | _ => false
                   end
  | None => true
  end.

Definition select_active_boca (boca_num : pyval) (current_lot_id : option string) : M bool :=
  fun w =>
    match boca_num with
    | PInt _ | PFloat _ => (Ok (existsb (occupies boca_num current_lot_id) (coffee_lots w)), w)
    | _ => (Raise DatabaseError, w)
    end.

(** [SELECT * FROM coffee_lots WHERE id = %s], then [fetchone()]. *)
Definition select_lot_by_id (lot_id : string) : M (option (gmap string pyval)) :=
  fun w => (Ok (find (fun lot => sql_eq_str (dict_get lot "id") lot_id) (coffee_lots w)), w).

Definition lot_id (lot : gmap string pyval) : option string :=
  match dict_get lot "id" with
  | PStr i => Some i
  | _ => None
  end.

Definition lot_ids (lots : list (gmap string pyval)) : list string :=
  omap lot_id lots.

(** The values of a row or of a SET list as the columns take them. *)
Fixpoint store_values (cols : list (string * pyval)) : option (list (string * pyval)) :=
  match cols with
  | [] => Some []
  | (col, v) :: rest =>
      match column_type col with
      | Some t =>
          match store_value t v, store_values rest with
          | Some v', Some rest' => Some ((col, v') :: rest')
          | _, _ => None
          end
      | None => None
      end
  end.

(** [id VARCHAR(255) PRIMARY KEY]: not null and unique. *)
Definition primary_key_ok (lots : list (gmap string pyval)) : bool :=
  forallb (fun lot => bool_decide (is_Some (lot_id lot))) lots &&
  bool_decide (NoDup (lot_ids lots)).

(** [INSERT INTO coffee_lots (<COFFEE_LOT_COLUMNS>) VALUES (%s, ...)] *)
Definition insert_coffee_lot (insert_values : list pyval) : M unit :=
  fun w =>
    match store_values (zip COFFEE_LOT_COLUMNS insert_values) with
    | Some row =>
        let lots := coffee_lots w ++ [list_to_map row] in
        if primary_key_ok lots then (Ok tt, set_coffee_lots lots w)
        else (Raise DatabaseError, w)
    | None => (Raise DatabaseError, w)
    end.

Definition assign (sets : list (string * pyval)) (lot : gmap string pyval) : gmap string pyval :=
  foldl (fun l cv => <[cv.1 := cv.2]> l) lot sets.

(** [UPDATE coffee_lots SET c1 = %s, ... WHERE id = %s]; the result is
    [cur.rowcount]. *)
Definition update_coffee_lots (sets : list (string * pyval)) (lot_id : string) : M nat :=
  fun w =>
    match store_values sets with
    | Some sets' =>
        let hit lot := sql_eq_str (dict_get lot "id") lot_id in
        let lots := map (fun lot => if hit lot then assign sets' lot else lot) (coffee_lots w) in
        let rowcount := length (filter (fun lot => hit lot = true) (coffee_lots w)) in
        if existsb (fun cv => String.eqb cv.1 "id") sets' && negb (primary_key_ok lots)
        then (Raise DatabaseError, w)
        else (Ok rowcount, set_coffee_lots lots w)
    | None => (Raise DatabaseError, w)
    end.

(** Two producers collide on [idx_unique_normalized_producer], the unique
    index on [(TRIM(LOWER(name)), TRIM(LOWER(property_name)))]; a NULL
    property collides with nothing.  The same comparison is the WHERE clause
    of the SELECT in [add_single_producer]. *)
Definition same_producer (name property : string) (p : producer) : bool :=
  String.eqb (normalized (producer_name p)) (normalized name) &&
  match producer_property p with
  | Some q => String.eqb (normalized q) (normalized property)
  | None => false
  end.

(** [idx_unique_normalized_driver], on [TRIM(LOWER(name))]. *)
Definition same_driver (name : string) (d : driver) : bool :=
  String.eqb (normalized (driver_name d)) (normalized name).

(** [INSERT INTO producers (name, property_name) VALUES (%s, %s)], with
    [ON CONFLICT (TRIM(LOWER(name)), TRIM(LOWER(property_name))) DO NOTHING]
    when [on_conflict_do_nothing]; the id is the column default
    [uuid_generate_v4()].  The result is the new id when a row was inserted
    ([cur.rowcount] is then 1, else 0). *)
Definition insert_producer (on_conflict_do_nothing : bool) (name property : string)
    : M (option string) :=
  fun w =>
    match varchar 255 name, varchar 255 property with
    | Some n, Some p =>
        match uuid4 w with
        | (Ok id, w1) =>
            if existsb (same_producer n p) (producers w1) then
              if on_conflict_do_nothing then (Ok None, w1) else (Raise DatabaseError, w1)
            else if existsb (fun q => String.eqb (producer_id q) id) (producers w1) then
              (Raise DatabaseError, w1)
            else (Ok (Some id), set_producers (producers w1 ++ [Producer id n (Some p)]) w1)
        | (Raise e, w1) => (Raise e, w1)
        end
    | _, _ => (Raise DatabaseError, w)
    end.

(** [INSERT INTO drivers (name) VALUES (%s)], with
    [ON CONFLICT (TRIM(LOWER(name))) DO NOTHING] when [on_conflict_do_nothing]. *)
Definition insert_driver (on_conflict_do_nothing : bool) (name : string) : M (option string) :=
  fun w =>
    match varchar 255 name with
    | Some n =>
        match uuid4 w with
        | (Ok id, w1) =>
            if existsb (same_driver n) (drivers w1) then
              if on_conflict_do_nothing then (Ok None, w1) else (Raise DatabaseError, w1)
            else if existsb (fun q => String.eqb (driver_id q) id) (drivers w1) then
              (Raise DatabaseError, w1)
            else (Ok (Some id), set_drivers (drivers w1 ++ [Driver id n]) w1)
        | (Raise e, w1) => (Raise e, w1)
        end
    | None => (Raise DatabaseError, w)
    end.

(** [SELECT id FROM producers WHERE TRIM(LOWER(name)) = TRIM(LOWER(%s)) AND
    TRIM(LOWER(property_name)) = TRIM(LOWER(%s))], then [fetchone()]. *)
Definition select_producer (name property : string) : M (option producer) :=
  fun w => (Ok (find (same_producer name property) (producers w)), w).

(** [SELECT id FROM drivers WHERE TRIM(LOWER(name)) = TRIM(LOWER(%s))]. *)
Definition select_driver (name : string) : M (option driver) :=
  fun w => (Ok (find (same_driver name) (drivers w)), w).

(** ** Responses *)

(** A message is a fixed text or one of the two f-strings of the program:
    [f"Nº da Boca de Entrada {boca_num} já está em uso por um lote ativo."] and
    [f"Importação concluída. {added_count} novos produtores adicionados,
    {updated_count} produtores existentes (não atualizados)."]. *)
Inductive message :=
| Text (s : string)
| BocaEmUso (boca_num : pyval)
| ImportacaoConcluida (added_count updated_count : nat).

(** What [jsonify] is given. *)
Inductive json :=
| JMessage (m : message)                      (* {"message": m} *)
| JLot (lot : gmap string pyval)
| JProducer (id name property : string)       (* {"id", "name", "property"} *)
| JDriver (id name : string).                 (* {"id", "name"} *)

Record response := Response { body : json; status : Z }.

Record validation := Validation { isValid : bool; validation_message : message }.

(** ** The program *)

Definition add_producer_if_not_exists (producer_name property_name : pyval) : M unit :=
  let* blank :=
    (if negb (truthy producer_name) then ret true
     else let* stripped := lift (py_strip producer_name) in
          ret (String.eqb stripped "")) in
  if (blank : bool) then ret tt
  else
    let* normalized_producer_name := lift (py_strip producer_name) in
    let* normalized_property_name :=
      (match property_name with
       | PNone => ret ""
       | _ => lift (py_strip property_name)
       end) in
    try_except
      (let* _ := get_db_connection in
       let* _ := insert_producer true normalized_producer_name normalized_property_name in
       ret tt)
      (fun _ => ret tt).

Definition add_driver_if_not_exists (driver_name : pyval) : M unit :=
  let* blank :=
    (if negb (truthy driver_name) then ret true
     else let* stripped := lift (py_strip driver_name) in
          ret (String.eqb stripped "")) in
  if (blank : bool) then ret tt
  else
    let* normalized_driver_name := lift (py_strip driver_name) in
    try_except
      (let* _ := get_db_connection in
       let* _ := insert_driver true normalized_driver_name in
       ret tt)
      (fun _ => ret tt).

Definition serialize_coffee_lot (lot : gmap string pyval) : gmap string pyval :=
  match dict_get lot "data_entrada" with
  | PDate d => <["data_entrada" := PStr (isoformat d)]> lot
  | _ => lot
  end.

Definition validate_boca_entrada (boca_num : pyval) (current_lot_id : option string)
    : M validation :=
  let* out_of_range :=
    (match boca_num with
     | PNone => ret true
     | _ => let* inside := lift (chained_le 1 boca_num 8) in ret (negb inside)
     end) in
  if (out_of_range : bool) then
    ret (Validation false (Text "Nº da Boca de Entrada deve ser entre 1 e 8."))
  else
    try_except
      (let* _ := get_db_connection in
       let* is_boca_taken := select_active_boca boca_num current_lot_id in
       if (is_boca_taken : bool) then ret (Validation false (BocaEmUso boca_num))
       else ret (Validation true (Text "")))
      (fun _ => ret (Validation false (Text "Erro interno ao validar boca de entrada."))).

Definition get_coffee_lot_by_id (lot_id : string) : M response :=
  try_except
    (let* _ := get_db_connection in
     let* lot := select_lot_by_id lot_id in
     match lot with
     | Some l =>
         if truthy (PDict l) then ret (Response (JLot (serialize_coffee_lot l)) 200)
         else ret (Response (JMessage (Text "Lote não encontrado")) 404)
     | None => ret (Response (JMessage (Text "Lote não encontrado")) 404)
     end)
    (fun _ => ret (Response (JMessage (Text "Erro interno do servidor ao buscar lote.")) 500)).

(** The parsing of [data_entrada] shared, word for word, by the two handlers
    below: the payload with the date parsed, or the 400 response. *)
Definition parse_data_entrada (data : gmap string pyval)
    : M (response + gmap string pyval) :=
  match data !! "data_entrada" with
  | Some v =>
      if truthy v then
        match py_fromisoformat v with
        | Ok d => ret (inr (<["data_entrada" := PDate d]> data))
        | Raise ValueError =>
            ret (inl (Response (JMessage (Text "Formato de data inválido. Use YYYY-MM-DD.")) 400))
        | Raise e => raise e
        end
      else ret (inr data)
  | None => ret (inr data)
  end.

(** The registry side effects shared by the two handlers below. *)
Definition register_names (data : gmap string pyval) : M unit :=
  let producer_name := dict_get data "nome_produtor" in
  let property_name := dict_get_default data "nome_propriedade" (PStr "") in
  let* _ := (if truthy producer_name
             then add_producer_if_not_exists producer_name property_name
             else ret tt) in
  let driver_name := dict_get data "caminhoneiro" in
  if truthy driver_name then add_driver_if_not_exists driver_name else ret tt.

(** [add_coffee_lot] from [new_lot_data['id'] = str(uuid.uuid4())] on. *)
Definition add_coffee_lot_insert (new_lot_data : gmap string pyval) : M response :=
  let* id := uuid4 in
  let new_lot_data := <["id" := PStr id]> new_lot_data in
  let new_lot_data :=
    <["status" := dict_get_default new_lot_data "status" (PStr "active")]> new_lot_data in
  let* _ := register_names new_lot_data in
  try_except
    (let* _ := get_db_connection in
     let insert_values := map (dict_get new_lot_data) COFFEE_LOT_COLUMNS in
     let* _ := insert_coffee_lot insert_values in
     ret (Response (JLot (serialize_coffee_lot new_lot_data)) 201))
    (fun _ => ret (Response (JMessage (Text "Erro interno do servidor ao adicionar lote.")) 500)).

Definition add_coffee_lot (new_lot_data : gmap string pyval) : M response :=
  let boca_entrada := dict_get new_lot_data "boca_entrada" in
  let* validation_result := validate_boca_entrada boca_entrada None in
  if negb (isValid validation_result) then
    ret (Response (JMessage (validation_message validation_result)) 400)
  else
    let* parsed := parse_data_entrada new_lot_data in
    match parsed with
    | inl bad_date => ret bad_date
    | inr new_lot_data => add_coffee_lot_insert new_lot_data
    end.

(** [update_coffee_lot] from the registry side effects on. *)
Definition update_coffee_lot_write (lot_id : string) (updated_data : gmap string pyval)
    : M response :=
  let* _ := register_names updated_data in
  try_except
    (let* _ := get_db_connection in
     let set_clauses :=
       omap (fun col => pair col <$> updated_data !! col) COFFEE_LOT_COLUMNS in
     match set_clauses with
     | [] => ret (Response (JMessage (Text "Nenhum dado fornecido para atualização.")) 400)
     | _ =>
         let* rowcount := update_coffee_lots set_clauses lot_id in
         if (rowcount =? 0)%nat
         then ret (Response (JMessage (Text "Lote não encontrado")) 404)
         else get_coffee_lot_by_id lot_id
     end)
    (fun _ => ret (Response (JMessage (Text "Erro interno do servidor ao atualizar lote.")) 500)).

Definition update_coffee_lot (lot_id : string) (updated_data : gmap string pyval)
    : M response :=
  let boca_entrada := dict_get updated_data "boca_entrada" in
  let* validation_result := validate_boca_entrada boca_entrada (Some lot_id) in
  if negb (isValid validation_result) then
    ret (Response (JMessage (validation_message validation_result)) 400)
  else
    let* parsed := parse_data_entrada updated_data in
    match parsed with
    | inl bad_date => ret bad_date
    | inr updated_data => update_coffee_lot_write lot_id updated_data
    end.

Definition add_single_producer (data : gmap string pyval) : M response :=
  let producer_name := dict_get data "name" in
  let property_name := dict_get_default data "property" (PStr "") in
  let* blank :=
    (if negb (truthy producer_name) then ret true
     else let* stripped := lift (py_strip producer_name) in
          ret (String.eqb stripped "")) in
  if (blank : bool) then
    ret (Response (JMessage (Text "O nome do produtor não pode ser vazio.")) 400)
  else
    let* normalized_producer_name := lift (py_strip producer_name) in
    let* normalized_property_name :=
      (match property_name with
       | PNone => ret ""
       | _ => lift (py_strip property_name)
       end) in
    try_except
      (let* _ := get_db_connection in
       let* existing_producer :=
         select_producer normalized_producer_name normalized_property_name in
       match existing_producer with
       | Some _ =>
           ret (Response (JMessage (Text "Produtor com o mesmo nome e propriedade já existe.")) 409)
       | None =>
           let* producer_id :=
             insert_producer false normalized_producer_name normalized_property_name in
           match producer_id with
           | Some id =>
               ret (Response (JProducer id normalized_producer_name normalized_property_name) 201)
           | None => raise TypeError   (* cur.fetchone()[0] on no row *)
           end
       end)
      (fun _ => ret (Response (JMessage (Text "Erro interno do servidor ao adicionar produtor.")) 500)).

Definition add_single_driver (data : gmap string pyval) : M response :=
  let driver_name := dict_get data "name" in
  let* blank :=
    (if negb (truthy driver_name) then ret true
     else let* stripped := lift (py_strip driver_name) in
          ret (String.eqb stripped "")) in
  if (blank : bool) then
    ret (Response (JMessage (Text "O nome do caminhoneiro não pode ser vazio.")) 400)
  else
    let* normalized_driver_name := lift (py_strip driver_name) in
    try_except
      (let* _ := get_db_connection in
       let* existing_driver := select_driver normalized_driver_name in
       match existing_driver with
       | Some _ => ret (Response (JMessage (Text "Caminhoneiro com o mesmo nome já existe.")) 409)
       | None =>
           let* driver_id := insert_driver false normalized_driver_name in
           match driver_id with
           | Some id => ret (Response (JDriver id normalized_driver_name) 201)
           | None => raise TypeError   (* cur.fetchone()[0] on no row *)
           end
       end)
      (fun _ => ret (Response (JMessage (Text "Erro interno do servidor ao adicionar caminhoneiro.")) 500)).

(** The [for item in producers_to_import] loop, with its two counters. *)
Fixpoint import_loop (items : list pyval) (added_count updated_count : nat) : M (nat * nat) :=
  match items with
  | [] => ret (added_count, updated_count)
  | item :: items' =>
      match item with
      | PDict d =>
          match d !! "name" with
          | Some n =>
              let* name := lift (py_strip n) in
              let* property_name := lift (py_strip (dict_get_default d "property" (PStr ""))) in
              if negb (String.eqb name "") then
                let* inserted := insert_producer true name property_name in
                match inserted with
                | Some _ => import_loop items' (S added_count) updated_count
                | None => import_loop items' added_count (S updated_count)
                end
              else import_loop items' added_count updated_count
          | None => import_loop items' added_count updated_count
          end
      | _ => import_loop items' added_count updated_count
      end
  end.

Definition import_producer_names (producers_to_import : pyval) : M response :=
  match producers_to_import with
  | PList items =>
      try_except
        (rolled_back
           (let* _ := get_db_connection in
            let* counts := import_loop items 0 0 in
            ret (Response (JMessage (ImportacaoConcluida counts.1 counts.2)) 200)))
        (fun _ => ret (Response (JMessage (Text "Erro interno do servidor ao importar nomes de produtores.")) 500))
  | _ =>
      ret (Response (JMessage (Text "O corpo da requisição deve ser uma lista de objetos de produtores (e.g., [{'name': 'Nome', 'property': 'Propriedade'}]).")) 400)
  end.

(** ** The other statements and handlers *)

(** [DELETE FROM coffee_lots WHERE id = %s]; the result is [cur.rowcount]. *)
Definition delete_coffee_lots (lot_id : string) : M nat :=
  fun w =>
    let hit lot := sql_eq_str (dict_get lot "id") lot_id in
    (Ok (length (List.filter hit (coffee_lots w))),
     set_coffee_lots (List.filter (fun lot => negb (hit lot)) (coffee_lots w)) w).

(** [DELETE FROM producers WHERE TRIM(LOWER(name)) = TRIM(LOWER(%s)) AND
    TRIM(LOWER(property_name)) = TRIM(LOWER(%s))]. *)
Definition delete_producers (name property : string) : M nat :=
  fun w =>
    (Ok (length (List.filter (same_producer name property) (producers w))),
     set_producers (List.filter (fun p => negb (same_producer name property p)) (producers w)) w).

(** [DELETE FROM drivers WHERE TRIM(LOWER(name)) = TRIM(LOWER(%s))]. *)
Definition delete_drivers (name : string) : M nat :=
  fun w =>
    (Ok (length (List.filter (same_driver name) (drivers w))),
     set_drivers (List.filter (fun d => negb (same_driver name d)) (drivers w)) w).

(** [SELECT * FROM coffee_lots], then [fetchall()]. *)
Definition select_all_lots : M (list (gmap string pyval)) :=
  fun w => (Ok (coffee_lots w), w).

(** What [get_all_coffee_lots] gives to [jsonify]: the list of lots, or a
    message. *)
Inductive listing :=
| Lots (lots : list (gmap string pyval))
| NoLots (m : message).

Definition get_all_coffee_lots : M (listing * Z) :=
  try_except
    (let* _ := get_db_connection in
     let* lots := select_all_lots in
     ret (Lots (map serialize_coffee_lot lots), 200))
    (fun _ => ret (NoLots (Text "Erro interno do servidor ao buscar lotes."), 500)).

Definition delete_coffee_lot (lot_id : string) : M response :=
  try_except
    (let* _ := get_db_connection in
     let* rowcount := delete_coffee_lots lot_id in
     if (0 <? rowcount)%nat
     then ret (Response (JMessage (Text "Lote removido com sucesso")) 204)
     else ret (Response (JMessage (Text "Lote não encontrado")) 404))
    (fun _ => ret (Response (JMessage (Text "Erro interno do servidor ao deletar lote.")) 500)).

Definition delete_producer (data : gmap string pyval) : M response :=
  let producer_name := dict_get data "name" in
  let property_name := dict_get_default data "property" (PStr "") in
  let* blank :=
    (if negb (truthy producer_name) then ret true
     else let* stripped := lift (py_strip producer_name) in
          ret (String.eqb stripped "")) in
  if (blank : bool) then
    ret (Response (JMessage (Text "O nome do produtor é obrigatório para a exclusão.")) 400)
  else
    let* normalized_producer_name := lift (py_strip producer_name) in
    let* normalized_property_name :=
      (match property_name with
       | PNone => ret ""
       | _ => lift (py_strip property_name)
       end) in
    try_except
      (let* _ := get_db_connection in
       let* rowcount := delete_producers normalized_producer_name normalized_property_name in
       if (0 <? rowcount)%nat
       then ret (Response (JMessage (Text "Produtor removido com sucesso.")) 204)
       else ret (Response (JMessage (Text "Produtor não encontrado ou já removido.")) 404))
      (fun _ => ret (Response (JMessage (Text "Erro interno do servidor ao deletar produtor.")) 500)).

Definition delete_driver_route (data : gmap string pyval) : M response :=
  let driver_name := dict_get data "name" in
  let* blank :=
    (if negb (truthy driver_name) then ret true
     else let* stripped := lift (py_strip driver_name) in
          ret (String.eqb stripped "")) in
  if (blank : bool) then
    ret (Response (JMessage (Text "O nome do caminhoneiro é obrigatório para a exclusão.")) 400)
  else
    let* normalized_driver_name := lift (py_strip driver_name) in
    try_except
      (let* _ := get_db_connection in
       let* rowcount := delete_drivers normalized_driver_name in
       if (0 <? rowcount)%nat
       then ret (Response (JMessage (Text "Caminhoneiro removido com sucesso.")) 204)
       else ret (Response (JMessage (Text "Caminhoneiro não encontrado ou já removido.")) 404))
      (fun _ => ret (Response (JMessage (Text "Erro interno do servidor ao deletar caminhoneiro.")) 500)).

(** ** Notions used to state the properties *)

(** The number a Python value denotes in a comparison, if it is one. *)
Definition number (v : pyval) : option Q :=
  match v with
  | PBool b => Some (inject_Z (Z.b2z b))
  | PInt z => Some (inject_Z z)
  | PFloat q => Some q
  | _ => None
  end.

(** A name the registry ignores: a false value, or a blank string. *)
Definition blank_name (v : pyval) : bool :=
  negb (truthy v) || match v with PStr s => String.eqb (strip s) "" | _ => false end.

(** ASCII text: on it [LOWER] is the same in every locale. *)
Definition is_ascii (c : ascii) : bool := (nat_of_ascii c <? 128)%nat.

Fixpoint ascii_text (s : string) : bool :=
  match s with
  | EmptyString => true
  | String c s' => is_ascii c && ascii_text s'
  end.

(** [LOWER] under a locale whose lowering of a character is [lower], and the
    key [TRIM(LOWER(s))] under it. *)
Fixpoint LOWER_by (lower : ascii -> ascii) (s : string) : string :=
  match s with
  | EmptyString => EmptyString
  | String c s' => String (lower c) (LOWER_by lower s')
  end.

Definition normalized_by (lower : ascii -> ascii) (s : string) : string :=
  TRIM (LOWER_by lower s).

(** The lowering of the C locale. *)
Definition lower_char_C (c : ascii) : ascii :=
  let n := nat_of_ascii c in
  if ((65 <=? n) && (n <=? 90))%nat then ascii_of_nat (n + 32) else c.



Definition range_message : message := Text "Nº da Boca de Entrada deve ser entre 1 e 8.".

(** A world with empty tables, a reachable database and UUIDs [u0], [u1], ... *)
Definition numbered_uuid (n : nat) : string :=
  String "u" (NilEmpty.string_of_uint (Nat.to_uint n)).

Definition empty_world : world := World true 0 numbered_uuid 0 [] [] [].

Definition unreachable_world : world := World false 0 numbered_uuid 0 [] [] [].

(** A store whose only lot, [L1], is active in bay 3. *)
Definition lot_L1 : gmap string pyval :=
  <["id" := PStr "L1"]> (<["status" := PStr "active"]> (<["boca_entrada" := PInt 3]> ∅)).

Definition occupied_world : world := World true 0 numbered_uuid 0 [lot_L1] [] [].

Definition no_data_response : response :=
  Response (JMessage (Text "Nenhum dado fornecido para atualização.")) 400.

(** The computation [m] leaves the component [f] of the world as it was. *)
Definition keeps {A X : Type} (f : world -> X) (m : M A) : Prop :=
  forall w, f (m w).2 = f w.

Definition validation_error_response : response :=
  Response (JMessage (Text "Erro interno ao validar boca de entrada.")) 400.

Definition is_digit (c : ascii) : bool :=
  match digit_of c with Some _ => true | None => false end.

(** The shape [YYYY-MM-DD]: ten characters, digits around two hyphens. *)
Definition iso_date_shape (s : string) : bool :=
  match s with
  | String y1 (String y2 (String y3 (String y4 (String h1
      (String m1 (String m2 (String h2 (String d1 (String d2 EmptyString))))))))) =>
      is_digit y1 && is_digit y2 && is_digit y3 && is_digit y4 && Ascii.eqb h1 "-" &&
      is_digit m1 && is_digit m2 && Ascii.eqb h2 "-" && is_digit d1 && is_digit d2
  | _ => false
  end.

(** The dict the handler has built when it reaches the INSERT. *)
Definition created_lot (data : gmap string pyval) (id : string) : gmap string pyval :=
  <["status" := dict_get_default (<["id" := PStr id]> data) "status" (PStr "active")]>
    (<["id" := PStr id]> data).

(** The lot of the round-trip example, its 201 response and its row. *)
Definition lot_2024 : gmap string pyval :=
  <["data_entrada" := PStr "2024-03-15"]> {[ "boca_entrada" := PInt 1 ]}.

Definition add_coffee_lot_response_2024 : response :=
  Response (JLot (<["status" := PStr "active"]> (<["id" := PStr "u0"]>
             (<["data_entrada" := PStr "2024-03-15"]> {[ "boca_entrada" := PInt 1 ]})))) 201.

Definition stored_lot_2024 : gmap string pyval :=
  <["data_entrada" := PDate (Date 2024 3 15)]> (<["status" := PStr "active"]>
    (<["id" := PStr "u0"]> (<["boca_entrada" := PInt 1]>
      (list_to_map (map (fun c => (c, PNone)) COFFEE_LOT_COLUMNS))))).

(** A lot for bay 1 whose producer name is blank and whose driver is absent. *)
Definition lot_blank_names : gmap string pyval :=
  <["nome_produtor" := PStr "   "]> (<["nome_propriedade" := PStr "Farm"]>
    {[ "boca_entrada" := PInt 1 ]}).

(** The property a registry function works with: [""] for [None], the
    stripped text for a string, nothing ([AttributeError]) for another value. *)
Definition property_text (v : pyval) : option string :=
  match v with
  | PNone => Some ""
  | PStr p => Some (strip p)
  | _ => None
  end.










Definition driver_conflict : response :=
  Response (JMessage (Text "Caminhoneiro com o mesmo nome já existe.")) 409.

(** A registry that holds the producer Maria of Farm and the driver Joe. *)
Definition registry_world : world :=
  World true 0 numbered_uuid 2 [] [Producer "u0" "Maria" (Some "Farm")] [Driver "u1" "Joe"].

(** The normalized key under which the unique index holds a producer; a row
    with a NULL property has none. *)
Definition producer_key (r : producer) : option (string * string) :=
  match producer_property r with
  | Some q => Some (normalized (producer_name r), normalized q)
  | None => None
  end.

Definition producer_keys (ps : list producer) : gset (string * string) :=
  list_to_set (omap producer_key ps).

(** The (name, property) an item of an import batch stands for, trimmed;
    nothing for an item that the loop skips (not an object, no name, or a
    blank name). *)
Definition import_entry (item : pyval) : option (string * string) :=
  match item with
  | PDict d =>
      match d !! "name", dict_get_default d "property" (PStr "") with
      | Some (PStr n), PStr p =>
          if String.eqb (strip n) "" then None else Some (strip n, strip p)
      | _, _ => None
      end
  | _ => None
  end.

(** An item the loop can process: when it has a name, the name and the
    property are strings, and they fit the columns. *)
Definition importable (item : pyval) : Prop :=
  match item with
  | PDict d =>
      match d !! "name" with
      | Some (PStr n) =>
          exists p, dict_get_default d "property" (PStr "") = PStr p /\
                    (String.length (strip n) <= 255)%nat /\ (String.length (strip p) <= 255)%nat
      | Some _ => False
      | None => True
      end
  | _ => True
  end.

(** The summary the spec asks for, in its words: an entry whose normalized
    key is already present (in the registry, or earlier in the batch) counts
    as existing, any other entry counts as added and makes its key present. *)
Fixpoint tally (present : gset (string * string)) (entries : list (string * string))
    : nat * nat :=
  match entries with
  | [] => (0%nat, 0%nat)
  | e :: rest =>
      let k := (normalized e.1, normalized e.2) in
      if bool_decide (k ∈ present)
      then ((tally present rest).1, S (tally present rest).2)
      else (S (tally ({[ k ]} ∪ present) rest).1, (tally ({[ k ]} ∪ present) rest).2)
  end.

(** The UUIDs still to come are new to the producers table and distinct. *)
Definition fresh_producer_ids (w : world) : Prop :=
  (forall k, ~ In (uuids w (uuid_next w + k)%nat) (map producer_id (producers w))) /\
  (forall j k, uuids w (uuid_next w + j)%nat = uuids w (uuid_next w + k)%nat -> j = k).

(** The batch of the spec: the name A, twice. *)
Definition batch_A_A : list pyval :=
  [PDict {[ "name" := PStr "A" ]}; PDict {[ "name" := PStr "A" ]}].

Definition not_a_list : response :=
  Response (JMessage (Text "O corpo da requisição deve ser uma lista de objetos de produtores (e.g., [{'name': 'Nome', 'property': 'Propriedade'}]).")) 400.

(** A computation lets no store error through. *)
Definition no_store_error {A : Type} (m : M A) : Prop :=
  forall w, (m w).1 <> Raise DatabaseError.

Definition lot_not_found : response :=
  Response (JMessage (Text "Lote não encontrado")) 404.

Definition lot_removed : response :=
  Response (JMessage (Text "Lote removido com sucesso")) 204.

(** The computation [m] keeps the invariant [P] of the world. *)
Definition preserves {A : Type} (P : world -> Prop) (m : M A) : Prop :=
  forall w, P w -> P (m w).2.

Definition producer_removed : response :=
  Response (JMessage (Text "Produtor removido com sucesso.")) 204.




(** The primary key of [coffee_lots] holds. *)
Definition lots_keyed (w : world) : Prop := primary_key_ok (coffee_lots w) = true.


(** The lot is active in bay [b]: the WHERE clause of the validator's query,
    [status = 'active' AND boca_entrada = %s]. *)
Definition holds_bay (b : Z) (lot : gmap string pyval) : bool :=
  sql_eq_str (dict_get lot "status") "active" &&
  sql_eq_number (dict_get lot "boca_entrada") (PInt b).

(** At most one active lot per bay. *)
Definition bays_exclusive (w : world) : Prop :=
  forall b, (length (List.filter (holds_bay b) (coffee_lots w)) <= 1)%nat.

Definition bay_invariant (w : world) : Prop := lots_keyed w /\ bays_exclusive w.

(** The payload's bay number is not a [float]. *)
Definition integral_bay (data : gmap string pyval) : Prop :=
  forall q, dict_get data "boca_entrada" <> PFloat q.

Definition invalid_date : response :=
  Response (JMessage (Text "Formato de data inválido. Use YYYY-MM-DD.")) 400.

(** Payloads for bay 1 with a date that is no calendar date, and with a date
    that is a number. *)
Definition lot_feb30 : gmap string pyval :=
  <["data_entrada" := PStr "2023-02-30"]> {[ "boca_entrada" := PInt 1 ]}.

Definition lot_numeric_date : gmap string pyval :=
  <["data_entrada" := PInt 20240315]> {[ "boca_entrada" := PInt 1 ]}.

(** A text that no version of Python reads as a date: an ASCII text whose
    length is none of 7, 8 and 10, or a text of the form YYYY-MM-DD that is
    no date of the calendar. *)
Definition rejected_date_text (s : string) : Prop :=
  (ascii_text s = true /\ String.length s <> 7%nat /\ String.length s <> 8%nat /\
   String.length s <> 10%nat) \/
  (iso_date_shape s = true /\ fromisoformat s = None).

Definition import_failed : response :=
  Response (JMessage (Text "Erro interno do servidor ao importar nomes de produtores.")) 500.

(** The batch B, then C with a null property. *)
Definition batch_B_C_null : list pyval :=
  [PDict {[ "name" := PStr "B" ]};
   PDict (<["property" := PNone]> {[ "name" := PStr "C" ]})].

(** The names JOSÉ and josé: the last character has code point 201, 233. *)
Definition JOSE_upper : string := String "J" (String "O" (String "S" (String "201" ""))).
Definition jose_lower : string := String "j" (String "o" (String "s" (String "233" ""))).
(** * Properties *)

Example strip_maria : strip "Maria " = "Maria".
Proof. reflexivity. Qed.

Example strip_tab : strip (String "009" " a b  ") = "a b".
Proof. reflexivity. Qed.

Example normalized_farm : normalized " Farm" = "farm".
Proof. reflexivity. Qed.

Example fromisoformat_ex : fromisoformat "2024-03-15" = Some (Date 2024 3 15).
Proof. reflexivity. Qed.

Example fromisoformat_feb30 : fromisoformat "2023-02-30" = None.
Proof. reflexivity. Qed.

Example isoformat_ex : isoformat (Date 987 3 5) = "0987-03-05".
Proof. reflexivity. Qed.

(** ** The bay validator *)

Lemma chained_le_outside (v : pyval) (q : Q) :
  number v = Some q -> ~ (1 <= q /\ q <= 8)%Q -> chained_le 1 v 8 = Ok false.
Proof.
  intros Hn Hout. unfold chained_le.
  destruct v as [ | b | z | r | | | | ]; simpl in Hn; try discriminate;
    injection Hn as <-; simpl.
  - destruct b; simpl in *; [exfalso; apply Hout; split; discriminate | reflexivity].
  - destruct (1 <=? z) eqn:H1; [ | reflexivity].
    destruct (z <=? 8) eqn:H8; [ | reflexivity].
    exfalso; apply Hout. apply Z.leb_le in H1, H8.
    split; [change 1%Q with (inject_Z 1) | change 8%Q with (inject_Z 8)];
      rewrite <- Zle_Qle; assumption.
  - destruct (Qle_bool (inject_Z 1) r) eqn:H1; [ | reflexivity].
    destruct (Qle_bool r (inject_Z 8)) eqn:H8; [ | reflexivity].
    exfalso; apply Hout. apply Qle_bool_iff in H1, H8. split; assumption.
Qed.

Lemma chained_le_not_number (v : pyval) :
  number v = None -> chained_le 1 v 8 = Raise TypeError.
Proof. destruct v; simpl; intros H; try discriminate; reflexivity. Qed.

Lemma chained_le_int (z : Z) :
  1 <= z <= 8 -> chained_le 1 (PInt z) 8 = Ok true.
Proof.
  intros [H1 H8]. unfold chained_le; simpl.
  apply Z.leb_le in H1, H8. rewrite H1, H8. reflexivity.
Qed.

Lemma validate_out_of_range (boca_num : pyval) (current_lot_id : option string) (w : world) :
  boca_num = PNone \/ (exists q, number boca_num = Some q /\ ~ (1 <= q /\ q <= 8)%Q) ->
  validate_boca_entrada boca_num current_lot_id w = (Ok (Validation false range_message), w).
Proof.
  intros [-> | (q & Hq & Hout)]; [reflexivity | ].
  unfold validate_boca_entrada, bind, lift, ret.
  rewrite (chained_le_outside _ _ Hq Hout).
  destruct boca_num; try discriminate; reflexivity.
Qed.

Lemma validate_not_number (boca_num : pyval) (current_lot_id : option string) (w : world) :
  boca_num <> PNone -> number boca_num = None ->
  validate_boca_entrada boca_num current_lot_id w = (Raise TypeError, w).
Proof.
  intros Hnn Hn. unfold validate_boca_entrada, bind, lift, ret.
  rewrite (chained_le_not_number _ Hn).
  destruct boca_num; try discriminate; try reflexivity. congruence.
Qed.

Lemma get_db_connection_up (w : world) :
  db_up w = true -> get_db_connection w = (Ok tt, connected w).
Proof. unfold get_db_connection. intros ->. reflexivity. Qed.

Lemma get_db_connection_down (w : world) :
  db_up w = false -> get_db_connection w = (Raise DatabaseError, connected w).
Proof. unfold get_db_connection. intros ->. reflexivity. Qed.

Lemma validate_int_in_range (z : Z) (current_lot_id : option string) (w : world) :
  1 <= z <= 8 -> db_up w = true ->
  validate_boca_entrada (PInt z) current_lot_id w =
    (Ok (if existsb (occupies (PInt z) current_lot_id) (coffee_lots w)
         then Validation false (BocaEmUso (PInt z))
         else Validation true (Text "")), connected w).
Proof.
  intros Hz Hup. unfold validate_boca_entrada, bind, lift, ret, try_except.
  rewrite (chained_le_int _ Hz). simpl.
  rewrite (get_db_connection_up _ Hup). simpl.
  destruct (existsb _ _); reflexivity.
Qed.

Lemma validate_unreachable (z : Z) (current_lot_id : option string) (w : world) :
  1 <= z <= 8 -> db_up w = false ->
  validate_boca_entrada (PInt z) current_lot_id w =
    (Ok (Validation false (Text "Erro interno ao validar boca de entrada.")), connected w).
Proof.
  intros Hz Hup. unfold validate_boca_entrada, bind, lift, ret, try_except.
  rewrite (chained_le_int _ Hz). simpl.
  rewrite (get_db_connection_down _ Hup). reflexivity.
Qed.




(** The self-exclusion of the spec: L1 holds bay 3, so bay 3 is refused to a
    new lot and granted to an update of L1 itself. *)
Example validate_taken :
  (validate_boca_entrada (PInt 3) None occupied_world).1
    = Ok (Validation false (BocaEmUso (PInt 3))).
Proof. reflexivity. Qed.

Example validate_self_excluded :
  (validate_boca_entrada (PInt 3) (Some "L1") occupied_world).1
    = Ok (Validation true (Text "")).
Proof. reflexivity. Qed.


(** ** PUT /api/coffee-lots/<lot_id> *)

Lemma update_rejected_without_bay (lot_id : string) (updated_data : gmap string pyval) (w : world) :
  dict_get updated_data "boca_entrada" = PNone \/
  (exists q, number (dict_get updated_data "boca_entrada") = Some q /\ ~ (1 <= q /\ q <= 8)%Q) ->
  update_coffee_lot lot_id updated_data w = (Ok (Response (JMessage range_message) 400), w).
Proof.
  intros H. unfold update_coffee_lot, bind.
  rewrite (validate_out_of_range _ (Some lot_id) w H). reflexivity.
Qed.

(** C2 on the code: a PUT whose payload holds only [status] is refused with
    400 and the range message of the bay validator, for every lot and every
    store, and nothing is written. *)
Theorem update_status_only_rejected (lot_id : string) (v : pyval) (w : world) :
  update_coffee_lot lot_id {[ "status" := v ]} w
    = (Ok (Response (JMessage range_message) 400), w).
Proof.
  apply update_rejected_without_bay. left.
  unfold dict_get. rewrite lookup_singleton_ne by discriminate. reflexivity.
Qed.

Lemma update_rejected_not_number (lot_id : string) (updated_data : gmap string pyval) (w : world) :
  dict_get updated_data "boca_entrada" <> PNone ->
  number (dict_get updated_data "boca_entrada") = None ->
  update_coffee_lot lot_id updated_data w = (Raise TypeError, w).
Proof.
  intros H1 H2. unfold update_coffee_lot, bind.
  rewrite (validate_not_number _ (Some lot_id) w H1 H2). reflexivity.
Qed.

Lemma validate_none_invalid (current_lot_id : option string) (w : world) (v : validation) (w' : world) :
  validate_boca_entrada PNone current_lot_id w = (Ok v, w') -> isValid v = false.
Proof. intros H. injection H as <- _. reflexivity. Qed.

(** The four messages of the validator. *)
Lemma validate_messages (boca_num : pyval) (current_lot_id : option string)
    (w w' : world) (v : validation) :
  validate_boca_entrada boca_num current_lot_id w = (Ok v, w') ->
  v = Validation false range_message \/
  v = Validation false (BocaEmUso boca_num) \/
  v = Validation true (Text "") \/
  v = Validation false (Text "Erro interno ao validar boca de entrada.").
Proof.
  unfold validate_boca_entrada, bind at 1.
  destruct (match boca_num with PNone => ret true | _ => _ end w) as [[[] | e] w1];
    [ | | discriminate].
  - unfold ret. intros [= <- _]. left. reflexivity.
  - unfold try_except, bind, ret.
    destruct (get_db_connection w1) as [[[] | e] w2].
    + destruct (select_active_boca _ _ w2) as [[[] | e] w3]; intros [= <- _]; auto.
    + intros [= <- _]. auto.
Qed.

Lemma parse_data_entrada_keeps (data data' : gmap string pyval) (w w' : world) (k : string) :
  k <> "data_entrada" ->
  parse_data_entrada data w = (Ok (inr data'), w') ->
  data' !! k = data !! k /\ w' = w.
Proof.
  intros Hk. unfold parse_data_entrada, ret, raise.
  destruct (data !! "data_entrada") as [v | ]; [ | intros [= <- <-]; auto].
  destruct (truthy v); [ | intros [= <- <-]; auto].
  destruct (py_fromisoformat v) as [d | [ | | | ]]; try discriminate.
  intros [= <- <-]. split; [ | reflexivity].
  apply lookup_insert_ne. congruence.
Qed.

Lemma get_coffee_lot_by_id_not_no_data (lot_id : string) (w : world) :
  (get_coffee_lot_by_id lot_id w).1 <> Ok no_data_response.
Proof.
  unfold get_coffee_lot_by_id, try_except, bind, ret, select_lot_by_id, get_db_connection.
  destruct (db_up w); simpl; [ | discriminate].
  destruct (find _ _) as [l | ]; simpl; [ | discriminate].
  destruct (negb _); simpl; discriminate.
Qed.

Lemma set_clauses_nonempty (data : gmap string pyval) (v : pyval) :
  data !! "boca_entrada" = Some v ->
  omap (fun col => pair col <$> data !! col) COFFEE_LOT_COLUMNS <> [].
Proof.
  intros H E.
  assert (Hin : ("boca_entrada", v) ∈ omap (fun col => pair col <$> data !! col) COFFEE_LOT_COLUMNS).
  { apply list_elem_of_omap. exists "boca_entrada". split.
    - apply list_elem_of_In. unfold COFFEE_LOT_COLUMNS. simpl.
      do 6 right. left. reflexivity.
    - rewrite H. reflexivity. }
  rewrite E in Hin. inversion Hin.
Qed.

Lemma write_never_no_data (lot_id : string) (data : gmap string pyval) (b : pyval) (w : world) :
  data !! "boca_entrada" = Some b ->
  (update_coffee_lot_write lot_id data w).1 <> Ok no_data_response.
Proof.
  intros Hk. unfold update_coffee_lot_write, bind at 1.
  destruct (register_names data w) as [[[] | e] w3]; [ | cbn [fst]; discriminate].
  unfold try_except, bind at 1.
  destruct (get_db_connection w3) as [[[] | e] w4]; [ | unfold ret; cbn [fst]; discriminate].
  pose proof (set_clauses_nonempty data b Hk) as Hne.
  destruct (omap _ COFFEE_LOT_COLUMNS) as [ | c cs]; [congruence | ].
  unfold bind.
  destruct (update_coffee_lots (c :: cs) lot_id w4) as [[n | e] w5];
    [ | unfold ret; cbn [fst]; discriminate].
  destruct (n =? 0)%nat; [unfold ret; cbn [fst]; discriminate | ].
  pose proof (get_coffee_lot_by_id_not_no_data lot_id w5) as Hg.
  destruct (get_coffee_lot_by_id lot_id w5) as [[r | e] w6]; cbn [fst] in *;
    [assumption | unfold ret; cbn [fst]; discriminate].
Qed.

(** The branch of [update_coffee_lot] that answers "Nenhum dado fornecido
    para atualização." is dead. *)
Lemma update_never_no_data (lot_id : string) (updated_data : gmap string pyval) (w : world) :
  (update_coffee_lot lot_id updated_data w).1 <> Ok no_data_response.
Proof.
  unfold update_coffee_lot, bind at 1.
  destruct (validate_boca_entrada _ _ w) as [[v | e] w1] eqn:Hv; [ | cbn [fst]; discriminate].
  destruct (isValid v) eqn:Hvalid; cbn [negb].
  2: { unfold ret; cbn [fst]. intros [= Hm].
       destruct (validate_messages _ _ _ _ _ Hv) as [-> | [-> | [-> | ->]]];
         cbn [validation_message] in Hm; discriminate. }
  destruct (updated_data !! "boca_entrada") as [b | ] eqn:Hb.
  2: { unfold dict_get in Hv. rewrite Hb in Hv. cbn [default] in Hv.
       apply validate_none_invalid in Hv. congruence. }
  unfold bind.
  destruct (parse_data_entrada updated_data w1) as [[[bad | data'] | e] w2] eqn:Hp.
  - unfold parse_data_entrada, ret, raise in Hp.
    destruct (updated_data !! "data_entrada") as [d | ]; [ | discriminate].
    destruct (truthy d); [ | discriminate].
    destruct (py_fromisoformat d) as [? | [ | | | ]]; try discriminate.
    injection Hp as <- _. unfold ret; cbn [fst]. discriminate.
  - apply (parse_data_entrada_keeps _ _ _ _ "boca_entrada") in Hp as [Hk ->]; [ | discriminate].
    rewrite Hb in Hk. apply (write_never_no_data lot_id data' b w1 Hk).
  - cbn [fst]. discriminate.
Qed.

(** C9 (as the code has it).  A PUT whose payload lacks [boca_entrada], or
    holds null or a number outside [1,8] there, is answered 400 with the
    range message and the world is untouched; one whose [boca_entrada] is not
    a number raises [TypeError], with the world untouched as well; and no
    PUT is ever answered by the "no data" 400 of the handler. *)
Theorem update_requires_bay (lot_id : string) (updated_data : gmap string pyval) (w : world) :
  (dict_get updated_data "boca_entrada" = PNone \/
   (exists q, number (dict_get updated_data "boca_entrada") = Some q /\ ~ (1 <= q /\ q <= 8)%Q) ->
   update_coffee_lot lot_id updated_data w = (Ok (Response (JMessage range_message) 400), w)) /\
  (dict_get updated_data "boca_entrada" <> PNone ->
   number (dict_get updated_data "boca_entrada") = None ->
   update_coffee_lot lot_id updated_data w = (Raise TypeError, w)) /\
  (update_coffee_lot lot_id updated_data w).1 <> Ok no_data_response.
Proof.
  split; [ | split].
  - apply update_rejected_without_bay.
  - apply update_rejected_not_number.
  - apply update_never_no_data.
Qed.

(** Witness of [update_requires_bay]: an empty payload and a payload with
    bay 0 are answered 400, a payload with the bay "3" raises. *)
Lemma update_requires_bay_witness :
  update_coffee_lot "L1" ∅ occupied_world
    = (Ok (Response (JMessage range_message) 400), occupied_world) /\
  update_coffee_lot "L1" {[ "boca_entrada" := PInt 0 ]} occupied_world
    = (Ok (Response (JMessage range_message) 400), occupied_world) /\
  update_coffee_lot "L1" {[ "boca_entrada" := PStr "3" ]} occupied_world
    = (Raise TypeError, occupied_world).
Proof.
  split; [ | split].
  - apply (update_requires_bay "L1" ∅ occupied_world). left. reflexivity.
  - apply (update_requires_bay "L1" {[ "boca_entrada" := PInt 0 ]} occupied_world).
    right. exists (inject_Z 0). split; [reflexivity | ].
    intros [H _]. vm_compute in H. apply H. reflexivity.
  - apply (update_requires_bay "L1" {[ "boca_entrada" := PStr "3" ]} occupied_world);
      [discriminate | reflexivity].
Defined.

(** C9 as stated fails: the bay "3" is not in [1,8] as a number, and the
    request is not answered 400: the handler raises [TypeError]. *)
Lemma update_string_bay_raises :
  (update_coffee_lot "L1" {[ "boca_entrada" := PStr "3" ]} occupied_world).1 = Raise TypeError.
Proof. reflexivity. Qed.

(** ** Store errors *)

(** C8 on the code: when the store is unreachable, a POST or a PUT with a bay
    number in [1,8] is answered 400, with the message of the validator,
    and not 500. *)
Theorem validation_store_error_is_400
    (z : Z) (lot_id : string) (data : gmap string pyval) (w : world) :
  1 <= z <= 8 -> db_up w = false -> data !! "boca_entrada" = Some (PInt z) ->
  add_coffee_lot data w = (Ok validation_error_response, connected w) /\
  update_coffee_lot lot_id data w = (Ok validation_error_response, connected w).
Proof.
  intros Hz Hdown Hb.
  unfold add_coffee_lot, update_coffee_lot, bind, dict_get. rewrite Hb. simpl.
  rewrite !(validate_unreachable z _ w Hz Hdown). split; reflexivity.
Qed.

Lemma validation_store_error_is_400_witness :
  add_coffee_lot {[ "boca_entrada" := PInt 3 ]} unreachable_world
    = (Ok validation_error_response, connected unreachable_world) /\
  update_coffee_lot "L1" {[ "boca_entrada" := PInt 3 ]} unreachable_world
    = (Ok validation_error_response, connected unreachable_world).
Proof.
  apply (validation_store_error_is_400 3 "L1" {[ "boca_entrada" := PInt 3 ]} unreachable_world);
    [lia | reflexivity | reflexivity].
Defined.


Lemma add_single_producer_unreachable (n : string) (w : world) :
  strip n <> "" -> db_up w = false ->
  add_single_producer {[ "name" := PStr n ]} w
    = (Ok (Response (JMessage (Text "Erro interno do servidor ao adicionar produtor.")) 500),
       connected w).
Proof.
  intros Hn H. unfold add_single_producer, try_except, bind, lift, ret, dict_get, dict_get_default.
  rewrite lookup_singleton_eq, lookup_singleton_ne by discriminate. simpl.
  destruct (String.eqb_spec n "") as [-> | Hne]; [exfalso; apply Hn; reflexivity | ]. simpl.
  destruct (String.eqb_spec (strip n) "") as [E | _]; [contradiction | ].
  rewrite (get_db_connection_down _ H). reflexivity.
Qed.

Lemma import_producer_names_unreachable (items : list pyval) (w : world) :
  db_up w = false ->
  import_producer_names (PList items) w
    = (Ok (Response (JMessage (Text "Erro interno do servidor ao importar nomes de produtores.")) 500),
       connected w).
Proof.
  intros H. unfold import_producer_names, try_except, rolled_back, bind.
  rewrite (get_db_connection_down _ H). simpl. reflexivity.
Qed.

(** ** What a computation leaves untouched *)

Section Keeps.
Context {X : Type} (f : world -> X).

Lemma keeps_ret {A} (a : A) : keeps f (ret a).
Proof. intros w. reflexivity. Qed.

Lemma keeps_raise {A} (e : exn) : keeps f (raise (A := A) e).
Proof. intros w. reflexivity. Qed.

Lemma keeps_lift {A} (r : result A) : keeps f (lift r).
Proof. intros w. reflexivity. Qed.

Lemma keeps_bind {A B} (m : M A) (k : A -> M B) :
  keeps f m -> (forall a, keeps f (k a)) -> keeps f (bind m k).
Proof.
  intros Hm Hk w. unfold bind. specialize (Hm w).
  destruct (m w) as [[a | e] w1]; simpl in *; [ | assumption].
  rewrite (Hk a w1). assumption.
Qed.

Lemma keeps_try_except {A} (m : M A) (h : exn -> M A) :
  keeps f m -> (forall e, keeps f (h e)) -> keeps f (try_except m h).
Proof.
  intros Hm Hh w. unfold try_except. specialize (Hm w).
  destruct (m w) as [[a | e] w1]; simpl in *; [assumption | ].
  rewrite (Hh e w1). assumption.
Qed.
End Keeps.

Create HintDb keeps discriminated.
#[export] Hint Resolve keeps_ret keeps_raise keeps_lift : keeps.

(** Splits a computation along its binds, handlers and case analyses. *)
Ltac keeps_step :=
  match goal with
  | |- keeps _ (bind _ _) => apply keeps_bind; [ | intros ? ]
  | |- keeps _ (try_except _ _) => apply keeps_try_except; [ | intros ? ]
  | |- keeps _ (if ?b then _ else _) => destruct b
  | |- keeps _ (match ?x with _ => _ end) => destruct x
  | |- keeps _ _ => solve [auto with keeps]
  end.

Ltac keeps_tac := repeat keeps_step.

(** The statements of the store, one by one. *)
Ltac keeps_statement :=
  intros w;
  unfold insert_coffee_lot, update_coffee_lots, insert_producer, insert_driver,
    select_active_boca, select_lot_by_id, select_producer, select_driver;
  unfold get_db_connection, uuid4;
  cbv beta iota;
  repeat match goal with
         | |- _ (snd (match ?x with _ => _ end)) = _ =>
             destruct x eqn:?; cbn [snd fst]; cbv beta iota
         end;
  first [reflexivity | unfold connected; cbn; congruence].

Lemma keeps_up_connection : keeps db_up get_db_connection.
Proof. keeps_statement. Qed.
Lemma keeps_uuids_connection : keeps uuids get_db_connection.
Proof. keeps_statement. Qed.
Lemma keeps_next_connection : keeps uuid_next get_db_connection.
Proof. keeps_statement. Qed.
Lemma keeps_lots_connection : keeps coffee_lots get_db_connection.
Proof. keeps_statement. Qed.
Lemma keeps_producers_connection : keeps producers get_db_connection.
Proof. keeps_statement. Qed.
Lemma keeps_drivers_connection : keeps drivers get_db_connection.
Proof. keeps_statement. Qed.

Lemma keeps_up_uuid4 : keeps db_up uuid4.
Proof. keeps_statement. Qed.
Lemma keeps_uuids_uuid4 : keeps uuids uuid4.
Proof. keeps_statement. Qed.
Lemma keeps_lots_uuid4 : keeps coffee_lots uuid4.
Proof. keeps_statement. Qed.
Lemma keeps_producers_uuid4 : keeps producers uuid4.
Proof. keeps_statement. Qed.
Lemma keeps_drivers_uuid4 : keeps drivers uuid4.
Proof. keeps_statement. Qed.

Lemma keeps_select_boca {X} (f : world -> X) b c : keeps f (select_active_boca b c).
Proof. keeps_statement. Qed.
Lemma keeps_select_lot {X} (f : world -> X) i : keeps f (select_lot_by_id i).
Proof. keeps_statement. Qed.
Lemma keeps_select_producer {X} (f : world -> X) n p : keeps f (select_producer n p).
Proof. keeps_statement. Qed.
Lemma keeps_select_driver {X} (f : world -> X) n : keeps f (select_driver n).
Proof. keeps_statement. Qed.

Lemma keeps_up_insert_lot vs : keeps db_up (insert_coffee_lot vs).
Proof. keeps_statement. Qed.
Lemma keeps_uuids_insert_lot vs : keeps uuids (insert_coffee_lot vs).
Proof. keeps_statement. Qed.
Lemma keeps_next_insert_lot vs : keeps uuid_next (insert_coffee_lot vs).
Proof. keeps_statement. Qed.
Lemma keeps_producers_insert_lot vs : keeps producers (insert_coffee_lot vs).
Proof. keeps_statement. Qed.
Lemma keeps_drivers_insert_lot vs : keeps drivers (insert_coffee_lot vs).
Proof. keeps_statement. Qed.

Lemma keeps_up_update_lots s i : keeps db_up (update_coffee_lots s i).
Proof. keeps_statement. Qed.
Lemma keeps_uuids_update_lots s i : keeps uuids (update_coffee_lots s i).
Proof. keeps_statement. Qed.
Lemma keeps_next_update_lots s i : keeps uuid_next (update_coffee_lots s i).
Proof. keeps_statement. Qed.
Lemma keeps_producers_update_lots s i : keeps producers (update_coffee_lots s i).
Proof. keeps_statement. Qed.
Lemma keeps_drivers_update_lots s i : keeps drivers (update_coffee_lots s i).
Proof. keeps_statement. Qed.

Lemma keeps_up_insert_producer b n p : keeps db_up (insert_producer b n p).
Proof. keeps_statement. Qed.
Lemma keeps_uuids_insert_producer b n p : keeps uuids (insert_producer b n p).
Proof. keeps_statement. Qed.
Lemma keeps_lots_insert_producer b n p : keeps coffee_lots (insert_producer b n p).
Proof. keeps_statement. Qed.
Lemma keeps_drivers_insert_producer b n p : keeps drivers (insert_producer b n p).
Proof. keeps_statement. Qed.

Lemma keeps_up_insert_driver b n : keeps db_up (insert_driver b n).
Proof. keeps_statement. Qed.
Lemma keeps_uuids_insert_driver b n : keeps uuids (insert_driver b n).
Proof. keeps_statement. Qed.
Lemma keeps_lots_insert_driver b n : keeps coffee_lots (insert_driver b n).
Proof. keeps_statement. Qed.
Lemma keeps_producers_insert_driver b n : keeps producers (insert_driver b n).
Proof. keeps_statement. Qed.

#[export] Hint Resolve
  keeps_up_connection keeps_uuids_connection keeps_next_connection keeps_lots_connection
  keeps_producers_connection keeps_drivers_connection
  keeps_up_uuid4 keeps_uuids_uuid4 keeps_lots_uuid4 keeps_producers_uuid4 keeps_drivers_uuid4
  keeps_select_boca keeps_select_lot keeps_select_producer keeps_select_driver
  keeps_up_insert_lot keeps_uuids_insert_lot keeps_next_insert_lot
  keeps_producers_insert_lot keeps_drivers_insert_lot
  keeps_up_update_lots keeps_uuids_update_lots keeps_next_update_lots
  keeps_producers_update_lots keeps_drivers_update_lots
  keeps_up_insert_producer keeps_uuids_insert_producer keeps_lots_insert_producer
  keeps_drivers_insert_producer
  keeps_up_insert_driver keeps_uuids_insert_driver keeps_lots_insert_driver
  keeps_producers_insert_driver : keeps.

(** The validator only reads: it keeps everything but the connection count. *)
Lemma keeps_validate {X} (f : world -> X) b c :
  keeps f get_db_connection -> keeps f (validate_boca_entrada b c).
Proof. intros H. unfold validate_boca_entrada. keeps_tac. Qed.

Lemma keeps_parse {X} (f : world -> X) d : keeps f (parse_data_entrada d).
Proof. unfold parse_data_entrada. keeps_tac. Qed.

Lemma keeps_get_lot {X} (f : world -> X) i :
  keeps f get_db_connection -> keeps f (get_coffee_lot_by_id i).
Proof. intros H. unfold get_coffee_lot_by_id. keeps_tac. Qed.

#[export] Hint Resolve keeps_validate keeps_parse keeps_get_lot : keeps.

Lemma keeps_producers_add_driver n : keeps producers (add_driver_if_not_exists n).
Proof. unfold add_driver_if_not_exists. keeps_tac. Qed.
Lemma keeps_lots_add_driver n : keeps coffee_lots (add_driver_if_not_exists n).
Proof. unfold add_driver_if_not_exists. keeps_tac. Qed.
Lemma keeps_up_add_driver n : keeps db_up (add_driver_if_not_exists n).
Proof. unfold add_driver_if_not_exists. keeps_tac. Qed.
Lemma keeps_uuids_add_driver n : keeps uuids (add_driver_if_not_exists n).
Proof. unfold add_driver_if_not_exists. keeps_tac. Qed.

Lemma keeps_drivers_add_producer n p : keeps drivers (add_producer_if_not_exists n p).
Proof. unfold add_producer_if_not_exists. keeps_tac. Qed.
Lemma keeps_lots_add_producer n p : keeps coffee_lots (add_producer_if_not_exists n p).
Proof. unfold add_producer_if_not_exists. keeps_tac. Qed.
Lemma keeps_up_add_producer n p : keeps db_up (add_producer_if_not_exists n p).
Proof. unfold add_producer_if_not_exists. keeps_tac. Qed.
Lemma keeps_uuids_add_producer n p : keeps uuids (add_producer_if_not_exists n p).
Proof. unfold add_producer_if_not_exists. keeps_tac. Qed.

#[export] Hint Resolve keeps_producers_add_driver keeps_lots_add_driver keeps_up_add_driver
  keeps_uuids_add_driver keeps_drivers_add_producer keeps_lots_add_producer
  keeps_up_add_producer keeps_uuids_add_producer : keeps.

Lemma keeps_lots_register d : keeps coffee_lots (register_names d).
Proof. unfold register_names. keeps_tac. Qed.
Lemma keeps_up_register d : keeps db_up (register_names d).
Proof. unfold register_names. keeps_tac. Qed.
Lemma keeps_uuids_register d : keeps uuids (register_names d).
Proof. unfold register_names. keeps_tac. Qed.

#[export] Hint Resolve keeps_lots_register keeps_up_register keeps_uuids_register : keeps.

(** ** Blank names *)

Lemma add_producer_blank (name property : pyval) (w : world) :
  blank_name name = true -> add_producer_if_not_exists name property w = (Ok tt, w).
Proof.
  unfold blank_name, add_producer_if_not_exists, bind, lift, ret.
  destruct (truthy name); simpl; [ | reflexivity].
  destruct name; try discriminate. simpl. intros ->. reflexivity.
Qed.

Lemma add_driver_blank (name : pyval) (w : world) :
  blank_name name = true -> add_driver_if_not_exists name w = (Ok tt, w).
Proof.
  unfold blank_name, add_driver_if_not_exists, bind, lift, ret.
  destruct (truthy name); simpl; [ | reflexivity].
  destruct name; try discriminate. simpl. intros ->. reflexivity.
Qed.

Lemma register_names_blank_producer (data : gmap string pyval) :
  blank_name (dict_get data "nome_produtor") = true -> keeps producers (register_names data).
Proof.
  intros Hb. unfold register_names.
  apply keeps_bind.
  - destruct (truthy _); [ | auto with keeps].
    intros w. rewrite add_producer_blank by assumption. reflexivity.
  - intros _. keeps_tac.
Qed.

Lemma register_names_blank_driver (data : gmap string pyval) :
  blank_name (dict_get data "caminhoneiro") = true -> keeps drivers (register_names data).
Proof.
  intros Hb. unfold register_names.
  apply keeps_bind.
  - keeps_tac.
  - intros _. destruct (truthy _); [ | auto with keeps].
    intros w. rewrite add_driver_blank by assumption. reflexivity.
Qed.

Lemma register_names_blank (data : gmap string pyval) (w : world) :
  blank_name (dict_get data "nome_produtor") = true ->
  blank_name (dict_get data "caminhoneiro") = true ->
  register_names data w = (Ok tt, w).
Proof.
  intros Hp Hd. unfold register_names, bind.
  destruct (truthy (dict_get data "nome_produtor")).
  - rewrite add_producer_blank by assumption.
    destruct (truthy _); [apply add_driver_blank; assumption | reflexivity].
  - unfold ret at 1.
    destruct (truthy _); [apply add_driver_blank; assumption | reflexivity].
Qed.

Lemma parse_data_entrada_other (data data' : gmap string pyval) (w w' : world) (k : string) :
  k <> "data_entrada" ->
  parse_data_entrada data w = (Ok (inr data'), w') ->
  dict_get data' k = dict_get data k.
Proof.
  intros Hk Hp. unfold dict_get.
  destruct (parse_data_entrada_keeps _ _ _ _ k Hk Hp) as [-> _]. reflexivity.
Qed.

Lemma insert_keeps_registry (data : gmap string pyval) :
  (blank_name (dict_get data "nome_produtor") = true ->
   keeps producers (add_coffee_lot_insert data)) /\
  (blank_name (dict_get data "caminhoneiro") = true ->
   keeps drivers (add_coffee_lot_insert data)).
Proof.
  split; intros Hb; unfold add_coffee_lot_insert.
  all: apply keeps_bind; [auto with keeps | intros id].
  all: apply keeps_bind; [ | intros ?; keeps_tac].
  - apply register_names_blank_producer.
    unfold dict_get. rewrite !lookup_insert_ne by discriminate. assumption.
  - apply register_names_blank_driver.
    unfold dict_get. rewrite !lookup_insert_ne by discriminate. assumption.
Qed.

Lemma write_keeps_registry (lot_id : string) (data : gmap string pyval) :
  (blank_name (dict_get data "nome_produtor") = true ->
   keeps producers (update_coffee_lot_write lot_id data)) /\
  (blank_name (dict_get data "caminhoneiro") = true ->
   keeps drivers (update_coffee_lot_write lot_id data)).
Proof.
  split; intros Hb; unfold update_coffee_lot_write.
  all: apply keeps_bind; [ | intros ?; keeps_tac].
  - apply register_names_blank_producer. assumption.
  - apply register_names_blank_driver. assumption.
Qed.

(** After the validation and the parsing of the date, which keep [f] and the
    entry [k] of the payload, the handler continues with [rest]. *)
Lemma keeps_handler {X : Type} (f : world -> X) (k : string) (P : pyval -> Prop)
    (data : gmap string pyval) (current_lot_id : option string)
    (rest : gmap string pyval -> M response) :
  k <> "data_entrada" ->
  keeps f (validate_boca_entrada (dict_get data "boca_entrada") current_lot_id) ->
  (forall d, keeps f (parse_data_entrada d)) ->
  (forall d, P (dict_get d k) -> keeps f (rest d)) ->
  P (dict_get data k) ->
  keeps f (let* validation_result :=
             validate_boca_entrada (dict_get data "boca_entrada") current_lot_id in
           if negb (isValid validation_result) then
             ret (Response (JMessage (validation_message validation_result)) 400)
           else
             let* parsed := parse_data_entrada data in
             match parsed with
             | inl bad_date => ret bad_date
             | inr d => rest d
             end).
Proof.
  intros Hk Hv Hparse Hrest HP.
  apply keeps_bind; [assumption | intros v].
  destruct (negb (isValid v)); [apply keeps_ret | ].
  intros w. unfold bind.
  pose proof (Hparse data w) as Hw.
  destruct (parse_data_entrada data w) as [[[bad | data'] | e] w1] eqn:Hp; simpl in *;
    try assumption.
  rewrite <- Hw. apply Hrest.
  rewrite (parse_data_entrada_other _ _ _ _ k Hk Hp). assumption.
Qed.

(** C10.  A name that is absent, empty or blank makes the registry function
    return at once: the world, connection count included, is the one it was
    given, for producers and for drivers.  So a POST or a PUT of a lot whose
    producer name is blank leaves the producers table as it was, and
    likewise for the driver name and the drivers table; with both blank the
    registry step of the handlers returns normally and changes nothing. *)
Theorem blank_names_leave_registry :
  (forall name property w,
      blank_name name = true -> add_producer_if_not_exists name property w = (Ok tt, w)) /\
  (forall name w,
      blank_name name = true -> add_driver_if_not_exists name w = (Ok tt, w)) /\
  (forall lot_id data w,
      blank_name (dict_get data "nome_produtor") = true ->
      producers (add_coffee_lot data w).2 = producers w /\
      producers (update_coffee_lot lot_id data w).2 = producers w) /\
  (forall lot_id data w,
      blank_name (dict_get data "caminhoneiro") = true ->
      drivers (add_coffee_lot data w).2 = drivers w /\
      drivers (update_coffee_lot lot_id data w).2 = drivers w) /\
  (forall data w,
      blank_name (dict_get data "nome_produtor") = true ->
      blank_name (dict_get data "caminhoneiro") = true ->
      register_names data w = (Ok tt, w)).
Proof.
  split; [exact add_producer_blank | ].
  split; [exact add_driver_blank | ].
  split; [ | split; [ | exact register_names_blank]].
  - intros lot_id data w Hb. split.
    + apply (keeps_handler producers "nome_produtor" (fun v => blank_name v = true)
               data None add_coffee_lot_insert); auto with keeps.
      intros d Hd. apply insert_keeps_registry. assumption.
    + apply (keeps_handler producers "nome_produtor" (fun v => blank_name v = true)
               data (Some lot_id) (update_coffee_lot_write lot_id)); auto with keeps.
      intros d Hd. apply write_keeps_registry. assumption.
  - intros lot_id data w Hb. split.
    + apply (keeps_handler drivers "caminhoneiro" (fun v => blank_name v = true)
               data None add_coffee_lot_insert); auto with keeps.
      intros d Hd. apply insert_keeps_registry. assumption.
    + apply (keeps_handler drivers "caminhoneiro" (fun v => blank_name v = true)
               data (Some lot_id) (update_coffee_lot_write lot_id)); auto with keeps.
      intros d Hd. apply write_keeps_registry. assumption.
Qed.

(** Witness of [blank_names_leave_registry]: a blank producer name and an
    absent driver name, with the store unreachable for the two functions. *)
Lemma blank_names_leave_registry_witness :
  add_producer_if_not_exists (PStr "   ") (PStr "Farm") unreachable_world
    = (Ok tt, unreachable_world) /\
  add_driver_if_not_exists PNone unreachable_world = (Ok tt, unreachable_world) /\
  (producers (add_coffee_lot lot_blank_names empty_world).2 = producers empty_world /\
   producers (update_coffee_lot "L1" lot_blank_names empty_world).2 = producers empty_world) /\
  (drivers (add_coffee_lot lot_blank_names empty_world).2 = drivers empty_world /\
   drivers (update_coffee_lot "L1" lot_blank_names empty_world).2 = drivers empty_world) /\
  register_names lot_blank_names empty_world = (Ok tt, empty_world).
Proof.
  destruct blank_names_leave_registry as (H1 & H2 & H3 & H4 & H5).
  split; [apply H1; reflexivity | ].
  split; [apply H2; reflexivity | ].
  split; [apply H3; reflexivity | ].
  split; [apply H4; reflexivity | ].
  apply H5; reflexivity.
Defined.

(** ** Trimming and lowering *)

Lemma strip_empty : strip "" = "".
Proof. reflexivity. Qed.


Lemma lower_char_blank (c : ascii) : sql_isblank (lower_char c) = sql_isblank c.
Proof. destruct c as [[] [] [] [] [] [] [] []]; reflexivity. Qed.


Lemma ltrim_LOWER (s : string) :
  ltrim_by sql_isblank (LOWER s) = LOWER (ltrim_by sql_isblank s).
Proof.
  induction s as [ | c s IH]; [reflexivity | ]. cbn [LOWER ltrim_by].
  rewrite lower_char_blank. destruct (sql_isblank c); [assumption | reflexivity].
Qed.

Lemma rtrim_LOWER (s : string) :
  rtrim_by sql_isblank (LOWER s) = LOWER (rtrim_by sql_isblank s).
Proof.
  induction s as [ | c s IH]; [reflexivity | ]. cbn [LOWER rtrim_by].
  rewrite IH, lower_char_blank.
  destruct (rtrim_by sql_isblank s); cbn [LOWER]; [ | reflexivity].
  destruct (sql_isblank c); reflexivity.
Qed.


Section Trim.
Variables p q : ascii -> bool.
Hypothesis q_in_p : forall c, q c = true -> p c = true.




End Trim.



Lemma normalized_empty : normalized "" = "".
Proof. reflexivity. Qed.

Lemma varchar_fits (n : nat) (s : string) :
  (String.length s <= n)%nat -> varchar n s = Some s.
Proof. intros H. unfold varchar. apply Nat.leb_le in H. rewrite H. reflexivity. Qed.

(** ** Keys of ASCII names do not depend on the locale *)

Lemma lower_char_ascii (c : ascii) : is_ascii (lower_char c) = is_ascii c.
Proof. destruct c as [[] [] [] [] [] [] [] []]; reflexivity. Qed.

Lemma blank_ascii (c : ascii) : is_ascii c = false -> sql_isblank c = false.
Proof. destruct c as [[] [] [] [] [] [] [] []]; intros H; try reflexivity; discriminate. Qed.

Lemma ltrim_ascii (s : string) :
  ascii_text s = true -> ascii_text (ltrim_by sql_isblank s) = true.
Proof.
  induction s as [ | c s IH]; [reflexivity | ]. intros H. cbn [ltrim_by].
  destruct (sql_isblank c); [ | assumption].
  cbn [ascii_text] in H. apply andb_true_iff in H as [_ H]. apply IH. assumption.
Qed.

Lemma rtrim_ascii (s : string) :
  ascii_text s = true -> ascii_text (rtrim_by sql_isblank s) = true.
Proof.
  induction s as [ | c s IH]; [reflexivity | ]. intros H. cbn [rtrim_by].
  cbn [ascii_text] in H. apply andb_true_iff in H as [Hc H]. specialize (IH H).
  destruct (rtrim_by sql_isblank s).
  - destruct (sql_isblank c); [reflexivity | ]. cbn [ascii_text]. rewrite Hc. reflexivity.
  - cbn [ascii_text] in *. rewrite Hc. assumption.
Qed.

Lemma TRIM_ascii (s : string) : ascii_text s = true -> ascii_text (TRIM s) = true.
Proof. intros H. unfold TRIM. apply rtrim_ascii, ltrim_ascii. assumption. Qed.

Section Locale.

(** The lowering of a locale that lowers ASCII text as every usual locale
    does, and keeps the other characters apart from ASCII. *)
Variable lower : ascii -> ascii.
Hypothesis lower_ascii : forall c, is_ascii c = true -> lower c = lower_char c.
Hypothesis lower_other : forall c, is_ascii c = false -> is_ascii (lower c) = false.

Lemma lower_blank (c : ascii) : sql_isblank (lower c) = sql_isblank c.
Proof.
  destruct (is_ascii c) eqn:E.
  - rewrite (lower_ascii c E). apply lower_char_blank.
  - rewrite (blank_ascii c E). apply blank_ascii, lower_other. assumption.
Qed.

Lemma ltrim_LOWER_by (s : string) :
  ltrim_by sql_isblank (LOWER_by lower s) = LOWER_by lower (ltrim_by sql_isblank s).
Proof.
  induction s as [ | c s IH]; [reflexivity | ]. cbn [LOWER_by ltrim_by].
  rewrite lower_blank. destruct (sql_isblank c); [assumption | reflexivity].
Qed.

Lemma rtrim_LOWER_by (s : string) :
  rtrim_by sql_isblank (LOWER_by lower s) = LOWER_by lower (rtrim_by sql_isblank s).
Proof.
  induction s as [ | c s IH]; [reflexivity | ]. cbn [LOWER_by rtrim_by].
  rewrite IH, lower_blank.
  destruct (rtrim_by sql_isblank s); cbn [LOWER_by]; [ | reflexivity].
  destruct (sql_isblank c); reflexivity.
Qed.

Lemma lower_same (c a : ascii) :
  is_ascii a = true -> lower c = lower a <-> lower_char c = lower_char a.
Proof.
  intros Ha. rewrite (lower_ascii a Ha). destruct (is_ascii c) eqn:E.
  - rewrite (lower_ascii c E). reflexivity.
  - split; intros H; exfalso.
    + pose proof (lower_other c E) as Hc. rewrite H, lower_char_ascii in Hc. congruence.
    + pose proof (lower_char_ascii c) as Hc. rewrite H, lower_char_ascii in Hc. congruence.
Qed.

Lemma LOWER_by_same (t s : string) :
  ascii_text s = true -> LOWER_by lower t = LOWER_by lower s <-> LOWER t = LOWER s.
Proof.
  revert s. induction t as [ | c t IH]; intros [ | a s] Hs; cbn [LOWER_by LOWER];
    try (split; discriminate); [reflexivity | ].
  cbn [ascii_text] in Hs. apply andb_true_iff in Hs as [Ha Hs].
  split; intros [= H1 H2]; f_equal.
  - apply (lower_same c a Ha). assumption.
  - apply (IH s Hs). assumption.
  - apply (lower_same c a Ha). assumption.
  - apply (IH s Hs). assumption.
Qed.

(** For an ASCII name, a stored name has its key under the locale exactly
    when it has it under the lowering of the model. *)
Lemma ascii_key_any_locale (s t : string) :
  ascii_text s = true ->
  normalized_by lower t = normalized_by lower s <-> normalized t = normalized s.
Proof.
  intros Hs. unfold normalized_by, normalized, TRIM.
  rewrite !ltrim_LOWER_by, !rtrim_LOWER_by, !ltrim_LOWER, !rtrim_LOWER.
  apply LOWER_by_same. apply (TRIM_ascii s Hs).
Qed.

End Locale.

(** In particular under the C locale, which lowers A-Z only. *)
Lemma ascii_key_C_locale (s t : string) :
  ascii_text s = true ->
  normalized_by lower_char_C t = normalized_by lower_char_C s <-> normalized t = normalized s.
Proof.
  apply ascii_key_any_locale.
  - intros c. destruct c as [[] [] [] [] [] [] [] []]; intros H; try reflexivity; discriminate.
  - intros c. destruct c as [[] [] [] [] [] [] [] []]; intros H; try reflexivity; discriminate.
Qed.

Example key_jose_C :
  normalized_by lower_char_C JOSE_upper <> normalized_by lower_char_C jose_lower /\
  normalized JOSE_upper = normalized jose_lower.
Proof. split; [discriminate | reflexivity]. Qed.

(** ** Dates *)

Lemma digit_of_digit_char (n : Z) : digit_of (digit_char n) = Some (n mod 10).
Proof.
  unfold digit_char.
  assert (H : 0 <= n mod 10 < 10) by (apply Z.mod_pos_bound; lia).
  assert (E : n mod 10 = 0 \/ n mod 10 = 1 \/ n mod 10 = 2 \/ n mod 10 = 3 \/ n mod 10 = 4 \/
              n mod 10 = 5 \/ n mod 10 = 6 \/ n mod 10 = 7 \/ n mod 10 = 8 \/ n mod 10 = 9) by lia.
  destruct E as [E | [E | [E | [E | [E | [E | [E | [E | [E | E]]]]]]]]];
    rewrite E; reflexivity.
Qed.

Lemma digit_char_of_digit (c : ascii) (n : Z) : digit_of c = Some n -> digit_char n = c.
Proof.
  unfold digit_of, digit_char.
  destruct (_ && _) eqn:E; [ | discriminate]. intros [= <-].
  apply andb_true_iff in E as [E1 E2]. apply Z.leb_le in E1, E2.
  rewrite Z.mod_small by lia.
  replace (48 + Z.to_nat (Z.of_nat (nat_of_ascii c) - 48))%nat with (nat_of_ascii c) by lia.
  apply ascii_nat_embedding.
Qed.

Lemma digit_of_range (c : ascii) (n : Z) : digit_of c = Some n -> 0 <= n <= 9.
Proof.
  unfold digit_of. destruct (_ && _) eqn:E; [ | discriminate]. intros [= <-].
  apply andb_true_iff in E as [E1 E2]. apply Z.leb_le in E1, E2. lia.
Qed.

Lemma is_digit_digit_char (n : Z) : is_digit (digit_char n) = true.
Proof. unfold is_digit. rewrite digit_of_digit_char. reflexivity. Qed.

Lemma number2_digits (n : Z) :
  0 <= n <= 99 -> number2 (digit_char (n / 10)) (digit_char n) = Some n.
Proof.
  intros H. unfold number2. rewrite !digit_of_digit_char. f_equal.
  Z.to_euclidean_division_equations. lia.
Qed.

Lemma number4_digits (n : Z) :
  0 <= n <= 9999 ->
  number4 (digit_char (n / 1000)) (digit_char (n / 100)) (digit_char (n / 10)) (digit_char n)
    = Some n.
Proof.
  intros H. unfold number4, number2. rewrite !digit_of_digit_char. f_equal.
  Z.to_euclidean_division_equations. lia.
Qed.

Lemma valid_date_bounds (d : date) :
  valid_date d = true ->
  1 <= year d <= 9999 /\ 1 <= month d <= 12 /\ 1 <= day d <= 31.
Proof.
  unfold valid_date. rewrite !andb_true_iff, !Z.leb_le.
  intros [[[[[H1 H2] H3] H4] H5] H6].
  assert (days_in_month (year d) (month d) <= 31).
  { unfold days_in_month.
    destruct (_ =? 2); [destruct (is_leap _); lia | ].
    destruct (_ || _); lia. }
  lia.
Qed.

(** [isoformat] yields the shape YYYY-MM-DD, and [fromisoformat] reads it back. *)
Lemma isoformat_roundtrip (d : date) :
  valid_date d = true ->
  iso_date_shape (isoformat d) = true /\ fromisoformat (isoformat d) = Some d.
Proof.
  intros Hv. destruct (valid_date_bounds d Hv) as (Hy & Hm & Hd).
  destruct d as [y m dd]. cbn [year month day] in *.
  split.
  - unfold isoformat, iso_date_shape. cbn [year month day].
    rewrite !is_digit_digit_char. reflexivity.
  - unfold isoformat, fromisoformat. cbn [year month day].
    change (Ascii.eqb "-" "-") with true. cbn [andb].
    rewrite number4_digits by lia. rewrite !number2_digits by lia.
    rewrite Hv. reflexivity.
Qed.

Lemma fromisoformat_valid (s : string) (d : date) :
  fromisoformat s = Some d -> valid_date d = true.
Proof.
  unfold fromisoformat.
  repeat match goal with
         | |- context [match ?x with _ => _ end] =>
             destruct x eqn:?; try discriminate
         end.
  intros [= <-]. assumption.
Qed.

(** What [fromisoformat] accepts is what [isoformat] writes. *)
Lemma fromisoformat_isoformat (s : string) (d : date) :
  fromisoformat s = Some d -> isoformat d = s.
Proof.
  unfold fromisoformat.
  destruct s as [ | y1 [ | y2 [ | y3 [ | y4 [ | h1 [ | m1 [ | m2 [ | h2 [ | d1 [ | d2 [ | ]]]]]]]]]]];
    try discriminate.
  destruct (Ascii.eqb h1 "-") eqn:E1; [ | discriminate].
  destruct (Ascii.eqb h2 "-") eqn:E2; [ | discriminate]. cbn [andb].
  apply Ascii.eqb_eq in E1, E2. subst h1 h2.
  unfold number4, number2.
  destruct (digit_of y1) as [a1 | ] eqn:Ha1; [ | discriminate].
  destruct (digit_of y2) as [a2 | ] eqn:Ha2; [ | discriminate].
  destruct (digit_of y3) as [a3 | ] eqn:Ha3; [ | discriminate].
  destruct (digit_of y4) as [a4 | ] eqn:Ha4; [ | discriminate].
  destruct (digit_of m1) as [b1 | ] eqn:Hb1; [ | discriminate].
  destruct (digit_of m2) as [b2 | ] eqn:Hb2; [ | discriminate].
  destruct (digit_of d1) as [c1 | ] eqn:Hc1; [ | discriminate].
  destruct (digit_of d2) as [c2 | ] eqn:Hc2; [ | discriminate].
  destruct (valid_date _); [ | discriminate].
  intros [= <-]. unfold isoformat. cbn [year month day].
  pose proof (digit_of_range _ _ Ha1). pose proof (digit_of_range _ _ Ha2).
  pose proof (digit_of_range _ _ Ha3). pose proof (digit_of_range _ _ Ha4).
  pose proof (digit_of_range _ _ Hb1). pose proof (digit_of_range _ _ Hb2).
  pose proof (digit_of_range _ _ Hc1). pose proof (digit_of_range _ _ Hc2).
  assert (Hch : forall n c v, digit_of c = Some v -> n mod 10 = v -> digit_char n = c).
  { intros n c v Hc Hn. rewrite <- (digit_char_of_digit c v Hc).
    unfold digit_char. rewrite Hn, (Z.mod_small v 10); [reflexivity | ].
    pose proof (digit_of_range _ _ Hc). lia. }
  rewrite (Hch _ y1 a1 Ha1), (Hch _ y2 a2 Ha2), (Hch _ y3 a3 Ha3), (Hch _ y4 a4 Ha4),
    (Hch _ m1 b1 Hb1), (Hch _ m2 b2 Hb2), (Hch _ d1 c1 Hc1), (Hch _ d2 c2 Hc2);
    [reflexivity | .. ]; clear Hch;
    Z.to_euclidean_division_equations; lia.
Qed.

(** ** POST /api/coffee-lots *)

Lemma columns_nodup : NoDup COFFEE_LOT_COLUMNS.
Proof. apply (bool_decide_unpack _). vm_compute. reflexivity. Qed.

Lemma zip_map_diag {A B} (f : A -> B) (l : list A) :
  zip l (map f l) = map (fun x => (x, f x)) l.
Proof. induction l as [ | x l IH]; [reflexivity | ]. cbn. rewrite IH. reflexivity. Qed.

Lemma store_values_fst (l l' : list (string * pyval)) :
  store_values l = Some l' -> l'.*1 = l.*1.
Proof.
  revert l'. induction l as [ | [c v] l IH]; intros l'; cbn [store_values].
  - intros [= <-]. reflexivity.
  - destruct (column_type c) as [t | ]; [ | discriminate].
    destruct (store_value t v) as [v' | ]; [ | discriminate].
    destruct (store_values l) as [r | ]; [ | discriminate].
    intros [= <-]. cbn. rewrite (IH r eq_refl). reflexivity.
Qed.

Lemma store_values_lookup (l l' : list (string * pyval)) (c : string) (v : pyval) :
  store_values l = Some l' -> NoDup l.*1 -> (c, v) ∈ l ->
  exists t v', column_type c = Some t /\ store_value t v = Some v' /\
               (list_to_map l' : gmap string pyval) !! c = Some v'.
Proof.
  revert l'. induction l as [ | [c0 v0] l IH]; intros l' Hs Hnd Hin.
  - inversion Hin.
  - cbn [store_values] in Hs.
    destruct (column_type c0) as [t | ] eqn:Ht; [ | discriminate].
    destruct (store_value t v0) as [v' | ] eqn:Hv; [ | discriminate].
    destruct (store_values l) as [r | ] eqn:Hr; [ | discriminate].
    injection Hs as <-. cbn in Hnd. apply NoDup_cons in Hnd as [Hnotin Hnd].
    apply elem_of_cons in Hin as [[= -> ->] | Hin].
    + exists t, v'. repeat split; try assumption. cbn. apply lookup_insert_eq.
    + destruct (IH r eq_refl Hnd Hin) as (t1 & v1 & H1 & H2 & H3).
      exists t1, v1. repeat split; try assumption.
      cbn. rewrite lookup_insert_ne; [assumption | ].
      intros ->. apply Hnotin. apply list_elem_of_fmap. exists (c, v). split; [reflexivity | assumption].
Qed.

(** The row that [insert_coffee_lot] writes for the dict [d]. *)
Lemma inserted_row (d : gmap string pyval) (row : list (string * pyval)) :
  store_values (zip COFFEE_LOT_COLUMNS (map (dict_get d) COFFEE_LOT_COLUMNS)) = Some row ->
  dom (list_to_map row : gmap string pyval) = list_to_set COFFEE_LOT_COLUMNS /\
  forall c, c ∈ COFFEE_LOT_COLUMNS ->
    exists t v', column_type c = Some t /\ store_value t (dict_get d c) = Some v' /\
                 (list_to_map row : gmap string pyval) !! c = Some v'.
Proof.
  rewrite zip_map_diag. intros Hs.
  assert (Hfst : (map (fun x => (x, dict_get d x)) COFFEE_LOT_COLUMNS).*1 = COFFEE_LOT_COLUMNS).
  { generalize COFFEE_LOT_COLUMNS. intros l. induction l as [ | x l IH]; [reflexivity | ].
    cbn. rewrite IH. reflexivity. }
  split.
  - rewrite dom_list_to_map_L, (store_values_fst _ _ Hs), Hfst. reflexivity.
  - intros c Hc. apply (store_values_lookup _ _ c (dict_get d c) Hs).
    + rewrite Hfst. apply columns_nodup.
    + apply list_elem_of_fmap. exists c. split; [reflexivity | assumption].
Qed.

Lemma find_snoc {A} (f : A -> bool) (l : list A) (x : A) :
  find f (l ++ [x]) =
    match find f l with
    | Some y => Some y
    | None => if f x then Some x else None
    end.
Proof.
  induction l as [ | y l IH]; cbn; [reflexivity | ].
  destruct (f y); [reflexivity | assumption].
Qed.

Lemma lot_id_sql_eq (lot : gmap string pyval) (i : string) :
  sql_eq_str (dict_get lot "id") i = true <-> lot_id lot = Some i.
Proof.
  unfold sql_eq_str, lot_id. destruct (dict_get lot "id"); try (split; discriminate).
  rewrite String.eqb_eq. split; congruence.
Qed.

(** Under the primary key, the row just appended is the one its id selects,
    and its id was not in the table. *)
Lemma primary_key_snoc (lots : list (gmap string pyval)) (row : gmap string pyval) (i : string) :
  primary_key_ok (lots ++ [row]) = true -> lot_id row = Some i ->
  (i ∉ lot_ids lots) /\
  find (fun lot => sql_eq_str (dict_get lot "id") i) (lots ++ [row]) = Some row.
Proof.
  unfold primary_key_ok. rewrite andb_true_iff. intros [_ Hnd] Hrow.
  apply bool_decide_eq_true in Hnd.
  unfold lot_ids in *. rewrite omap_app in Hnd. cbn in Hnd. rewrite Hrow in Hnd. cbn in Hnd.
  apply NoDup_app in Hnd as (_ & Hdisj & _).
  assert (Hnot : i ∉ omap lot_id lots).
  { intros Hin. apply (Hdisj i Hin). apply list_elem_of_here. }
  split; [assumption | ].
  rewrite find_snoc.
  destruct (find _ lots) as [y | ] eqn:Hf.
  - exfalso. apply find_some in Hf as [Hin Hy]. apply lot_id_sql_eq in Hy.
    apply Hnot. apply list_elem_of_omap. exists y. split; [ | assumption].
    apply list_elem_of_In. assumption.
  - apply lot_id_sql_eq in Hrow. rewrite Hrow. reflexivity.
Qed.

Lemma parse_data_entrada_cases (data data' : gmap string pyval) (w w' : world) :
  parse_data_entrada data w = (Ok (inr data'), w') ->
  w' = w /\
  (data' = data \/
   exists s d, data !! "data_entrada" = Some (PStr s) /\ fromisoformat s = Some d /\
               data' = <["data_entrada" := PDate d]> data).
Proof.
  unfold parse_data_entrada, ret, raise.
  destruct (data !! "data_entrada") as [v | ] eqn:Hd.
  - destruct (truthy v).
    + destruct v; cbn [py_fromisoformat]; try discriminate.
      destruct (fromisoformat s) as [d | ] eqn:Hs; [ | discriminate].
      intros [= <- <-]. split; [reflexivity | ]. right. exists s, d. auto.
    + intros [= <- <-]. auto.
  - intros [= <- <-]. auto.
Qed.

Lemma parse_data_entrada_pure (data : gmap string pyval) (w w0 : world) :
  parse_data_entrada data w0 = ((parse_data_entrada data w).1, w0).
Proof.
  unfold parse_data_entrada, ret, raise.
  destruct (data !! "data_entrada") as [v | ]; [ | reflexivity].
  destruct (truthy v); [ | reflexivity].
  destruct (py_fromisoformat v) as [d | [ | | | ]]; reflexivity.
Qed.

Lemma parse_data_entrada_date (data : gmap string pyval) (w : world) (s : string) (d : date) :
  data !! "data_entrada" = Some (PStr s) -> fromisoformat s = Some d ->
  parse_data_entrada data w = (Ok (inr (<["data_entrada" := PDate d]> data)), w).
Proof.
  intros Hs Hd. unfold parse_data_entrada. rewrite Hs. cbn [truthy py_fromisoformat].
  rewrite Hd. destruct s; [discriminate | reflexivity].
Qed.

(** A 201 of [add_coffee_lot_insert]: the body, and the row now in the table. *)
Lemma add_coffee_lot_insert_created (data : gmap string pyval) (w w' : world) (r : response) :
  add_coffee_lot_insert data w = (Ok r, w') -> status r = 201 ->
  let d := created_lot data (uuids w (uuid_next w)) in
  r = Response (JLot (serialize_coffee_lot d)) 201 /\
  db_up w' = true /\
  exists row,
    store_values (zip COFFEE_LOT_COLUMNS (map (dict_get d) COFFEE_LOT_COLUMNS)) = Some row /\
    coffee_lots w' = coffee_lots w ++ [list_to_map row] /\
    primary_key_ok (coffee_lots w') = true.
Proof.
  unfold add_coffee_lot_insert, bind at 1. unfold uuid4 at 1. cbv beta iota.
  fold (created_lot data (uuids w (uuid_next w))).
  set (d := created_lot data (uuids w (uuid_next w))).
  set (w1 := World _ _ _ _ _ _ _).
  unfold bind at 1.
  pose proof (keeps_lots_register d w1) as Hlots.
  destruct (register_names d w1) as [[[] | e] w2]; [ | discriminate].
  cbn [snd] in Hlots. change (coffee_lots w1) with (coffee_lots w) in Hlots.
  unfold try_except, bind at 1. unfold get_db_connection.
  destruct (db_up w2) eqn:Hup.
  2: { unfold ret. intros [= <- <-]. cbn [status]. discriminate. }
  unfold bind, insert_coffee_lot.
  destruct (store_values _) as [row | ] eqn:Hrow.
  2: { unfold ret. intros [= <- <-]. cbn [status]. discriminate. }
  change (coffee_lots (connected w2)) with (coffee_lots w2). rewrite Hlots.
  destruct (primary_key_ok _) eqn:Hpk.
  2: { unfold ret. intros [= <- <-]. cbn [status]. discriminate. }
  unfold ret. intros [= <- <-] _.
  split; [reflexivity | ]. split; [exact Hup | ].
  exists row. split; [reflexivity | ]. cbn [set_coffee_lots coffee_lots].
  split; [reflexivity | assumption].
Qed.

(** A 201 of [add_coffee_lot]: the validation passed, the date was parsed
    into [data'], and the insertion part answered. *)
Lemma add_coffee_lot_created (data : gmap string pyval) (w w' : world) (r : response) :
  add_coffee_lot data w = (Ok r, w') -> status r = 201 ->
  exists data' w1,
    parse_data_entrada data w1 = (Ok (inr data'), w1) /\
    coffee_lots w1 = coffee_lots w /\ uuids w1 = uuids w /\ uuid_next w1 = uuid_next w /\
    add_coffee_lot_insert data' w1 = (Ok r, w').
Proof.
  unfold add_coffee_lot, bind at 1.
  pose proof (keeps_validate coffee_lots (dict_get data "boca_entrada") None
                keeps_lots_connection w) as Hl.
  pose proof (keeps_validate uuids (dict_get data "boca_entrada") None
                keeps_uuids_connection w) as Hu.
  pose proof (keeps_validate uuid_next (dict_get data "boca_entrada") None
                keeps_next_connection w) as Hn.
  destruct (validate_boca_entrada _ _ w) as [[v | e] w1]; [ | discriminate].
  cbn [snd] in Hl, Hu, Hn.
  destruct (negb (isValid v)).
  { unfold ret. intros [= <- <-]. cbn [status]. discriminate. }
  unfold bind.
  destruct (parse_data_entrada data w1) as [[[bad | data'] | e] w2] eqn:Hp; [ | | discriminate].
  - unfold parse_data_entrada, ret, raise in Hp.
    destruct (data !! "data_entrada") as [x | ]; [ | discriminate].
    destruct (truthy x); [ | discriminate].
    destruct (py_fromisoformat x) as [? | [ | | | ]]; try discriminate.
    injection Hp as <- _. unfold ret. intros [= <- <-]. cbn [status]. discriminate.
  - destruct (parse_data_entrada_cases _ _ _ _ Hp) as [-> _].
    intros H _. exists data', w1. auto.
Qed.

Lemma serialize_lookup_ne (lot : gmap string pyval) (k : string) :
  k <> "data_entrada" -> serialize_coffee_lot lot !! k = lot !! k.
Proof.
  intros Hk. unfold serialize_coffee_lot.
  destruct (dict_get lot "data_entrada"); try reflexivity.
  apply lookup_insert_ne. congruence.
Qed.

Lemma serialize_dom (lot : gmap string pyval) :
  dom (serialize_coffee_lot lot) = dom lot.
Proof.
  unfold serialize_coffee_lot, dict_get.
  destruct (lot !! "data_entrada") as [v | ] eqn:Hv; cbn; [ | reflexivity].
  destruct v; try reflexivity.
  apply dom_insert_lookup_L. eauto.
Qed.

Lemma serialize_date (lot : gmap string pyval) (d : date) :
  lot !! "data_entrada" = Some (PDate d) ->
  serialize_coffee_lot lot !! "data_entrada" = Some (PStr (isoformat d)).
Proof.
  intros H. unfold serialize_coffee_lot, dict_get. rewrite H. cbn.
  apply lookup_insert_eq.
Qed.

Lemma created_lot_status (data : gmap string pyval) (id : string) :
  created_lot data id !! "status" = Some (dict_get_default data "status" (PStr "active")).
Proof.
  unfold created_lot, dict_get_default.
  rewrite (lookup_insert_ne data "id" "status") by discriminate. apply lookup_insert_eq.
Qed.

Lemma created_lot_id (data : gmap string pyval) (id : string) :
  created_lot data id !! "id" = Some (PStr id).
Proof.
  unfold created_lot. rewrite lookup_insert_ne by discriminate. apply lookup_insert_eq.
Qed.

Lemma created_lot_other (data : gmap string pyval) (id k : string) :
  k <> "status" -> k <> "id" -> created_lot data id !! k = data !! k.
Proof.
  intros Hs Hi. unfold created_lot. rewrite !lookup_insert_ne by congruence. reflexivity.
Qed.

Lemma created_lot_dom (data : gmap string pyval) (id : string) :
  dom (created_lot data id) = dom data ∪ {[ "id"; "status" ]}.
Proof. unfold created_lot. rewrite !dom_insert_L. set_solver. Qed.

Lemma column_in (c : string) :
  c ∈ COFFEE_LOT_COLUMNS -> is_Some (column_type c).
Proof.
  intros H. apply list_elem_of_In in H. unfold COFFEE_LOT_COLUMNS in H. cbn in H.
  repeat (destruct H as [<- | H]; [vm_compute; eauto | ]). contradiction.
Qed.

(** A 201 of [add_coffee_lot]: the body is the payload as the handler
    completed it, and the table has the row of that dict as its last row. *)
Lemma add_coffee_lot_row (data : gmap string pyval) (w w' : world) (r : response) :
  add_coffee_lot data w = (Ok r, w') -> status r = 201 ->
  (String.length (uuids w (uuid_next w)) <= 255)%nat ->
  let id := uuids w (uuid_next w) in
  exists data' row,
    (parse_data_entrada data w).1 = Ok (inr data') /\
    r = Response (JLot (serialize_coffee_lot (created_lot data' id))) 201 /\
    db_up w' = true /\
    coffee_lots w' = coffee_lots w ++ [row] /\
    dom row = list_to_set COFFEE_LOT_COLUMNS /\
    (forall c, c ∈ COFFEE_LOT_COLUMNS ->
       exists t v, column_type c = Some t /\
                   store_value t (dict_get (created_lot data' id) c) = Some v /\
                   row !! c = Some v) /\
    lot_id row = Some id /\
    (id ∉ lot_ids (coffee_lots w)) /\
    find (fun lot => sql_eq_str (dict_get lot "id") id) (coffee_lots w') = Some row.
Proof.
  intros Hadd H201 Hlen id.
  destruct (add_coffee_lot_created _ _ _ _ Hadd H201) as (data' & w1 & Hp & Hl & Hu & Hn & Hins).
  assert (Hparse : (parse_data_entrada data w).1 = Ok (inr data')).
  { rewrite (parse_data_entrada_pure data w w1) in Hp. congruence. }
  destruct (add_coffee_lot_insert_created _ _ _ _ Hins H201) as (Hr & Hup & row & Hrow & Hlots & Hpk).
  rewrite Hu, Hn in Hr, Hrow. fold id in Hr, Hrow. rewrite Hl in Hlots.
  destruct (inserted_row _ _ Hrow) as [Hdom Hcols].
  exists data', (list_to_map row).
  assert (Hid : lot_id (list_to_map row) = Some id).
  { destruct (Hcols "id") as (t & v & Ht & Hv & Hlk).
    { apply list_elem_of_In. cbn. auto. }
    assert (t = VARCHAR 255) as -> by (vm_compute in Ht; congruence).
    unfold dict_get in Hv. rewrite created_lot_id in Hv. cbn in Hv.
    unfold varchar in Hv. apply Nat.leb_le in Hlen. unfold id in Hv.
    rewrite Hlen in Hv. cbn in Hv.
    injection Hv as <-. unfold lot_id, dict_get. rewrite Hlk. reflexivity. }
  rewrite Hlots in Hpk.
  destruct (primary_key_snoc _ _ _ Hpk Hid) as [Hfresh Hfind].
  rewrite Hlots. repeat split; assumption.
Qed.

(** C7 (as the code has it).  The body of a 201 is the request payload as the
    handler completed it, not the stored row: its fields are the fields of
    the payload together with [id] and [status]; [id] is the UUID just drawn,
    which no lot of the table had; [status] is the payload's, or "active"
    when the payload has none; every other field but the entry date is the
    payload's.  The row appended to the table is the one that has the fixed
    column list as its fields. *)
Theorem add_coffee_lot_body (data : gmap string pyval) (w w' : world) (r : response) :
  add_coffee_lot data w = (Ok r, w') -> status r = 201 ->
  (String.length (uuids w (uuid_next w)) <= 255)%nat ->
  exists lot row,
    body r = JLot lot /\
    dom lot = dom data ∪ {[ "id"; "status" ]} /\
    lot !! "id" = Some (PStr (uuids w (uuid_next w))) /\
    (uuids w (uuid_next w) ∉ lot_ids (coffee_lots w)) /\
    lot !! "status" = Some (dict_get_default data "status" (PStr "active")) /\
    (forall k, k <> "id" -> k <> "status" -> k <> "data_entrada" -> lot !! k = data !! k) /\
    coffee_lots w' = coffee_lots w ++ [row] /\
    lot_id row = Some (uuids w (uuid_next w)) /\
    dom row = list_to_set COFFEE_LOT_COLUMNS.
Proof.
  intros Hadd H201 Hlen.
  destruct (add_coffee_lot_row _ _ _ _ Hadd H201 Hlen)
    as (data' & row & Hparse & -> & _ & Hlots & Hdom & _ & Hid & Hfresh & _).
  assert (Hcases : data' = data \/
            exists s d, data !! "data_entrada" = Some (PStr s) /\ fromisoformat s = Some d /\
                        data' = <["data_entrada" := PDate d]> data).
  { apply (parse_data_entrada_cases data data' w w).
    rewrite (parse_data_entrada_pure data w w), Hparse. reflexivity. }
  exists (serialize_coffee_lot (created_lot data' (uuids w (uuid_next w)))), row.
  assert (Hdd : dom data' = dom data).
  { destruct Hcases as [-> | (s & d & Hs & _ & ->)]; [reflexivity | ].
    apply dom_insert_lookup_L. eauto. }
  assert (Hother : forall k, k <> "data_entrada" -> data' !! k = data !! k).
  { intros k Hk. destruct Hcases as [-> | (s & d & _ & _ & ->)]; [reflexivity | ].
    apply lookup_insert_ne. congruence. }
  split; [reflexivity | ].
  split; [rewrite serialize_dom, created_lot_dom, Hdd; reflexivity | ].
  split; [rewrite serialize_lookup_ne by discriminate; apply created_lot_id | ].
  split; [assumption | ].
  split.
  { rewrite serialize_lookup_ne by discriminate. rewrite created_lot_status.
    unfold dict_get_default. rewrite Hother by discriminate. reflexivity. }
  split.
  { intros k Hi Hs Hd. rewrite serialize_lookup_ne by assumption.
    rewrite created_lot_other by assumption. apply Hother. assumption. }
  repeat split; assumption.
Qed.

(** Witness of [add_coffee_lot_body]: a lot for bay 1 in an empty store. *)
Lemma add_coffee_lot_body_witness :
  exists lot row,
    body (Response (JLot (<["status" := PStr "active"]>
                            (<["id" := PStr "u0"]> {[ "boca_entrada" := PInt 1 ]}))) 201)
      = JLot lot /\
    dom lot = dom ({[ "boca_entrada" := PInt 1 ]} : gmap string pyval) ∪ {[ "id"; "status" ]} /\
    lot !! "id" = Some (PStr (uuids empty_world (uuid_next empty_world))) /\
    (uuids empty_world (uuid_next empty_world) ∉ lot_ids (coffee_lots empty_world)) /\
    lot !! "status"
      = Some (dict_get_default {[ "boca_entrada" := PInt 1 ]} "status" (PStr "active")) /\
    (forall k, k <> "id" -> k <> "status" -> k <> "data_entrada" ->
               lot !! k = ({[ "boca_entrada" := PInt 1 ]} : gmap string pyval) !! k) /\
    coffee_lots (add_coffee_lot {[ "boca_entrada" := PInt 1 ]} empty_world).2
      = coffee_lots empty_world ++ [row] /\
    lot_id row = Some (uuids empty_world (uuid_next empty_world)) /\
    dom row = list_to_set COFFEE_LOT_COLUMNS.
Proof.
  apply (add_coffee_lot_body {[ "boca_entrada" := PInt 1 ]} empty_world
           (add_coffee_lot {[ "boca_entrada" := PInt 1 ]} empty_world).2).
  - vm_compute. reflexivity.
  - reflexivity.
  - vm_compute. lia.
Defined.

(** C7 as stated fails: for the payload [{"boca_entrada": 1}] the 201 body
    lacks [lote_numero], a field of the fixed column list; and for a payload
    with a field [foo] the 201 body has [foo], which is no column. *)
Lemma add_coffee_lot_body_is_payload :
  (exists lot w',
      add_coffee_lot {[ "boca_entrada" := PInt 1 ]} empty_world
        = (Ok (Response (JLot lot) 201), w') /\
      "lote_numero" ∈ COFFEE_LOT_COLUMNS /\ lot !! "lote_numero" = None) /\
  (exists lot w',
      add_coffee_lot (<["foo" := PInt 2]> {[ "boca_entrada" := PInt 1 ]}) empty_world
        = (Ok (Response (JLot lot) 201), w') /\
      ("foo" ∉ COFFEE_LOT_COLUMNS) /\ lot !! "foo" = Some (PInt 2)).
Proof.
  split.
  - do 2 eexists. split; [vm_compute; reflexivity | ].
    split; [apply list_elem_of_In; cbn; auto | reflexivity].
  - do 2 eexists. split; [vm_compute; reflexivity | ].
    split; [ | reflexivity].
    intros H. apply list_elem_of_In in H. cbn in H.
    repeat (destruct H as [H | H]; [discriminate | ]). contradiction.
Qed.

(** ** The entry date, written and read back *)

Lemma get_coffee_lot_by_id_found (i : string) (w : world) (row : gmap string pyval) :
  db_up w = true ->
  find (fun lot => sql_eq_str (dict_get lot "id") i) (coffee_lots w) = Some row ->
  lot_id row = Some i ->
  get_coffee_lot_by_id i w = (Ok (Response (JLot (serialize_coffee_lot row)) 200), connected w).
Proof.
  intros Hup Hfind Hid.
  unfold get_coffee_lot_by_id, try_except, bind at 1.
  rewrite (get_db_connection_up _ Hup).
  unfold bind, select_lot_by_id.
  change (coffee_lots (connected w)) with (coffee_lots w). rewrite Hfind.
  assert (Hne : truthy (PDict row) = true).
  { cbn [truthy]. apply negb_true_iff, bool_decide_eq_false. intros ->.
    unfold lot_id, dict_get in Hid. rewrite lookup_empty in Hid. discriminate. }
  rewrite Hne. reflexivity.
Qed.

Example created_then_fetched_2024 :
  (get_coffee_lot_by_id "u0" (add_coffee_lot lot_2024 empty_world).2).1
    = Ok (Response (JLot (<["data_entrada" := PStr "2024-03-15"]> stored_lot_2024)) 200).
Proof. vm_compute. reflexivity. Qed.

(** ** The registries: upsert *)



Lemma existsb_id_fresh {A} (proj : A -> string) (i : string) (l : list A) :
  ~ In i (map proj l) -> existsb (fun q => String.eqb (proj q) i) l = false.
Proof.
  intros H. apply not_true_is_false. intros E.
  apply existsb_exists in E as (x & Hin & Hx). apply String.eqb_eq in Hx.
  apply H. rewrite <- Hx. apply in_map. assumption.
Qed.






(** The INSERT with ON CONFLICT DO NOTHING, for values that fit the columns. *)
Lemma insert_producer_do_nothing (n p : string) (w : world) :
  (String.length n <= 255)%nat -> (String.length p <= 255)%nat ->
  exists r w',
    insert_producer true n p w = (r, w') /\ db_up w' = db_up w /\
    uuids w' = uuids w /\ uuid_next w' = S (uuid_next w) /\ drivers w' = drivers w /\
    if existsb (same_producer n p) (producers w)
    then r = Ok None /\ producers w' = producers w
    else if existsb (fun q => String.eqb (producer_id q) (uuids w (uuid_next w))) (producers w)
         then r = Raise DatabaseError /\ producers w' = producers w
         else r = Ok (Some (uuids w (uuid_next w))) /\
              producers w' = producers w ++ [Producer (uuids w (uuid_next w)) n (Some p)].
Proof.
  intros Hn Hp. unfold insert_producer.
  rewrite (varchar_fits _ _ Hn), (varchar_fits _ _ Hp). unfold uuid4. cbn [producers].
  destruct (existsb (same_producer n p) (producers w)).
  - do 2 eexists. repeat split.
  - destruct (existsb _ (producers w)); do 2 eexists; repeat split.
Qed.













Example upsert_maria_row :
  producers (add_producer_if_not_exists (PStr "maria") (PStr "farm")
               (add_producer_if_not_exists (PStr "Maria ") (PStr " Farm") empty_world).2).2
    = [Producer "u0" "Maria" (Some "Farm")].
Proof. reflexivity. Qed.

(** ** The registries: explicit create *)
















(** With JOSÉ registered, the create of josé is a conflict and its delete
    removes the row, as under a UTF-8 ctype. *)
Example create_jose_conflict :
  let w := World true 0 numbered_uuid 1 [] [] [Driver "u0" JOSE_upper] in
  (add_single_driver {[ "name" := PStr jose_lower ]} w).1 = Ok driver_conflict /\
  drivers (add_driver_if_not_exists (PStr jose_lower) w).2 = [Driver "u0" JOSE_upper].
Proof. split; vm_compute; reflexivity. Qed.

(** ** The import of a batch of producers *)

Lemma import_loop_skip (item : pyval) (items : list pyval) (a x : nat) (w : world) :
  match item with
  | PDict d => d !! "name" = None
  | _ => True
  end ->
  import_loop (item :: items) a x w = import_loop items a x w.
Proof.
  intros H. cbn [import_loop]. destruct item; try reflexivity. rewrite H. reflexivity.
Qed.

Lemma import_loop_named (d : gmap string pyval) (n p : string) (items : list pyval)
    (a x : nat) (w : world) :
  d !! "name" = Some (PStr n) -> dict_get_default d "property" (PStr "") = PStr p ->
  import_loop (PDict d :: items) a x w =
    if String.eqb (strip n) "" then import_loop items a x w
    else match insert_producer true (strip n) (strip p) w with
         | (Ok (Some _), w') => import_loop items (S a) x w'
         | (Ok None, w') => import_loop items a (S x) w'
         | (Raise e, w') => (Raise e, w')
         end.
Proof.
  intros Hn Hp. cbn [import_loop]. rewrite Hn, Hp.
  unfold bind at 1, lift at 1. cbn [py_strip].
  unfold bind at 1, lift at 1. cbn [py_strip].
  destruct (String.eqb (strip n) ""); cbn [negb]; [reflexivity | ].
  unfold bind.
  destruct (insert_producer true (strip n) (strip p) w) as [[[i | ] | e] w']; reflexivity.
Qed.

Lemma same_producer_key_eq (n p : string) (r : producer) :
  same_producer n p r = true <-> producer_key r = Some (normalized n, normalized p).
Proof.
  unfold same_producer, producer_key.
  destruct (producer_property r) as [q | ].
  - rewrite andb_true_iff, !String.eqb_eq. split; [intros [-> ->]; reflexivity | ].
    intros [= -> ->]. auto.
  - rewrite andb_false_r. split; discriminate.
Qed.

Lemma same_producer_in_keys_iff (n p : string) (ps : list producer) :
  existsb (same_producer n p) ps = true <-> (normalized n, normalized p) ∈ producer_keys ps.
Proof.
  unfold producer_keys. rewrite existsb_exists, elem_of_list_to_set, list_elem_of_omap.
  split; intros (r & Hin & H); exists r.
  - split; [apply list_elem_of_In; assumption | apply same_producer_key_eq; assumption].
  - split; [apply list_elem_of_In; assumption | apply same_producer_key_eq; assumption].
Qed.

Lemma same_producer_in_keys (n p : string) (ps : list producer) :
  existsb (same_producer n p) ps = bool_decide ((normalized n, normalized p) ∈ producer_keys ps).
Proof.
  destruct (existsb (same_producer n p) ps) eqn:E; symmetry.
  - apply bool_decide_eq_true, same_producer_in_keys_iff. assumption.
  - apply bool_decide_eq_false. intros H. apply same_producer_in_keys_iff in H. congruence.
Qed.

Lemma producer_keys_snoc (ps : list producer) (i n p : string) :
  producer_keys (ps ++ [Producer i n (Some p)])
    = {[ (normalized n, normalized p) ]} ∪ producer_keys ps.
Proof.
  unfold producer_keys. rewrite omap_app, list_to_set_app_L. cbn. set_solver.
Qed.

Lemma fresh_producer_ids_next (w w' : world) :
  fresh_producer_ids w ->
  uuids w' = uuids w -> uuid_next w' = S (uuid_next w) ->
  (producers w' = producers w \/
   exists n p, producers w' = producers w ++ [Producer (uuids w (uuid_next w)) n p]) ->
  fresh_producer_ids w'.
Proof.
  intros [Hnew Hinj] Hu Hn Hps. unfold fresh_producer_ids. rewrite Hu, Hn.
  split.
  - intros k. replace (S (uuid_next w) + k)%nat with (uuid_next w + S k)%nat by lia.
    destruct Hps as [-> | (n & p & ->)]; [apply Hnew | ].
    rewrite map_app, in_app_iff. intros [H | [H | []]]; [exact (Hnew _ H) | ].
    cbn in H. replace (uuid_next w) with (uuid_next w + 0)%nat in H at 1 by lia.
    apply Hinj in H. discriminate.
  - intros j k H.
    replace (S (uuid_next w) + j)%nat with (uuid_next w + S j)%nat in H by lia.
    replace (S (uuid_next w) + k)%nat with (uuid_next w + S k)%nat in H by lia.
    apply Hinj in H. lia.
Qed.

Lemma import_entry_skipped (item : pyval) :
  match item with
  | PDict d => d !! "name" = None
  | _ => True
  end ->
  import_entry item = None.
Proof. destruct item; try reflexivity. cbn. intros ->. reflexivity. Qed.

(** The loop computes the tally of the spec, and inserts as many rows as it
    counts as added. *)
Lemma import_loop_tally (items : list pyval) :
  forall (a x : nat) (w : world),
    Forall importable items -> fresh_producer_ids w ->
    exists w' a' x',
      import_loop items a x w = (Ok (a', x'), w') /\
      a' = (a + (tally (producer_keys (producers w)) (omap import_entry items)).1)%nat /\
      x' = (x + (tally (producer_keys (producers w)) (omap import_entry items)).2)%nat /\
      length (producers w')
        = (length (producers w)
           + (tally (producer_keys (producers w)) (omap import_entry items)).1)%nat /\
      db_up w' = db_up w /\ drivers w' = drivers w /\ coffee_lots w' = coffee_lots w /\
      exists news, producers w' = producers w ++ news.
Proof.
  induction items as [ | item items IH]; intros a x w Hok Hfresh.
  - exists w, a, x. cbn. repeat split; try lia. exists []. rewrite app_nil_r. reflexivity.
  - apply Forall_cons in Hok as [Hitem Hitems].
    assert (Hskip : match item with PDict d => d !! "name" = None | _ => True end ->
              exists w' a' x',
                import_loop (item :: items) a x w = (Ok (a', x'), w') /\
                a' = (a + (tally (producer_keys (producers w))
                             (omap import_entry (item :: items))).1)%nat /\
                x' = (x + (tally (producer_keys (producers w))
                             (omap import_entry (item :: items))).2)%nat /\
                length (producers w')
                  = (length (producers w)
                     + (tally (producer_keys (producers w))
                          (omap import_entry (item :: items))).1)%nat /\
                db_up w' = db_up w /\ drivers w' = drivers w /\
                coffee_lots w' = coffee_lots w /\
                exists news, producers w' = producers w ++ news).
    { intros Hs. rewrite (import_loop_skip item items a x w Hs).
      change (omap import_entry (item :: items)) with
        (match import_entry item with
         | Some e => e :: omap import_entry items
         | None => omap import_entry items
         end).
      rewrite (import_entry_skipped item Hs). apply IH; assumption. }
    destruct item as [ | | | | | | | d]; try (apply Hskip; exact I).
    destruct (d !! "name") as [nm | ] eqn:Hname; [ | apply Hskip; reflexivity].
    clear Hskip. cbn [importable] in Hitem. rewrite Hname in Hitem.
    destruct nm as [ | | | | n | | | ]; try contradiction.
    destruct Hitem as (p & Hprop & Hln & Hlp).
    rewrite (import_loop_named d n p items a x w Hname Hprop).
    change (omap import_entry (PDict d :: items)) with
      (match import_entry (PDict d) with
       | Some e => e :: omap import_entry items
       | None => omap import_entry items
       end).
    cbn [import_entry]. rewrite Hname, Hprop.
    destruct (String.eqb (strip n) ""); [apply IH; assumption | ].
    destruct (insert_producer_do_nothing (strip n) (strip p) w Hln Hlp)
      as (r & w1 & Hi & Hup & Hu & Hn & Hd & Hcase).
    rewrite Hi. cbn [tally fst snd].
    rewrite <- (same_producer_in_keys (strip n) (strip p) (producers w)).
    assert (Hl : coffee_lots w1 = coffee_lots w).
    { pose proof (keeps_lots_insert_producer true (strip n) (strip p) w) as Hk.
      rewrite Hi in Hk. exact Hk. }
    destruct (existsb (same_producer (strip n) (strip p)) (producers w)) eqn:Hex.
    + destruct Hcase as [-> Hps].
      assert (Hfresh1 : fresh_producer_ids w1).
      { apply (fresh_producer_ids_next w w1 Hfresh Hu Hn). left. assumption. }
      destruct (IH a (S x) w1 Hitems Hfresh1)
        as (w' & a' & x' & Hrun & Ha & Hx & Hlen & Hup' & Hd' & Hl' & news & Hnews).
      rewrite Hps in Ha, Hx, Hlen, Hnews.
      exists w', a', x'. cbn [fst snd].
      repeat split; try congruence; try lia. exists news. assumption.
    + assert (Hid : existsb (fun q => String.eqb (producer_id q) (uuids w (uuid_next w)))
                      (producers w) = false).
      { apply (existsb_id_fresh producer_id). destruct Hfresh as [Hnew _].
        specialize (Hnew 0%nat). rewrite Nat.add_0_r in Hnew. assumption. }
      rewrite Hid in Hcase. destruct Hcase as [-> Hps].
      assert (Hfresh1 : fresh_producer_ids w1).
      { apply (fresh_producer_ids_next w w1 Hfresh Hu Hn). right. eauto. }
      destruct (IH (S a) x w1 Hitems Hfresh1)
        as (w' & a' & x' & Hrun & Ha & Hx & Hlen & Hup' & Hd' & Hl' & news & Hnews).
      rewrite Hps, producer_keys_snoc in Ha, Hx, Hlen.
      rewrite length_app in Hlen. cbn [length] in Hlen.
      exists w', a', x'. cbn [fst snd].
      repeat split; try congruence; try lia.
      exists (Producer (uuids w (uuid_next w)) (strip n) (Some (strip p)) :: news).
      rewrite Hnews, Hps, <- app_assoc. reflexivity.
Qed.

Lemma tally_total (present : gset (string * string)) (entries : list (string * string)) :
  ((tally present entries).1 + (tally present entries).2 = length entries)%nat.
Proof.
  revert present. induction entries as [ | e rest IH]; intros present; [reflexivity | ].
  cbn [tally length]. destruct (bool_decide _); cbn [fst snd].
  - specialize (IH present). lia.
  - specialize (IH ({[ (normalized e.1, normalized e.2) ]} ∪ present)). lia.
Qed.

Lemma numbered_uuid_inj (j k : nat) : numbered_uuid j = numbered_uuid k -> j = k.
Proof.
  unfold numbered_uuid. intros [= H].
  apply (f_equal NilEmpty.uint_of_string) in H. rewrite !NilEmpty.usu in H.
  injection H as H. apply (f_equal Nat.of_uint) in H.
  rewrite !DecimalNat.Unsigned.of_to in H. assumption.
Qed.

(** The example of the spec: 1 added, 1 already existing. *)
Example import_A_A :
  (import_producer_names (PList batch_A_A) empty_world).1
    = Ok (Response (JMessage (ImportacaoConcluida 1 1)) 200) /\
  tally (producer_keys []) (omap import_entry batch_A_A) = (1%nat, 1%nat).
Proof. split; vm_compute; reflexivity. Qed.

(** A batch with an item that cannot be processed (a null name) is answered
    500 and leaves the registry as it was: the rows inserted before the
    failure are rolled back. *)
Example import_rolls_back :
  let r := import_producer_names
             (PList [PDict {[ "name" := PStr "A" ]}; PDict {[ "name" := PNone ]}]) empty_world in
  r.1 = Ok (Response (JMessage (Text "Erro interno do servidor ao importar nomes de produtores.")) 500)
  /\ producers r.2 = [].
Proof. split; vm_compute; reflexivity. Qed.

(** * Further properties of the handlers *)

(** ** What can escape a handler *)

Lemma no_store_error_ret {A} (a : A) : no_store_error (ret a).
Proof. intros w. discriminate. Qed.

Lemma no_store_error_bind {A B} (m : M A) (k : A -> M B) :
  no_store_error m -> (forall a, no_store_error (k a)) -> no_store_error (bind m k).
Proof.
  intros Hm Hk w. unfold bind. specialize (Hm w).
  destruct (m w) as [[a | e] w1]; [apply Hk | ].
  cbn [fst] in *. intros [= ->]. apply Hm. reflexivity.
Qed.

Lemma no_store_error_try {A} (m : M A) (h : exn -> M A) :
  (forall e, no_store_error (h e)) -> no_store_error (try_except m h).
Proof.
  intros Hh w. unfold try_except.
  destruct (m w) as [[a | e] w1]; [discriminate | apply Hh].
Qed.

Lemma no_store_error_strip (v : pyval) : no_store_error (lift (py_strip v)).
Proof. intros w. destruct v; discriminate. Qed.

Lemma no_store_error_chained (a : Z) (v : pyval) (b : Z) :
  no_store_error (lift (chained_le a v b)).
Proof.
  intros w. unfold lift, chained_le. cbn [fst].
  destruct v; cbn; try discriminate.
  - destruct (a <=? Z.b2z b0); discriminate.
  - destruct (a <=? z); discriminate.
  - destruct (Qle_bool (inject_Z a) q); discriminate.
Qed.

Lemma no_store_error_uuid4 : no_store_error uuid4.
Proof. intros w. discriminate. Qed.

Create HintDb escapes discriminated.
#[export] Hint Resolve no_store_error_ret no_store_error_strip no_store_error_chained
  no_store_error_uuid4 : escapes.

Ltac escapes_step :=
  match goal with
  | |- no_store_error (try_except _ _) => apply no_store_error_try; intros ?
  | |- no_store_error (bind _ _) => apply no_store_error_bind; [ | intros ? ]
  | |- no_store_error (if ?b then _ else _) => destruct b
  | |- no_store_error (match ?x with _ => _ end) => destruct x
  | |- no_store_error _ => solve [auto with escapes]
  end.

Ltac escapes_tac := repeat escapes_step.

Lemma no_store_error_validate b c : no_store_error (validate_boca_entrada b c).
Proof. unfold validate_boca_entrada. escapes_tac. Qed.

Lemma no_store_error_parse d : no_store_error (parse_data_entrada d).
Proof.
  intros w. unfold parse_data_entrada, ret, raise.
  destruct (d !! "data_entrada") as [v | ]; [ | discriminate].
  destruct (truthy v); [ | discriminate].
  destruct v; cbn; try discriminate.
  destruct (fromisoformat s); discriminate.
Qed.

Lemma no_store_error_add_producer n p : no_store_error (add_producer_if_not_exists n p).
Proof. unfold add_producer_if_not_exists. escapes_tac. Qed.

Lemma no_store_error_add_driver n : no_store_error (add_driver_if_not_exists n).
Proof. unfold add_driver_if_not_exists. escapes_tac. Qed.

#[export] Hint Resolve no_store_error_validate no_store_error_parse
  no_store_error_add_producer no_store_error_add_driver : escapes.

Lemma no_store_error_register d : no_store_error (register_names d).
Proof. unfold register_names. escapes_tac. Qed.

#[export] Hint Resolve no_store_error_register : escapes.

(** X1.  No handler lets a store error through: whatever the request and
    whatever the state of the store, none of the ten modelled routes ends
    in a [psycopg2] exception. *)
Theorem handlers_catch_store_errors :
  (forall lot_id, no_store_error (get_coffee_lot_by_id lot_id)) /\
  no_store_error get_all_coffee_lots /\
  (forall data, no_store_error (add_coffee_lot data)) /\
  (forall lot_id data, no_store_error (update_coffee_lot lot_id data)) /\
  (forall lot_id, no_store_error (delete_coffee_lot lot_id)) /\
  (forall data, no_store_error (add_single_producer data)) /\
  (forall data, no_store_error (delete_producer data)) /\
  (forall body, no_store_error (import_producer_names body)) /\
  (forall data, no_store_error (add_single_driver data)) /\
  (forall data, no_store_error (delete_driver_route data)).
Proof.
  repeat split; intros.
  - unfold get_coffee_lot_by_id. escapes_tac.
  - unfold get_all_coffee_lots. escapes_tac.
  - unfold add_coffee_lot, add_coffee_lot_insert. escapes_tac.
  - unfold update_coffee_lot, update_coffee_lot_write. escapes_tac.
  - unfold delete_coffee_lot. escapes_tac.
  - unfold add_single_producer. escapes_tac.
  - unfold delete_producer. escapes_tac.
  - unfold import_producer_names. escapes_tac.
  - unfold add_single_driver. escapes_tac.
  - unfold delete_driver_route. escapes_tac.
Qed.

(** ** The validator only reads *)

Lemma bind_ok {A B} (m : M A) (k : A -> M B) (w w1 : world) (a : A) :
  m w = (Ok a, w1) -> bind m k w = k a w1.
Proof. intros H. unfold bind. rewrite H. reflexivity. Qed.

Lemma bind_raise {A B} (m : M A) (k : A -> M B) (w w1 : world) (e : exn) :
  m w = (Raise e, w1) -> bind m k w = (Raise e, w1).
Proof. intros H. unfold bind. rewrite H. reflexivity. Qed.

Lemma range_check_result (boca_num : pyval) (w : world) :
  match boca_num with
  | PNone => ret true
  | _ => let* inside := lift (chained_le 1 boca_num 8) in ret (negb inside)
  end w = (Raise TypeError, w) \/
  exists b,
    match boca_num with
    | PNone => ret true
    | _ => let* inside := lift (chained_le 1 boca_num 8) in ret (negb inside)
    end w = (Ok b, w).
Proof.
  destruct (number boca_num) as [q | ] eqn:Hq.
  - right. unfold bind, lift, ret.
    destruct boca_num; cbn in Hq; try discriminate; unfold chained_le; cbn;
      repeat match goal with
             | |- context [if ?b then _ else _] => destruct b
             | |- context [match ?b with true => _ | false => _ end] => destruct b
             end; eexists; reflexivity.
  - destruct boca_num; cbn in Hq; try discriminate;
      try (left; reflexivity). right. eexists. reflexivity.
Qed.

Lemma validate_result (boca_num : pyval) (current_lot_id : option string) (w : world) :
  (validate_boca_entrada boca_num current_lot_id w).1 = Raise TypeError \/
  exists v, (validate_boca_entrada boca_num current_lot_id w).1 = Ok v.
Proof.
  unfold validate_boca_entrada.
  destruct (range_check_result boca_num w) as [H | [b H]].
  - rewrite (bind_raise _ _ _ _ _ H). left. reflexivity.
  - rewrite (bind_ok _ _ _ _ _ H). right.
    destruct b; [eexists; reflexivity | ].
    unfold try_except, bind.
    destruct (get_db_connection w) as [[[] | e] w1]; [ | eexists; reflexivity].
    destruct (select_active_boca boca_num current_lot_id w1) as [[[] | e] w2];
      eexists; reflexivity.
Qed.

Lemma validate_connections (boca_num : pyval) (current_lot_id : option string) (w : world) :
  let w' := (validate_boca_entrada boca_num current_lot_id w).2 in
  connections w' = connections w \/ connections w' = S (connections w).
Proof.
  unfold validate_boca_entrada.
  destruct (range_check_result boca_num w) as [H | [b H]].
  - rewrite (bind_raise _ _ _ _ _ H). left. reflexivity.
  - rewrite (bind_ok _ _ _ _ _ H).
    destruct b; [left; reflexivity | ]. right.
    unfold try_except, bind, get_db_connection.
    destruct (db_up w); [ | reflexivity].
    pose proof (keeps_select_boca connections boca_num current_lot_id (connected w)) as Hk.
    destruct (select_active_boca boca_num current_lot_id (connected w)) as [[[] | e] w2];
      cbn [snd] in *; unfold ret; cbn [snd]; exact Hk.
Qed.

(** X2.  The bay validator only reads: it leaves the three tables and the
    UUID source as they were, opens at most one connection, and either
    answers or raises [TypeError]; no other exception leaves it. *)
Theorem validate_boca_entrada_reads_only
    (boca_num : pyval) (current_lot_id : option string) (w : world) :
  let r := validate_boca_entrada boca_num current_lot_id w in
  coffee_lots r.2 = coffee_lots w /\ producers r.2 = producers w /\
  drivers r.2 = drivers w /\ uuid_next r.2 = uuid_next w /\ db_up r.2 = db_up w /\
  (connections r.2 = connections w \/ connections r.2 = S (connections w)) /\
  (r.1 = Raise TypeError \/ exists v, r.1 = Ok v).
Proof.
  cbv zeta. repeat split.
  - apply (keeps_validate coffee_lots); auto with keeps.
  - apply (keeps_validate producers); auto with keeps.
  - apply (keeps_validate drivers); auto with keeps.
  - apply (keeps_validate uuid_next); auto with keeps.
  - apply (keeps_validate db_up); auto with keeps.
  - apply validate_connections.
  - apply validate_result.
Qed.

(** ** GET and DELETE of a lot *)


Lemma lot_ids_elem (lots : list (gmap string pyval)) (i : string) :
  i ∈ lot_ids lots <-> exists lot, In lot lots /\ sql_eq_str (dict_get lot "id") i = true.
Proof.
  unfold lot_ids. rewrite list_elem_of_omap.
  split; intros (lot & Hin & H); exists lot.
  - split; [apply list_elem_of_In; assumption | apply lot_id_sql_eq; assumption].
  - split; [apply list_elem_of_In; assumption | apply lot_id_sql_eq; assumption].
Qed.






Lemma filter_length_zero {A} (f : A -> bool) (l : list A) :
  length (List.filter f l) = 0%nat <-> forall x, In x l -> f x = false.
Proof.
  split.
  - intros H x Hin. apply not_true_is_false. intros E.
    assert (Hx : In x (List.filter f l)) by (apply filter_In; auto).
    destruct (List.filter f l); [destruct Hx | discriminate].
  - intros H. induction l as [ | y l IH]; [reflexivity | ]. cbn.
    rewrite (H y (or_introl eq_refl)). apply IH. intros x Hx. apply H. right. assumption.
Qed.


Lemma delete_coffee_lot_run (i : string) (w : world) :
  db_up w = true ->
  delete_coffee_lot i w =
    (Ok (if (0 <? length (List.filter (fun lot => sql_eq_str (dict_get lot "id") i)
                            (coffee_lots w)))%nat
         then lot_removed else lot_not_found),
     set_coffee_lots
       (List.filter (fun lot => negb (sql_eq_str (dict_get lot "id") i)) (coffee_lots w))
       (connected w)).
Proof.
  intros Hup. unfold delete_coffee_lot, try_except.
  rewrite (bind_ok _ _ _ _ _ (get_db_connection_up _ Hup)).
  unfold bind, delete_coffee_lots. change (coffee_lots (connected w)) with (coffee_lots w).
  destruct (0 <? _)%nat; reflexivity.
Qed.


(** ** Frames of the other statements *)

Lemma filter_filter_length {A} (f g : A -> bool) (l : list A) :
  (length (List.filter f (List.filter g l)) <= length (List.filter f l))%nat.
Proof.
  induction l as [ | x l IH]; [reflexivity | ]. cbn.
  destruct (g x); cbn; destruct (f x); cbn; lia.
Qed.

Lemma keeps_producers_delete_lots i : keeps producers (delete_coffee_lots i).
Proof. intros w. reflexivity. Qed.
Lemma keeps_drivers_delete_lots i : keeps drivers (delete_coffee_lots i).
Proof. intros w. reflexivity. Qed.
Lemma keeps_lots_delete_producers n p : keeps coffee_lots (delete_producers n p).
Proof. intros w. reflexivity. Qed.
Lemma keeps_drivers_delete_producers n p : keeps drivers (delete_producers n p).
Proof. intros w. reflexivity. Qed.
Lemma keeps_lots_delete_drivers n : keeps coffee_lots (delete_drivers n).
Proof. intros w. reflexivity. Qed.
Lemma keeps_producers_delete_drivers n : keeps producers (delete_drivers n).
Proof. intros w. reflexivity. Qed.

#[export] Hint Resolve keeps_producers_delete_lots keeps_drivers_delete_lots
  keeps_lots_delete_producers keeps_drivers_delete_producers
  keeps_lots_delete_drivers keeps_producers_delete_drivers : keeps.

Lemma keeps_select_all {X} (f : world -> X) : keeps f select_all_lots.
Proof. intros w. reflexivity. Qed.

#[export] Hint Resolve keeps_select_all : keeps.

Lemma import_loop_keeps {X} (f : world -> X) (items : list pyval) :
  (forall b n p, keeps f (insert_producer b n p)) ->
  forall a x, keeps f (import_loop items a x).
Proof.
  intros Hf. induction items as [ | item items IH]; intros a x; cbn [import_loop];
    [apply keeps_ret | ].
  destruct item; try apply IH.
  destruct (m !! "name"); [ | apply IH].
  apply keeps_bind; [apply keeps_lift | intros name].
  apply keeps_bind; [apply keeps_lift | intros property].
  destruct (negb _); [ | apply IH].
  apply keeps_bind; [apply Hf | intros [i | ]; apply IH].
Qed.

Lemma keeps_rolled_back {A X} (f : world -> X) (m : M A) :
  (forall w w', coffee_lots w' = coffee_lots w -> producers w' = producers w ->
                drivers w' = drivers w -> f w' = f w) ->
  keeps f m -> keeps f (rolled_back m).
Proof.
  intros Hf Hm w. unfold rolled_back. specialize (Hm w).
  destruct (m w) as [[a | e] w1]; cbn [snd] in *; [assumption | ].
  apply Hf; reflexivity.
Qed.

Lemma import_keeps_drivers (body : pyval) : keeps drivers (import_producer_names body).
Proof.
  unfold import_producer_names. destruct body; try apply keeps_ret.
  apply keeps_try_except; [ | intros e; apply keeps_ret].
  apply keeps_rolled_back; [intros w w' _ _ H; exact H | ].
  apply keeps_bind; [auto with keeps | intros _].
  apply keeps_bind; [ | intros c; apply keeps_ret].
  apply import_loop_keeps. intros. auto with keeps.
Qed.

Lemma import_keeps_lots (body : pyval) : keeps coffee_lots (import_producer_names body).
Proof.
  unfold import_producer_names. destruct body; try apply keeps_ret.
  apply keeps_try_except; [ | intros e; apply keeps_ret].
  apply keeps_rolled_back; [intros w w' H _ _; exact H | ].
  apply keeps_bind; [auto with keeps | intros _].
  apply keeps_bind; [ | intros c; apply keeps_ret].
  apply import_loop_keeps. intros. auto with keeps.
Qed.

#[export] Hint Resolve import_keeps_drivers import_keeps_lots : keeps.

(** ** The upsert never fails *)

Lemma insert_producer_grows (b : bool) (n p : string) (w : world) :
  exists news, producers (insert_producer b n p w).2 = producers w ++ news /\
               (length news <= 1)%nat.
Proof.
  unfold insert_producer.
  destruct (varchar 255 n) as [n' | ]; [ | exists []; rewrite app_nil_r; auto].
  destruct (varchar 255 p) as [p' | ]; [ | exists []; rewrite app_nil_r; auto].
  unfold uuid4. cbv beta iota. cbn [producers].
  destruct (existsb (same_producer n' p') (producers w)).
  - exists []. rewrite app_nil_r. destruct b; auto.
  - destruct (existsb _ (producers w)); [exists []; rewrite app_nil_r; auto | ].
    eexists [_]. split; [reflexivity | cbn; lia].
Qed.

Lemma insert_driver_grows (b : bool) (n : string) (w : world) :
  exists news, drivers (insert_driver b n w).2 = drivers w ++ news /\ (length news <= 1)%nat.
Proof.
  unfold insert_driver.
  destruct (varchar 255 n) as [n' | ]; [ | exists []; rewrite app_nil_r; auto].
  unfold uuid4. cbv beta iota. cbn [drivers].
  destruct (existsb (same_driver n') (drivers w)).
  - exists []. rewrite app_nil_r. destruct b; auto.
  - destruct (existsb _ (drivers w)); [exists []; rewrite app_nil_r; auto | ].
    eexists [_]. split; [reflexivity | cbn; lia].
Qed.

Lemma add_producer_total (name property : pyval) (p : string) (w : world) :
  blank_name name = true \/ (exists n, name = PStr n) ->
  property_text property = Some p ->
  exists w',
    add_producer_if_not_exists name property w = (Ok tt, w') /\
    (exists news, producers w' = producers w ++ news /\ (length news <= 1)%nat) /\
    drivers w' = drivers w /\ coffee_lots w' = coffee_lots w.
Proof.
  intros Hname Hp.
  destruct (blank_name name) eqn:Hb.
  { rewrite (add_producer_blank name property w Hb). exists w.
    repeat split. exists []. rewrite app_nil_r. auto. }
  destruct Hname as [H | [n ->]]; [discriminate | ].
  unfold blank_name in Hb. apply orb_false_iff in Hb as [Ht Hs].
  apply negb_false_iff in Ht.
  unfold add_producer_if_not_exists, bind at 1. rewrite Ht. cbn [negb].
  unfold bind at 1, lift at 1. cbn [py_strip]. unfold ret at 1. rewrite Hs.
  unfold bind at 1, lift at 1. cbn [py_strip].
  assert (Hprop : (match property with PNone => ret "" | _ => lift (py_strip property) end) w
                  = (Ok p, w)).
  { destruct property; cbn in Hp; try discriminate; injection Hp as <-; reflexivity. }
  rewrite (bind_ok _ _ _ _ _ Hprop).
  unfold try_except, bind at 1, get_db_connection.
  destruct (db_up w).
  - unfold bind.
    destruct (insert_producer_grows true (strip n) p (connected w)) as (news & Hn & Hl).
    pose proof (keeps_drivers_insert_producer true (strip n) p (connected w)) as Hd.
    pose proof (keeps_lots_insert_producer true (strip n) p (connected w)) as Hc.
    destruct (insert_producer true (strip n) p (connected w)) as [[o | e] w1];
      cbn [snd] in *; unfold ret; exists w1; repeat split; eauto.
  - unfold ret. exists (connected w). repeat split. exists []. rewrite app_nil_r. auto.
Qed.

Lemma add_driver_total (name : pyval) (w : world) :
  blank_name name = true \/ (exists n, name = PStr n) ->
  exists w',
    add_driver_if_not_exists name w = (Ok tt, w') /\
    (exists news, drivers w' = drivers w ++ news /\ (length news <= 1)%nat) /\
    producers w' = producers w /\ coffee_lots w' = coffee_lots w.
Proof.
  intros Hname.
  destruct (blank_name name) eqn:Hb.
  { rewrite (add_driver_blank name w Hb). exists w.
    repeat split. exists []. rewrite app_nil_r. auto. }
  destruct Hname as [H | [n ->]]; [discriminate | ].
  unfold blank_name in Hb. apply orb_false_iff in Hb as [Ht Hs].
  apply negb_false_iff in Ht.
  unfold add_driver_if_not_exists, bind at 1. rewrite Ht. cbn [negb].
  unfold bind at 1, lift at 1. cbn [py_strip]. unfold ret at 1. rewrite Hs.
  unfold bind at 1, lift at 1. cbn [py_strip].
  unfold try_except, bind at 1, get_db_connection.
  destruct (db_up w).
  - unfold bind.
    destruct (insert_driver_grows true (strip n) (connected w)) as (news & Hn & Hl).
    pose proof (keeps_producers_insert_driver true (strip n) (connected w)) as Hd.
    pose proof (keeps_lots_insert_driver true (strip n) (connected w)) as Hc.
    destruct (insert_driver true (strip n) (connected w)) as [[o | e] w1];
      cbn [snd] in *; unfold ret; exists w1; repeat split; eauto.
  - unfold ret. exists (connected w). repeat split. exists []. rewrite app_nil_r. auto.
Qed.

(** X6.  The opportunistic upsert never fails on well-typed arguments: for a
    name that is a string or a false value, and a property that is a string
    or [None], the producer upsert returns normally in every world (store
    unreachable, value too long, key present, UUID taken), keeps every row
    of its table and appends at most one, and leaves the other tables alone;
    likewise the driver upsert. *)
Theorem upsert_never_fails :
  (forall name property p w,
      blank_name name = true \/ (exists n, name = PStr n) ->
      property_text property = Some p ->
      exists w',
        add_producer_if_not_exists name property w = (Ok tt, w') /\
        (exists news, producers w' = producers w ++ news /\ (length news <= 1)%nat) /\
        drivers w' = drivers w /\ coffee_lots w' = coffee_lots w) /\
  (forall name w,
      blank_name name = true \/ (exists n, name = PStr n) ->
      exists w',
        add_driver_if_not_exists name w = (Ok tt, w') /\
        (exists news, drivers w' = drivers w ++ news /\ (length news <= 1)%nat) /\
        producers w' = producers w /\ coffee_lots w' = coffee_lots w).
Proof. split; [exact add_producer_total | exact add_driver_total]. Qed.

Lemma upsert_never_fails_witness :
  (exists w',
      add_producer_if_not_exists (PStr "Ana") PNone unreachable_world = (Ok tt, w') /\
      (exists news, producers w' = producers unreachable_world ++ news /\
                    (length news <= 1)%nat) /\
      drivers w' = drivers unreachable_world /\
      coffee_lots w' = coffee_lots unreachable_world) /\
  (exists w',
      add_driver_if_not_exists (PStr "Joe") registry_world = (Ok tt, w') /\
      (exists news, drivers w' = drivers registry_world ++ news /\ (length news <= 1)%nat) /\
      producers w' = producers registry_world /\ coffee_lots w' = coffee_lots registry_world).
Proof.
  destruct upsert_never_fails as [Hp Hd].
  split.
  - apply (Hp (PStr "Ana") PNone ""); [right; eauto | reflexivity].
  - apply Hd. right. eauto.
Defined.

(** ** Delete by normalized key *)








Example delete_maria :
  (delete_producer (<["property" := PStr " FARM"]> {[ "name" := PStr "maria " ]}) registry_world).1
    = Ok producer_removed /\
  producers (delete_producer (<["property" := PStr " FARM"]> {[ "name" := PStr "maria " ]})
               registry_world).2 = [].
Proof. split; reflexivity. Qed.

(** ** Create, create again, upsert, delete *)








(** ** What POST does to the table *)

Lemma insert_coffee_lot_effect (vs : list pyval) (w : world) :
  (exists row, insert_coffee_lot vs w = (Ok tt, set_coffee_lots (coffee_lots w ++ [row]) w) /\
               primary_key_ok (coffee_lots w ++ [row]) = true) \/
  insert_coffee_lot vs w = (Raise DatabaseError, w).
Proof.
  unfold insert_coffee_lot.
  destruct (store_values _) as [row | ]; [ | right; reflexivity].
  destruct (primary_key_ok _) eqn:E; [left; eauto | right; reflexivity].
Qed.

Lemma add_coffee_lot_insert_effect (data : gmap string pyval) (w : world) :
  let r := add_coffee_lot_insert data w in
  (coffee_lots r.2 = coffee_lots w /\ forall resp, r.1 = Ok resp -> status resp = 500) \/
  (exists row resp, r.1 = Ok resp /\ status resp = 201 /\
                    coffee_lots r.2 = coffee_lots w ++ [row] /\
                    primary_key_ok (coffee_lots r.2) = true).
Proof.
  intros r. assert (Hr : r = add_coffee_lot_insert data w) by reflexivity. clearbody r.
  unfold add_coffee_lot_insert, bind at 1 in Hr. unfold uuid4 at 1 in Hr. cbv beta iota in Hr.
  set (d := <["status" := _]> _) in Hr. set (w1 := World _ _ _ _ _ _ _) in Hr.
  unfold bind at 1 in Hr.
  pose proof (keeps_lots_register d w1) as Hl.
  destruct (register_names d w1) as [[[] | e] w2]; cbn [snd] in Hl;
    change (coffee_lots w1) with (coffee_lots w) in Hl.
  2: { left. subst r. cbn [fst snd]. split; [assumption | intros resp [=]]. }
  unfold try_except, bind at 1, get_db_connection in Hr.
  destruct (db_up w2).
  2: { left. subst r. unfold ret. cbn [fst snd].
       split; [assumption | intros resp [= <-]; reflexivity]. }
  unfold bind in Hr.
  destruct (insert_coffee_lot_effect (map (dict_get d) COFFEE_LOT_COLUMNS) (connected w2))
    as [(row & Hi & Hpk) | Hi]; rewrite Hi in Hr; subst r; unfold ret; cbn [fst snd].
  - right. cbn [set_coffee_lots coffee_lots].
    change (coffee_lots (connected w2)) with (coffee_lots w2) in *. rewrite Hl in *.
    exists row. eexists. repeat split. assumption.
  - left. split; [assumption | intros resp [= <-]; reflexivity].
Qed.

(** The handlers up to their last part: the validation and the parsing of
    the date change no table, and answer 400 when they answer. *)
Lemma handler_prefix (data : gmap string pyval) (current_lot_id : option string)
    (rest : gmap string pyval -> M response) (w : world) :
  let r := (let* validation_result :=
              validate_boca_entrada (dict_get data "boca_entrada") current_lot_id in
            if negb (isValid validation_result) then
              ret (Response (JMessage (validation_message validation_result)) 400)
            else
              let* parsed := parse_data_entrada data in
              match parsed with
              | inl bad_date => ret bad_date
              | inr d => rest d
              end) w in
  (coffee_lots r.2 = coffee_lots w /\ producers r.2 = producers w /\ drivers r.2 = drivers w /\
   uuid_next r.2 = uuid_next w /\
   forall resp, r.1 = Ok resp -> status resp = 400) \/
  (exists d w1 v,
      validate_boca_entrada (dict_get data "boca_entrada") current_lot_id w = (Ok v, w1) /\
      isValid v = true /\
      parse_data_entrada data w1 = (Ok (inr d), w1) /\
      coffee_lots w1 = coffee_lots w /\ producers w1 = producers w /\ drivers w1 = drivers w /\
      uuids w1 = uuids w /\ uuid_next w1 = uuid_next w /\ db_up w1 = db_up w /\
      r = rest d w1).
Proof.
  intros r.
  assert (Hr : r = (let* validation_result :=
              validate_boca_entrada (dict_get data "boca_entrada") current_lot_id in
            if negb (isValid validation_result) then
              ret (Response (JMessage (validation_message validation_result)) 400)
            else
              let* parsed := parse_data_entrada data in
              match parsed with
              | inl bad_date => ret bad_date
              | inr d => rest d
              end) w) by reflexivity.
  clearbody r. unfold bind at 1 in Hr.
  pose proof (keeps_validate coffee_lots (dict_get data "boca_entrada") current_lot_id
                keeps_lots_connection w) as Hl.
  pose proof (keeps_validate producers (dict_get data "boca_entrada") current_lot_id
                keeps_producers_connection w) as Hp.
  pose proof (keeps_validate drivers (dict_get data "boca_entrada") current_lot_id
                keeps_drivers_connection w) as Hd.
  pose proof (keeps_validate uuid_next (dict_get data "boca_entrada") current_lot_id
                keeps_next_connection w) as Hn.
  pose proof (keeps_validate uuids (dict_get data "boca_entrada") current_lot_id
                keeps_uuids_connection w) as Hu.
  pose proof (keeps_validate db_up (dict_get data "boca_entrada") current_lot_id
                keeps_up_connection w) as Hup.
  destruct (validate_boca_entrada _ _ w) as [[v | e] w1]; cbn [snd] in *.
  2: { left. subst r. cbn [fst snd]. repeat split; try assumption. intros resp [=]. }
  destruct (isValid v) eqn:Hv; cbn [negb] in Hr.
  2: { left. subst r. unfold ret. cbn [fst snd]. repeat split; try assumption.
       intros resp [= <-]. reflexivity. }
  unfold bind in Hr.
  destruct (parse_data_entrada data w1) as [[[bad | d] | e] w2] eqn:Hparse.
  - left. subst r. unfold ret. cbn [fst snd].
    unfold parse_data_entrada, ret, raise in Hparse.
    destruct (data !! "data_entrada") as [x | ]; [ | discriminate].
    destruct (truthy x); [ | discriminate].
    destruct (py_fromisoformat x) as [? | [ | | | ]]; try discriminate.
    injection Hparse as <- <-. repeat split; try assumption. intros resp [= <-]. reflexivity.
  - destruct (parse_data_entrada_cases _ _ _ _ Hparse) as [-> _].
    right. exists d, w1, v. repeat split; assumption.
  - left. subst r. cbn [fst snd].
    assert (w2 = w1) as ->.
    { rewrite (parse_data_entrada_pure data w1 w1) in Hparse. congruence. }
    repeat split; try assumption. intros resp [=].
Qed.

(** X9.  A POST either appends exactly one row to [coffee_lots], and then
    answers 201 and the primary key holds, or leaves the table as it was, and
    then answers 400 or 500 or raises; it never alters or removes a row. *)
Theorem add_coffee_lot_effect (data : gmap string pyval) (w : world) :
  let r := add_coffee_lot data w in
  (coffee_lots r.2 = coffee_lots w /\
   forall resp, r.1 = Ok resp -> status resp = 400 \/ status resp = 500) \/
  (exists row resp, r.1 = Ok resp /\ status resp = 201 /\
                    coffee_lots r.2 = coffee_lots w ++ [row] /\
                    primary_key_ok (coffee_lots r.2) = true).
Proof.
  intros r. assert (Hr : r = add_coffee_lot data w) by reflexivity. clearbody r.
  unfold add_coffee_lot in Hr.
  destruct (handler_prefix data None add_coffee_lot_insert w)
    as [(Hl & _ & _ & _ & Hs) | (d & w1 & v & _ & _ & _ & Hl & _ & _ & _ & _ & _ & Heq)].
  - rewrite <- Hr in Hl, Hs. left. split; [exact Hl | ]. intros resp H. left. apply Hs. exact H.
  - rewrite <- Hr in Heq.
    destruct (add_coffee_lot_insert_effect d w1) as [[Hsame Hs] | (row & resp & H1 & H2 & H3 & H4)];
      rewrite <- Heq in *.
    + left. split; [congruence | ]. intros resp H. right. apply Hs. exact H.
    + right. exists row, resp. rewrite <- Hl. repeat split; assumption.
Qed.

(** ** What PUT does to the table *)

Lemma assign_other (sets : list (string * pyval)) (lot : gmap string pyval) (c : string) :
  c ∉ sets.*1 -> assign sets lot !! c = lot !! c.
Proof.
  unfold assign. revert lot. induction sets as [ | [k v] sets IH]; intros lot H; [reflexivity | ].
  cbn [foldl fst snd]. cbn in H. apply not_elem_of_cons in H as [Hk Hrest].
  rewrite (IH _ Hrest). apply lookup_insert_ne. congruence.
Qed.

Lemma assign_set (sets : list (string * pyval)) (lot : gmap string pyval) (c : string) (v : pyval) :
  NoDup sets.*1 -> (c, v) ∈ sets -> assign sets lot !! c = Some v.
Proof.
  unfold assign. revert lot. induction sets as [ | [k x] sets IH]; intros lot Hnd Hin.
  - inversion Hin.
  - cbn [foldl fst snd]. cbn in Hnd. apply NoDup_cons in Hnd as [Hk Hnd].
    apply elem_of_cons in Hin as [[= -> ->] | Hin].
    + fold (assign sets (<[k := x]> lot)). rewrite (assign_other sets _ k Hk).
      apply lookup_insert_eq.
    + apply IH; assumption.
Qed.

Lemma stdpp_filter_length {A} (f : A -> bool) (l : list A) :
  length (filter (fun x => f x = true) l) = length (List.filter f l).
Proof.
  induction l as [ | x l IH]; [reflexivity | ]. cbn [List.filter].
  destruct (f x) eqn:E.
  - rewrite filter_cons_True by assumption. cbn. rewrite IH. reflexivity.
  - rewrite filter_cons_False by congruence. assumption.
Qed.

Lemma map_no_hit {A} (hit : A -> bool) (g : A -> A) (l : list A) :
  length (List.filter hit l) = 0%nat -> map (fun x => if hit x then g x else x) l = l.
Proof.
  intros H. rewrite filter_length_zero in H.
  induction l as [ | x l IH]; [reflexivity | ]. cbn.
  rewrite (H x (or_introl eq_refl)). f_equal. apply IH. intros y Hy. apply H. right. assumption.
Qed.

Lemma primary_key_by_ids (l1 l2 : list (gmap string pyval)) :
  map lot_id l1 = map lot_id l2 -> primary_key_ok l1 = primary_key_ok l2.
Proof.
  intros H. unfold primary_key_ok.
  assert (H1 : forallb (fun lot => bool_decide (is_Some (lot_id lot))) l1 =
               forallb (fun lot => bool_decide (is_Some (lot_id lot))) l2).
  { revert l2 H. induction l1 as [ | x l1 IH]; intros [ | y l2] H; try discriminate;
      [reflexivity | ].
    cbn [map] in H. injection H as Hx Hl. cbn [forallb]. rewrite Hx, (IH l2 Hl). reflexivity. }
  assert (H2 : lot_ids l1 = lot_ids l2).
  { clear H1. revert l2 H. induction l1 as [ | x l1 IH]; intros [ | y l2] H; try discriminate;
      [reflexivity | ].
    cbn [map] in H. injection H as Hx Hl. unfold lot_ids in *. cbn [omap list_omap].
    rewrite Hx, (IH l2 Hl). reflexivity. }
  rewrite H1, H2. reflexivity.
Qed.

Lemma lot_ids_cons (x : gmap string pyval) (l : list (gmap string pyval)) :
  lot_ids (x :: l) = match lot_id x with Some i => i :: lot_ids l | None => lot_ids l end.
Proof. reflexivity. Qed.

(** The UPDATE: it raises and changes nothing, or rewrites the rows of that
    id with the values as the columns take them, and the primary key still
    holds. *)
Lemma update_coffee_lots_effect (sets : list (string * pyval)) (i : string) (w : world) :
  update_coffee_lots sets i w = (Raise DatabaseError, w) \/
  exists sets',
    store_values sets = Some sets' /\
    update_coffee_lots sets i w =
      (Ok (length (List.filter (fun lot => sql_eq_str (dict_get lot "id") i) (coffee_lots w))),
       set_coffee_lots
         (map (fun lot => if sql_eq_str (dict_get lot "id") i then assign sets' lot else lot)
            (coffee_lots w)) w) /\
    (primary_key_ok (coffee_lots w) = true ->
     primary_key_ok
       (map (fun lot => if sql_eq_str (dict_get lot "id") i then assign sets' lot else lot)
          (coffee_lots w)) = true).
Proof.
  unfold update_coffee_lots.
  destruct (store_values sets) as [sets' | ]; [ | left; reflexivity].
  destruct (existsb _ sets') eqn:Hid; cbn [andb].
  - destruct (primary_key_ok _) eqn:Hpk; cbn [negb]; [ | left; reflexivity].
    right. exists sets'. split; [reflexivity | ]. split; [ | intros _; exact Hpk].
    rewrite stdpp_filter_length. reflexivity.
  - right. exists sets'. split; [reflexivity | ]. split.
    { rewrite stdpp_filter_length. reflexivity. }
    intros Hk. etransitivity; [ | exact Hk]. apply primary_key_by_ids.
    rewrite map_map. apply map_ext.
    intros lot. destruct (sql_eq_str (dict_get lot "id") i); [ | reflexivity].
    unfold lot_id, dict_get. rewrite assign_other; [reflexivity | ].
    intros Hin. apply list_elem_of_fmap in Hin as ([c v] & Hc & Hin). cbn in Hc. subst c.
    apply not_true_iff_false in Hid. apply Hid. apply existsb_exists.
    exists ("id", v). split; [apply list_elem_of_In; assumption | reflexivity].
Qed.

Lemma get_coffee_lot_by_id_200 (i : string) (w : world) (resp : response) :
  (get_coffee_lot_by_id i w).1 = Ok resp -> status resp = 200 ->
  exists lot, In lot (coffee_lots w) /\ sql_eq_str (dict_get lot "id") i = true /\
              resp = Response (JLot (serialize_coffee_lot lot)) 200.
Proof.
  unfold get_coffee_lot_by_id, try_except, bind at 1, get_db_connection.
  destruct (db_up w); [ | unfold ret; intros [= <-]; discriminate].
  unfold bind, select_lot_by_id. change (coffee_lots (connected w)) with (coffee_lots w).
  destruct (find _ (coffee_lots w)) as [lot | ] eqn:Hf;
    [ | unfold ret; intros [= <-]; discriminate].
  apply find_some in Hf as [Hin Hid].
  destruct (truthy (PDict lot)); unfold ret; intros [= <-]; [ | discriminate].
  intros _. exists lot. auto.
Qed.

(** The last part of the PUT handler: the table is unchanged, or its rows of
    that id were rewritten with the SET list of the payload; a 200 carries a
    row of that id of the new table; the primary key is kept. *)
Lemma update_coffee_lot_write_effect (i : string) (d : gmap string pyval) (w : world) :
  let r := update_coffee_lot_write i d w in
  (coffee_lots r.2 = coffee_lots w \/
   exists sets',
     store_values (omap (fun col => pair col <$> d !! col) COFFEE_LOT_COLUMNS) = Some sets' /\
     coffee_lots r.2 =
       map (fun lot => if sql_eq_str (dict_get lot "id") i then assign sets' lot else lot)
         (coffee_lots w)) /\
  (forall resp, r.1 = Ok resp -> status resp = 200 ->
     (exists sets',
        store_values (omap (fun col => pair col <$> d !! col) COFFEE_LOT_COLUMNS) = Some sets' /\
        coffee_lots r.2 =
          map (fun lot => if sql_eq_str (dict_get lot "id") i then assign sets' lot else lot)
            (coffee_lots w)) /\
     exists lot, In lot (coffee_lots r.2) /\ sql_eq_str (dict_get lot "id") i = true /\
                 resp = Response (JLot (serialize_coffee_lot lot)) 200) /\
  (primary_key_ok (coffee_lots w) = true -> primary_key_ok (coffee_lots r.2) = true).
Proof.
  intros r. assert (Hr : r = update_coffee_lot_write i d w) by reflexivity. clearbody r.
  unfold update_coffee_lot_write, bind at 1 in Hr.
  pose proof (keeps_lots_register d w) as Hl.
  destruct (register_names d w) as [[[] | e] w2]; cbn [snd] in Hl.
  2: { subst r. cbn [fst snd]. rewrite Hl.
       split; [left; reflexivity | ]. split; [intros resp [=] | auto]. }
  unfold try_except, bind at 1, get_db_connection in Hr.
  destruct (db_up w2) eqn:Hup.
  2: { subst r. unfold ret. cbn [fst snd]. change (coffee_lots (connected w2)) with (coffee_lots w2).
       rewrite Hl. split; [left; reflexivity | ].
       split; [intros resp [= <-]; discriminate | auto]. }
  destruct (omap _ COFFEE_LOT_COLUMNS) as [ | c cs] eqn:Hsets.
  { subst r. unfold ret. cbn [fst snd]. change (coffee_lots (connected w2)) with (coffee_lots w2).
    rewrite Hl. split; [left; reflexivity | ].
    split; [intros resp [= <-]; discriminate | auto]. }
  unfold bind in Hr.
  destruct (update_coffee_lots_effect (c :: cs) i (connected w2))
    as [Hu | (sets' & Hs & Hu & Hpk)]; rewrite Hu in Hr.
  { subst r. unfold ret. cbn [fst snd]. change (coffee_lots (connected w2)) with (coffee_lots w2).
    rewrite Hl. split; [left; reflexivity | ].
    split; [intros resp [= <-]; discriminate | auto]. }
  change (coffee_lots (connected w2)) with (coffee_lots w2) in Hr, Hpk. rewrite Hl in Hr, Hpk.
  destruct (length _ =? 0)%nat eqn:Hcount.
  - apply Nat.eqb_eq in Hcount. subst r. unfold ret. cbn [fst snd set_coffee_lots coffee_lots].
    split; [left; apply map_no_hit; assumption | ].
    split; [intros resp [= <-]; discriminate | exact Hpk].
  - apply Nat.eqb_neq in Hcount.
    set (w3 := set_coffee_lots _ _) in Hr.
    pose proof (keeps_get_lot coffee_lots i keeps_lots_connection w3) as Hk.
    destruct (get_coffee_lot_by_id i w3) as [[a | e] w4] eqn:Hg; cbn [snd] in Hk;
      subst r; unfold ret; cbn [fst snd]; rewrite Hk.
    + split; [right; exists sets'; split; [assumption | reflexivity] | ].
      split; [ | exact Hpk].
      intros resp [= <-] H200.
      split; [exists sets'; split; [assumption | reflexivity] | ].
      apply (get_coffee_lot_by_id_200 i w3 a); [ | assumption].
      rewrite Hg. reflexivity.
    + split; [right; exists sets'; split; [assumption | reflexivity] | ].
      split; [intros resp [= <-]; discriminate | exact Hpk].
Qed.

Lemma store_values_elem (l l' : list (string * pyval)) (c : string) (v : pyval) :
  store_values l = Some l' -> (c, v) ∈ l ->
  exists t v', column_type c = Some t /\ store_value t v = Some v' /\ (c, v') ∈ l'.
Proof.
  revert l'. induction l as [ | [c0 v0] l IH]; intros l' Hs Hin; [inversion Hin | ].
  cbn [store_values] in Hs.
  destruct (column_type c0) as [t | ] eqn:Ht; [ | discriminate].
  destruct (store_value t v0) as [v' | ] eqn:Hv; [ | discriminate].
  destruct (store_values l) as [r | ] eqn:Hr; [ | discriminate].
  injection Hs as <-.
  apply elem_of_cons in Hin as [[= -> ->] | Hin].
  - exists t, v'. repeat split; try assumption. apply list_elem_of_here.
  - destruct (IH r eq_refl Hin) as (t1 & v1 & H1 & H2 & H3).
    exists t1, v1. repeat split; try assumption. apply list_elem_of_further. assumption.
Qed.

Lemma set_clauses_keys (d : gmap string pyval) (cols : list string) :
  (omap (fun col => pair col <$> d !! col) cols).*1
    = List.filter (fun col => bool_decide (is_Some (d !! col))) cols.
Proof.
  induction cols as [ | c cols IH]; [reflexivity | ]. cbn.
  destruct (d !! c) as [v | ]; cbn; [f_equal | ]; exact IH.
Qed.

Lemma set_clauses_nodup (d : gmap string pyval) :
  NoDup (omap (fun col => pair col <$> d !! col) COFFEE_LOT_COLUMNS).*1.
Proof.
  rewrite set_clauses_keys. apply NoDup_ListNoDup, List.NoDup_filter, NoDup_ListNoDup.
  apply columns_nodup.
Qed.

Lemma set_clauses_absent (d : gmap string pyval) (c : string) :
  d !! c = None -> c ∉ (omap (fun col => pair col <$> d !! col) COFFEE_LOT_COLUMNS).*1.
Proof.
  intros H Hin. rewrite set_clauses_keys in Hin. apply list_elem_of_In, filter_In in Hin as [_ Hc].
  rewrite H in Hc. apply bool_decide_eq_true in Hc. destruct Hc as [x Hx]. discriminate.
Qed.

Lemma column_type_listed (c : string) (t : sqltype) :
  column_type c = Some t -> c ∈ COFFEE_LOT_COLUMNS.
Proof.
  unfold column_type. intros H. apply elem_of_list_to_map_2 in H.
  change COFFEE_LOT_COLUMNS with (coffee_lots_table.*1).
  apply list_elem_of_fmap. exists (c, t). split; [reflexivity | assumption].
Qed.

(** The value that the SET list of the payload [d] gives to a column. *)
Lemma assigned_value (d : gmap string pyval) (sets' : list (string * pyval))
    (lot : gmap string pyval) (c : string) (t : sqltype) (v v' : pyval) :
  store_values (omap (fun col => pair col <$> d !! col) COFFEE_LOT_COLUMNS) = Some sets' ->
  d !! c = Some v -> column_type c = Some t -> store_value t v = Some v' ->
  assign sets' lot !! c = Some v'.
Proof.
  intros Hs Hd Ht Hv.
  destruct (store_values_elem _ _ c v Hs) as (t0 & x0 & Ht0 & Hv0 & Hx0).
  { apply list_elem_of_omap. exists c. rewrite Hd. split; [ | reflexivity].
    apply (column_type_listed c t Ht). }
  assert (t0 = t) by congruence. subst t0.
  assert (x0 = v') by congruence. subst x0.
  apply assign_set; [ | assumption].
  rewrite (store_values_fst _ _ Hs). apply set_clauses_nodup.
Qed.

Lemma map_rewritten {A} (P : A -> A -> Prop) (g : A -> A) (l : list A) :
  (forall x, P x (g x)) -> Forall2 P l (map g l).
Proof. intros H. induction l as [ | x l IH]; constructor; auto. Qed.

Lemma parse_data_entrada_absent (data d : gmap string pyval) (w w' : world) (c : string) :
  parse_data_entrada data w = (Ok (inr d), w') -> data !! c = None -> d !! c = None.
Proof.
  intros Hp Hc. destruct (parse_data_entrada_cases _ _ _ _ Hp) as [_ [-> | (s & x & Hs & _ & ->)]];
    [assumption | ].
  rewrite lookup_insert_ne; [assumption | ]. intros <-. congruence.
Qed.

(** X10.  The partial update.  Whatever a PUT answers, every row of another
    id is as it was, in its place, and in every row the columns that the
    payload does not name are as they were.  When the PUT answers 200, its
    body is the row of that id as the store now holds it (date serialised),
    and that row carries, in each column that the payload names (the date
    apart, which is parsed first), the payload's value as the column takes
    it. *)
Theorem update_coffee_lot_frame (i : string) (data : gmap string pyval) (w : world) :
  let r := update_coffee_lot i data w in
  Forall2 (fun old new =>
             (sql_eq_str (dict_get old "id") i = false -> new = old) /\
             (forall c, data !! c = None -> new !! c = old !! c))
          (coffee_lots w) (coffee_lots r.2) /\
  (forall resp, r.1 = Ok resp -> status resp = 200 ->
     exists new,
       In new (coffee_lots r.2) /\ sql_eq_str (dict_get new "id") i = true /\
       resp = Response (JLot (serialize_coffee_lot new)) 200 /\
       (forall c t v v', c <> "data_entrada" -> data !! c = Some v ->
                         column_type c = Some t -> store_value t v = Some v' ->
                         new !! c = Some v')).
Proof.
  intros r. assert (Hr : r = update_coffee_lot i data w) by reflexivity. clearbody r.
  unfold update_coffee_lot in Hr.
  assert (Hsame : forall l : list (gmap string pyval),
             Forall2 (fun old new =>
                        (sql_eq_str (dict_get old "id") i = false -> new = old) /\
                        (forall c, data !! c = None -> new !! c = old !! c)) l l).
  { intros l. induction l; constructor; auto. }
  destruct (handler_prefix data (Some i) (update_coffee_lot_write i) w)
    as [(Hl & _ & _ & _ & Hs) | (d & w1 & v & _ & _ & Hparse & Hl & _ & _ & _ & _ & _ & Heq)].
  { rewrite <- Hr in Hl, Hs. rewrite Hl. split; [apply Hsame | ].
    intros resp H H200. rewrite (Hs resp H) in H200. discriminate. }
  rewrite <- Hr in Heq.
  destruct (update_coffee_lot_write_effect i d w1) as (Hrows & H200 & _).
  rewrite <- Heq in Hrows, H200. rewrite Hl in Hrows.
  assert (Hrewrite : forall sets' (old : gmap string pyval),
             store_values (omap (fun col => pair col <$> d !! col) COFFEE_LOT_COLUMNS) = Some sets' ->
             forall c, data !! c = None -> assign sets' old !! c = old !! c).
  { intros sets' old Hs c Hc. apply assign_other.
    rewrite (store_values_fst _ _ Hs). apply set_clauses_absent.
    apply (parse_data_entrada_absent data d w1 w1 c Hparse Hc). }
  split.
  - destruct Hrows as [-> | (sets' & Hs & ->)]; [apply Hsame | ].
    apply map_rewritten. intros old.
    destruct (sql_eq_str (dict_get old "id") i); split; try discriminate; try reflexivity.
    apply (Hrewrite sets' old Hs).
  - intros resp Hresp Hstatus.
    destruct (H200 resp Hresp Hstatus) as ((sets' & Hs & Hrows') & new & Hin & Hid & ->).
    rewrite Hl in Hrows'.
    exists new. repeat split; try assumption.
    intros c t x x' Hnd Hx Ht Hv.
    assert (Hdx : d !! c = Some x).
    { destruct (parse_data_entrada_keeps data d w1 w1 c Hnd Hparse) as [-> _]. assumption. }
    rewrite Hrows' in Hin. apply in_map_iff in Hin as (old & Hnew & Hold).
    destruct (sql_eq_str (dict_get old "id") i) eqn:Hhit; subst new; [ | congruence].
    apply (assigned_value d sets' old c t x x' Hs Hdx Ht Hv).
Qed.

(** ** Bay exclusivity *)

Lemma lot_ids_filter (f : gmap string pyval -> bool) (l : list (gmap string pyval)) (i : string) :
  i ∈ lot_ids (List.filter f l) -> i ∈ lot_ids l.
Proof.
  rewrite !lot_ids_elem. intros (lot & Hin & H). apply filter_In in Hin as [Hin _]. eauto.
Qed.

Lemma primary_key_filter (f : gmap string pyval -> bool) (l : list (gmap string pyval)) :
  primary_key_ok l = true -> primary_key_ok (List.filter f l) = true.
Proof.
  unfold primary_key_ok. rewrite !andb_true_iff, !bool_decide_eq_true, !forallb_forall.
  intros [Hall Hnd]. split.
  - intros x Hx. apply filter_In in Hx as [Hx _]. apply Hall. assumption.
  - clear Hall. induction l as [ | x l IH]; [assumption | ].
    rewrite lot_ids_cons in Hnd. cbn [List.filter].
    assert (Hl : NoDup (lot_ids l)).
    { destruct (lot_id x); [apply NoDup_cons in Hnd as [_ ?] | ]; assumption. }
    destruct (f x); [ | apply IH; assumption].
    rewrite lot_ids_cons. destruct (lot_id x) as [i | ]; [ | apply IH; assumption].
    apply NoDup_cons in Hnd as [Hi _]. apply NoDup_cons. split; [ | apply IH; assumption].
    intros Hin. apply Hi. apply (lot_ids_filter f l i Hin).
Qed.

(** Under the primary key an id selects at most one row. *)
Lemma primary_key_one_hit (l : list (gmap string pyval)) (i : string) :
  primary_key_ok l = true ->
  (length (List.filter (fun lot => sql_eq_str (dict_get lot "id") i) l) <= 1)%nat.
Proof.
  unfold primary_key_ok. rewrite andb_true_iff, bool_decide_eq_true. intros [_ Hnd].
  induction l as [ | x l IH]; [cbn; lia | ].
  rewrite lot_ids_cons in Hnd. cbn [List.filter].
  destruct (sql_eq_str (dict_get x "id") i) eqn:E.
  - apply lot_id_sql_eq in E. rewrite E in Hnd. apply NoDup_cons in Hnd as [Hi _].
    assert (H0 : length (List.filter (fun lot => sql_eq_str (dict_get lot "id") i) l) = 0%nat).
    { apply filter_length_zero. intros y Hy. apply not_true_is_false. intros Ey.
      apply Hi, lot_ids_elem. eauto. }
    cbn [length]. rewrite H0. lia.
  - apply IH. destruct (lot_id x); [apply NoDup_cons in Hnd as [_ ?] | ]; assumption.
Qed.

Lemma filter_map_length {A} (p q : A -> bool) (g : A -> A) (l : list A) :
  (forall x, In x l -> p (g x) = true -> q x = true) ->
  (length (List.filter p (map g l)) <= length (List.filter q l))%nat.
Proof.
  intros H. induction l as [ | x l IH]; [cbn; lia | ].
  assert (IH' := IH (fun y Hy => H y (or_intror Hy))). clear IH.
  cbn [map List.filter]. pose proof (H x (or_introl eq_refl)) as Hx.
  destruct (p (g x)).
  - rewrite (Hx eq_refl). cbn [length]. lia.
  - destruct (q x); cbn [length]; lia.
Qed.

Lemma holds_bay_value (b c : Z) (lot : gmap string pyval) :
  lot !! "boca_entrada" = Some (PInt c) -> holds_bay b lot = true -> b = c.
Proof.
  unfold holds_bay, dict_get. intros ->.
  change (default PNone (Some (PInt c))) with (PInt c). unfold sql_eq_number.
  rewrite andb_true_iff, Z.eqb_eq. intros [_ ?]. congruence.
Qed.

Lemma occupies_holds (b : Z) (lot : gmap string pyval) :
  occupies (PInt b) None lot = holds_bay b lot.
Proof. unfold occupies, holds_bay. apply andb_true_r. Qed.

(** What a passed validation says of a bay number that is not a [float]. *)
Lemma validate_passed (v : pyval) (current_lot_id : option string) (w w1 : world)
    (r : validation) :
  (forall q, v <> PFloat q) ->
  validate_boca_entrada v current_lot_id w = (Ok r, w1) -> isValid r = true ->
  exists b, v = PInt b /\ 1 <= b <= 8 /\
            existsb (occupies (PInt b) current_lot_id) (coffee_lots w) = false.
Proof.
  intros Hq Hv Hr. destruct v as [ | c | b | q | s | d | l | m ].
  - exfalso. unfold validate_boca_entrada in Hv. cbn in Hv. injection Hv as <- _. discriminate.
  - exfalso. unfold validate_boca_entrada, bind, lift, ret, try_except, get_db_connection in Hv.
    destruct c; cbn in Hv.
    + destruct (db_up w); cbn in Hv; injection Hv as <- _; discriminate.
    + injection Hv as <- _. discriminate.
  - exists b. split; [reflexivity | ].
    destruct (1 <=? b) eqn:H1; [destruct (b <=? 8) eqn:H8 | ].
    + apply Z.leb_le in H1, H8. split; [lia | ]. destruct (db_up w) eqn:Hup.
      * rewrite (validate_int_in_range b current_lot_id w (conj H1 H8) Hup) in Hv.
        injection Hv as <- _. destruct (existsb _ _); [discriminate | reflexivity].
      * rewrite (validate_unreachable b current_lot_id w (conj H1 H8) Hup) in Hv.
        injection Hv as <- _. discriminate.
    + exfalso. unfold validate_boca_entrada, bind, lift, ret, chained_le in Hv.
      cbn [int_le_py py_le_int] in Hv. rewrite H1, H8 in Hv. cbn in Hv.
      injection Hv as <- _. discriminate.
    + exfalso. unfold validate_boca_entrada, bind, lift, ret, chained_le in Hv.
      cbn [int_le_py py_le_int] in Hv. rewrite H1 in Hv. cbn in Hv.
      injection Hv as <- _. discriminate.
  - exfalso. apply (Hq q). reflexivity.
  - exfalso. unfold validate_boca_entrada in Hv. cbn in Hv. discriminate.
  - exfalso. unfold validate_boca_entrada in Hv. cbn in Hv. discriminate.
  - exfalso. unfold validate_boca_entrada in Hv. cbn in Hv. discriminate.
  - exfalso. unfold validate_boca_entrada in Hv. cbn in Hv. discriminate.
Qed.

Lemma bay_invariant_table (w w' : world) :
  coffee_lots w' = coffee_lots w -> bay_invariant w -> bay_invariant w'.
Proof. unfold bay_invariant, lots_keyed, bays_exclusive. intros ->. auto. Qed.

Lemma payload_bay (data : gmap string pyval) (b : Z) :
  dict_get data "boca_entrada" = PInt b -> data !! "boca_entrada" = Some (PInt b).
Proof. unfold dict_get. destruct (data !! "boca_entrada"); cbn; [congruence | discriminate]. Qed.

Lemma store_bay (b : Z) : 1 <= b <= 8 -> store_value INTEGER (PInt b) = Some (PInt b).
Proof.
  intros H. cbn [store_value].
  destruct (Z.leb_spec (-2147483648) b); [ | lia]. destruct (Z.leb_spec b 2147483647); [ | lia].
  reflexivity.
Qed.

Lemma bay_column : column_type "boca_entrada" = Some INTEGER.
Proof. reflexivity. Qed.

Lemma free_bay (b : Z) (lots : list (gmap string pyval)) :
  existsb (occupies (PInt b) None) lots = false ->
  length (List.filter (holds_bay b) lots) = 0%nat.
Proof.
  intros H. apply filter_length_zero. intros x Hx. rewrite <- occupies_holds.
  apply not_true_is_false. intros E. apply not_true_iff_false in H. apply H.
  apply existsb_exists. eauto.
Qed.

(** A row that the validation for an update of [i] lets hold the bay is a
    row of id [i]. *)
Lemma free_bay_but (b : Z) (i : string) (lots : list (gmap string pyval))
    (x : gmap string pyval) :
  primary_key_ok lots = true ->
  existsb (occupies (PInt b) (Some i)) lots = false ->
  In x lots -> holds_bay b x = true -> sql_eq_str (dict_get x "id") i = true.
Proof.
  intros Hk H Hx Hb. apply not_false_iff_true. intros Hhit.
  apply not_true_iff_false in H. apply H. apply existsb_exists. exists x. split; [assumption | ].
  unfold occupies. fold (holds_bay b x). rewrite Hb. cbn [andb].
  destruct (String.eqb i ""); [reflexivity | ].
  unfold primary_key_ok in Hk. apply andb_true_iff in Hk as [Hall _].
  rewrite forallb_forall in Hall. specialize (Hall x Hx). apply bool_decide_eq_true in Hall.
  destruct Hall as [j Hj]. unfold lot_id in Hj. unfold sql_eq_str in Hhit.
  destruct (dict_get x "id"); try discriminate. rewrite Hhit. reflexivity.
Qed.

Lemma add_coffee_lot_bays (data : gmap string pyval) :
  integral_bay data -> preserves bay_invariant (add_coffee_lot data).
Proof.
  intros Hint w Hinv.
  set (r := add_coffee_lot data w). assert (Hr : r = add_coffee_lot data w) by reflexivity.
  clearbody r. unfold add_coffee_lot in Hr.
  destruct (handler_prefix data None add_coffee_lot_insert w)
    as [(Hl & _) | (d & w1 & v & Hval & Hvalid & Hparse & Hl & _ & _ & _ & _ & _ & Heq)].
  { rewrite <- Hr in Hl. apply (bay_invariant_table w _ Hl Hinv). }
  rewrite <- Hr in Heq. clear Hr.
  destruct (validate_passed _ _ _ _ _ Hint Hval Hvalid) as (b & Hb & Hrange & Hfree).
  pose proof (add_coffee_lot_insert_effect d w1) as He. cbv zeta in He.
  destruct (add_coffee_lot_insert d w1) as [res w'] eqn:Hins. subst r. cbn [fst snd] in *.
  destruct He as [[Hsame _] | (row0 & resp & -> & H201 & _ & _)].
  { apply (bay_invariant_table w); [congruence | assumption]. }
  destruct (add_coffee_lot_insert_created d w1 w' resp Hins H201) as (_ & _ & row & Hrow & Hlots & Hpk).
  destruct (inserted_row _ _ Hrow) as [_ Hcols].
  destruct (Hcols "boca_entrada") as (t & v' & Ht & Hv & Hlk).
  { apply list_elem_of_In. cbn. do 6 right. left. reflexivity. }
  rewrite bay_column in Ht. injection Ht as <-.
  unfold dict_get in Hv. rewrite created_lot_other in Hv by discriminate.
  destruct (parse_data_entrada_keeps data d w1 w1 "boca_entrada" ltac:(discriminate) Hparse)
    as [Hd _].
  rewrite Hd, (payload_bay data b Hb) in Hv.
  change (default PNone (Some (PInt b))) with (PInt b) in Hv.
  rewrite (store_bay b Hrange) in Hv. injection Hv as <-.
  split; [exact Hpk | ].
  intros b'. rewrite Hlots, Hl, List.filter_app, List.length_app. cbn [List.filter].
  destruct Hinv as [_ Hex].
  destruct (holds_bay b' (list_to_map row)) eqn:Hh.
  - apply (holds_bay_value b' b _ Hlk) in Hh. subst b'.
    rewrite (free_bay b _ Hfree). cbn. lia.
  - specialize (Hex b'). cbn [length]. lia.
Qed.

Lemma update_coffee_lot_bays (i : string) (data : gmap string pyval) :
  integral_bay data -> preserves bay_invariant (update_coffee_lot i data).
Proof.
  intros Hint w Hinv.
  set (r := update_coffee_lot i data w). assert (Hr : r = update_coffee_lot i data w) by reflexivity.
  clearbody r. unfold update_coffee_lot in Hr.
  destruct (handler_prefix data (Some i) (update_coffee_lot_write i) w)
    as [(Hl & _) | (d & w1 & v & Hval & Hvalid & Hparse & Hl & _ & _ & _ & _ & _ & Heq)].
  { rewrite <- Hr in Hl. apply (bay_invariant_table w _ Hl Hinv). }
  rewrite <- Hr in Heq. clear Hr.
  destruct (validate_passed _ _ _ _ _ Hint Hval Hvalid) as (b & Hb & Hrange & Hfree).
  destruct (update_coffee_lot_write_effect i d w1) as (Hrows & _ & Hpk).
  rewrite <- Heq in Hrows, Hpk. rewrite Hl in Hrows, Hpk.
  destruct Hinv as [Hk Hex]. specialize (Hpk Hk).
  destruct Hrows as [Hsame | (sets' & Hs & Hrows)].
  { apply (bay_invariant_table w); [assumption | split; assumption]. }
  split; [exact Hpk | ].
  assert (Hd : d !! "boca_entrada" = Some (PInt b)).
  { destruct (parse_data_entrada_keeps data d w1 w1 "boca_entrada" ltac:(discriminate) Hparse)
      as [-> _]. apply payload_bay. assumption. }
  intros b'. rewrite Hrows. destruct (Z.eq_dec b' b) as [-> | Hne].
  - etransitivity; [ | apply (primary_key_one_hit (coffee_lots w) i Hk)].
    apply filter_map_length. intros x Hx Hh.
    destruct (sql_eq_str (dict_get x "id") i) eqn:Hhit; [reflexivity | ].
    rewrite <- Hhit. apply (free_bay_but b i (coffee_lots w) x Hk Hfree Hx Hh).
  - etransitivity; [ | apply (Hex b')].
    apply filter_map_length. intros x Hx Hh.
    destruct (sql_eq_str (dict_get x "id") i); [ | assumption].
    exfalso. apply Hne. apply (holds_bay_value b' b (assign sets' x)); [ | assumption].
    apply (assigned_value d sets' x "boca_entrada" INTEGER (PInt b) (PInt b) Hs Hd bay_column).
    apply store_bay. assumption.
Qed.

Lemma delete_coffee_lot_bays (i : string) : preserves bay_invariant (delete_coffee_lot i).
Proof.
  intros w [Hk Hex]. destruct (db_up w) eqn:Hup.
  - rewrite (delete_coffee_lot_run i w Hup). cbn [snd]. split.
    + apply primary_key_filter. assumption.
    + intros b. etransitivity; [apply filter_filter_length | apply (Hex b)].
  - unfold delete_coffee_lot, try_except, bind, get_db_connection. rewrite Hup.
    split; assumption.
Qed.

(** X11.  Bay exclusivity is an invariant of the three handlers that write
    [coffee_lots]: if the primary key holds and no two active lots share a bay
    before a POST, a PUT or a DELETE, the same is true after it, whatever the
    request answers, as long as the payload's bay number is not a fraction
    (the validator has no integrality test; a fractional bay is outside the
    typed writes of the store model). *)
Theorem bay_exclusivity_kept :
  (forall data, integral_bay data -> preserves bay_invariant (add_coffee_lot data)) /\
  (forall i data, integral_bay data -> preserves bay_invariant (update_coffee_lot i data)) /\
  (forall i, preserves bay_invariant (delete_coffee_lot i)).
Proof.
  split; [exact add_coffee_lot_bays | ]. split; [exact update_coffee_lot_bays | ].
  exact delete_coffee_lot_bays.
Qed.

Lemma bay_exclusivity_kept_witness :
  integral_bay lot_2024 /\ bay_invariant occupied_world /\
  bay_invariant (add_coffee_lot lot_2024 occupied_world).2 /\
  bay_invariant (update_coffee_lot "L1" lot_2024 occupied_world).2 /\
  bay_invariant (delete_coffee_lot "L1" occupied_world).2.
Proof.
  assert (Hi : integral_bay lot_2024).
  { intros q. vm_compute. discriminate. }
  assert (Hw : bay_invariant occupied_world).
  { split; [vm_compute; reflexivity | ].
    intros b. change (coffee_lots occupied_world) with [lot_L1]. cbn [List.filter].
    destruct (holds_bay b lot_L1); cbn [length]; lia. }
  destruct bay_exclusivity_kept as (Hpost & Hput & Hdel).
  split; [exact Hi | ]. split; [exact Hw | ].
  split; [exact (Hpost lot_2024 Hi occupied_world Hw) | ].
  split; [exact (Hput "L1" lot_2024 Hi occupied_world Hw) | ].
  exact (Hdel "L1" occupied_world Hw).
Defined.

(** ** Dates that do not parse *)

Lemma parse_data_entrada_invalid (data : gmap string pyval) (s : string) (w : world) :
  data !! "data_entrada" = Some (PStr s) -> s <> "" -> fromisoformat s = None ->
  parse_data_entrada data w = (Ok (inl invalid_date), w).
Proof.
  intros Hd Hs Hf. unfold parse_data_entrada. rewrite Hd. cbn [truthy py_fromisoformat].
  apply String.eqb_neq in Hs. rewrite Hs, Hf. reflexivity.
Qed.

Lemma parse_data_entrada_type_error (data : gmap string pyval) (v : pyval) (w : world) :
  data !! "data_entrada" = Some v -> truthy v = true -> (forall s, v <> PStr s) ->
  parse_data_entrada data w = (Raise TypeError, w).
Proof.
  intros Hd Ht Hs. unfold parse_data_entrada. rewrite Hd, Ht.
  destruct v; try reflexivity. exfalso. apply (Hs s). reflexivity.
Qed.

Lemma rejected_date_text_none (s : string) :
  rejected_date_text s -> fromisoformat s = None.
Proof.
  intros [(_ & _ & _ & Hlen) | [_ H]]; [ | exact H].
  destruct (fromisoformat s) as [d | ] eqn:E; [ | reflexivity].
  exfalso. apply Hlen. unfold fromisoformat in E.
  repeat (destruct s as [ | ? s]; try discriminate). reflexivity.
Qed.

(** The two lot handlers when the parsing of the date stops them. *)
Lemma handler_stopped (data : gmap string pyval) (current_lot_id : option string)
    (rest : gmap string pyval -> M response) (stop : result response) (w : world) :
  (forall w0, (let* parsed := parse_data_entrada data in
               match parsed with
               | inl bad_date => ret bad_date
               | inr d => rest d
               end) w0 = (stop, w0)) ->
  let r := (let* validation_result :=
              validate_boca_entrada (dict_get data "boca_entrada") current_lot_id in
            if negb (isValid validation_result) then
              ret (Response (JMessage (validation_message validation_result)) 400)
            else
              let* parsed := parse_data_entrada data in
              match parsed with
              | inl bad_date => ret bad_date
              | inr d => rest d
              end) w in
  (coffee_lots r.2 = coffee_lots w /\ producers r.2 = producers w /\ drivers r.2 = drivers w /\
   uuid_next r.2 = uuid_next w) /\
  (forall v w1,
     validate_boca_entrada (dict_get data "boca_entrada") current_lot_id w = (Ok v, w1) ->
     isValid v = true -> r = (stop, w1)) /\
  (forall resp, r.1 = Ok resp -> status resp = 400 \/ stop = Ok resp).
Proof.
  intros Hstop r.
  assert (Hr : r = (let* validation_result :=
              validate_boca_entrada (dict_get data "boca_entrada") current_lot_id in
            if negb (isValid validation_result) then
              ret (Response (JMessage (validation_message validation_result)) 400)
            else
              let* parsed := parse_data_entrada data in
              match parsed with
              | inl bad_date => ret bad_date
              | inr d => rest d
              end) w) by reflexivity.
  clearbody r. unfold bind at 1 in Hr.
  pose proof (keeps_validate coffee_lots (dict_get data "boca_entrada") current_lot_id
                keeps_lots_connection w) as Hl.
  pose proof (keeps_validate producers (dict_get data "boca_entrada") current_lot_id
                keeps_producers_connection w) as Hp.
  pose proof (keeps_validate drivers (dict_get data "boca_entrada") current_lot_id
                keeps_drivers_connection w) as Hd.
  pose proof (keeps_validate uuid_next (dict_get data "boca_entrada") current_lot_id
                keeps_next_connection w) as Hn.
  destruct (validate_boca_entrada _ _ w) as [[v | e] w1]; cbn [snd] in Hl, Hp, Hd, Hn.
  - destruct (isValid v) eqn:Hv; cbn [negb] in Hr.
    + rewrite Hstop in Hr. subst r. cbn [fst snd]. split; [auto | ]. split.
      * intros v0 w0 [= <- <-] _. reflexivity.
      * intros resp H. right. exact H.
    + subst r. unfold ret. cbn [fst snd]. split; [auto | ]. split.
      * intros v0 w0 [= <- <-] H. congruence.
      * intros resp [= <-]. left. reflexivity.
  - subst r. cbn [fst snd]. split; [auto | ]. split; [intros v0 w0 [=] | intros resp [=]].
Qed.

(** X12.  A date that does not parse is refused before anything is written.
    When the payload's [data_entrada] is a non-empty text that no version of
    [date.fromisoformat] reads (an ASCII text whose length is none of 7, 8
    and 10, or a text of the form YYYY-MM-DD that is no date of the
    calendar), a POST and a PUT leave the three tables as they were and draw
    no id, every answer they give is a 400, and when the bay validation
    passes the answer is the message on the date format. *)
Theorem invalid_date_rejected (data : gmap string pyval) (s : string) (w : world)
    (current_lot_id : option string) (r : result response * world) :
  data !! "data_entrada" = Some (PStr s) -> s <> "" -> rejected_date_text s ->
  (current_lot_id = None /\ r = add_coffee_lot data w) \/
  (exists i, current_lot_id = Some i /\ r = update_coffee_lot i data w) ->
  (coffee_lots r.2 = coffee_lots w /\ producers r.2 = producers w /\ drivers r.2 = drivers w /\
   uuid_next r.2 = uuid_next w) /\
  (forall resp, r.1 = Ok resp -> status resp = 400) /\
  (forall v w1,
     validate_boca_entrada (dict_get data "boca_entrada") current_lot_id w = (Ok v, w1) ->
     isValid v = true -> r = (Ok invalid_date, w1)).
Proof.
  intros Hd Hs Hrej Hr. pose proof (rejected_date_text_none s Hrej) as Hf.
  assert (H : forall rest,
             let r0 := (let* validation_result :=
                          validate_boca_entrada (dict_get data "boca_entrada") current_lot_id in
                        if negb (isValid validation_result) then
                          ret (Response (JMessage (validation_message validation_result)) 400)
                        else
                          let* parsed := parse_data_entrada data in
                          match parsed with
                          | inl bad_date => ret bad_date
                          | inr d => rest d
                          end) w in
             (coffee_lots r0.2 = coffee_lots w /\ producers r0.2 = producers w /\
              drivers r0.2 = drivers w /\ uuid_next r0.2 = uuid_next w) /\
             (forall resp, r0.1 = Ok resp -> status resp = 400) /\
             (forall v w1,
                validate_boca_entrada (dict_get data "boca_entrada") current_lot_id w = (Ok v, w1) ->
                isValid v = true -> r0 = (Ok invalid_date, w1))).
  { intros rest r0.
    destruct (handler_stopped data current_lot_id rest (Ok invalid_date) w) as (Ht & Hv & Hresp).
    { intros w0. unfold bind. rewrite (parse_data_entrada_invalid data s w0 Hd Hs Hf). reflexivity. }
    split; [exact Ht | ]. split; [ | exact Hv].
    intros resp Hok. destruct (Hresp resp Hok) as [H400 | [= <-]]; [exact H400 | reflexivity]. }
  destruct Hr as [[-> ->] | (i & -> & ->)].
  - exact (H add_coffee_lot_insert).
  - exact (H (update_coffee_lot_write i)).
Qed.

Lemma invalid_date_rejected_witness :
  add_coffee_lot lot_feb30 empty_world = (Ok invalid_date, connected empty_world).
Proof.
  refine (proj2 (proj2 (invalid_date_rejected lot_feb30 "2023-02-30" empty_world None _
                          _ _ _ (or_introl (conj eq_refl eq_refl))))
            (Validation true (Text "")) (connected empty_world) _ eq_refl).
  - reflexivity.
  - discriminate.
  - right. split; reflexivity.
  - reflexivity.
Defined.

(** A text of another length, here a date and a time, is refused as well. *)
Example date_time_rejected :
  rejected_date_text "2024-03-15T10:00" /\
  (add_coffee_lot (<["data_entrada" := PStr "2024-03-15T10:00"]> {[ "boca_entrada" := PInt 1 ]})
     empty_world).1 = Ok invalid_date.
Proof. split; [left; repeat split; discriminate | reflexivity]. Qed.

(** X13.  A date of another type is not caught.  When the payload's
    [data_entrada] is truthy and not a string, and the bay validation passes,
    a POST and a PUT end in the [TypeError] of [date.fromisoformat], which
    their [except ValueError] lets through; nothing is written. *)
Theorem date_type_error_escapes (data : gmap string pyval) (v : pyval) (w : world)
    (current_lot_id : option string) (r : result response * world) :
  data !! "data_entrada" = Some v -> truthy v = true -> (forall s, v <> PStr s) ->
  (current_lot_id = None /\ r = add_coffee_lot data w) \/
  (exists i, current_lot_id = Some i /\ r = update_coffee_lot i data w) ->
  (coffee_lots r.2 = coffee_lots w /\ producers r.2 = producers w /\ drivers r.2 = drivers w /\
   uuid_next r.2 = uuid_next w) /\
  (forall val w1,
     validate_boca_entrada (dict_get data "boca_entrada") current_lot_id w = (Ok val, w1) ->
     isValid val = true -> r = (Raise TypeError, w1)).
Proof.
  intros Hd Ht Hs Hr.
  assert (H : forall rest,
             let r0 := (let* validation_result :=
                          validate_boca_entrada (dict_get data "boca_entrada") current_lot_id in
                        if negb (isValid validation_result) then
                          ret (Response (JMessage (validation_message validation_result)) 400)
                        else
                          let* parsed := parse_data_entrada data in
                          match parsed with
                          | inl bad_date => ret bad_date
                          | inr d => rest d
                          end) w in
             (coffee_lots r0.2 = coffee_lots w /\ producers r0.2 = producers w /\
              drivers r0.2 = drivers w /\ uuid_next r0.2 = uuid_next w) /\
             (forall val w1,
                validate_boca_entrada (dict_get data "boca_entrada") current_lot_id w
                  = (Ok val, w1) ->
                isValid val = true -> r0 = (Raise TypeError, w1))).
  { intros rest r0.
    destruct (handler_stopped data current_lot_id rest (Raise TypeError) w) as (Htab & Hv & _).
    { intros w0. unfold bind. rewrite (parse_data_entrada_type_error data v w0 Hd Ht Hs).
      reflexivity. }
    split; [exact Htab | exact Hv]. }
  destruct Hr as [[-> ->] | (i & -> & ->)].
  - exact (H add_coffee_lot_insert).
  - exact (H (update_coffee_lot_write i)).
Qed.

Lemma date_type_error_escapes_witness :
  update_coffee_lot "L1" lot_numeric_date occupied_world
    = (Raise TypeError, connected occupied_world).
Proof.
  refine (proj2 (date_type_error_escapes lot_numeric_date (PInt 20240315) occupied_world
                   (Some "L1") _ _ _ _ (or_intror (ex_intro _ "L1" (conj eq_refl eq_refl))))
            (Validation true (Text "")) (connected occupied_world) _ eq_refl).
  - reflexivity.
  - reflexivity.
  - discriminate.
  - reflexivity.
Defined.

(** ** The import is all or nothing *)

Lemma import_loop_grows (items : list pyval) :
  forall a u w, exists news, producers (import_loop items a u w).2 = producers w ++ news.
Proof.
  induction items as [ | item items IH]; intros a u w; cbn [import_loop].
  { exists []. rewrite app_nil_r. reflexivity. }
  destruct item; try apply IH.
  destruct (m !! "name") as [n | ]; [ | apply IH].
  unfold bind at 1, lift at 1.
  destruct (py_strip n) as [name | e]; [ | exists []; rewrite app_nil_r; reflexivity].
  unfold bind at 1, lift at 1.
  destruct (py_strip _) as [property | e]; [ | exists []; rewrite app_nil_r; reflexivity].
  destruct (negb _); [ | apply IH].
  unfold bind at 1.
  destruct (insert_producer_grows true name property w) as (n1 & H1 & _).
  destruct (insert_producer true name property w) as [[[id | ] | e] w1]; cbn [snd] in H1.
  - destruct (IH (S a) u w1) as (n2 & H2). exists (n1 ++ n2). rewrite H2, H1, app_assoc.
    reflexivity.
  - destruct (IH a (S u) w1) as (n2 & H2). exists (n1 ++ n2). rewrite H2, H1, app_assoc.
    reflexivity.
  - exists n1. exact H1.
Qed.

(** X14.  The import never raises and is all or nothing.  Whatever the body
    and the store, [import_producer_names] answers 200, 400 or 500; on a 200
    the producers of before are still there, in their order, followed by the
    new ones; on a 400 or a 500 the table of producers is as it was, also
    when rows had been inserted before the failing entry; lots and drivers
    are never touched. *)
Theorem import_all_or_nothing (body : pyval) (w : world) :
  let r := import_producer_names body w in
  coffee_lots r.2 = coffee_lots w /\ drivers r.2 = drivers w /\
  exists resp,
    r.1 = Ok resp /\
    ((status resp = 200 /\ exists news, producers r.2 = producers w ++ news) \/
     ((status resp = 400 \/ status resp = 500) /\ producers r.2 = producers w)).
Proof.
  intros r. split; [apply import_keeps_lots | ]. split; [apply import_keeps_drivers | ].
  assert (Hr : r = import_producer_names body w) by reflexivity. clearbody r.
  unfold import_producer_names in Hr.
  destruct body as [ | | | | | | items | ];
    try (subst r; eexists; split; [reflexivity | right; split; [left; reflexivity | reflexivity]]).
  unfold try_except, rolled_back, bind at 1, get_db_connection in Hr.
  destruct (db_up w).
  - unfold bind in Hr.
    destruct (import_loop_grows items 0 0 (connected w)) as (news & Hnews).
    change (producers (connected w)) with (producers w) in Hnews.
    destruct (import_loop items 0 0 (connected w)) as [[c | e] w1]; cbn [snd] in Hnews;
      subst r; unfold ret; cbn [fst snd]; eexists; (split; [reflexivity | ]).
    + left. split; [reflexivity | ]. exists news. exact Hnews.
    + right. split; [right; reflexivity | reflexivity].
  - subst r. unfold ret. cbn [fst snd]. eexists. split; [reflexivity | ].
    right. split; [right; reflexivity | reflexivity].
Qed.

(** ** Serialisation and the listing *)

(** X15.  [serialize_coffee_lot] touches the entry date only: a date becomes
    its ISO text, so the result never holds a date object; every other field
    and the set of keys are those of the row; a row without a date object
    comes back as it is, and serialising twice is serialising once. *)
Theorem serialize_coffee_lot_shape (lot : gmap string pyval) :
  (forall d, lot !! "data_entrada" = Some (PDate d) ->
             serialize_coffee_lot lot = <["data_entrada" := PStr (isoformat d)]> lot) /\
  ((forall d, lot !! "data_entrada" <> Some (PDate d)) -> serialize_coffee_lot lot = lot) /\
  (forall d, serialize_coffee_lot lot !! "data_entrada" <> Some (PDate d)) /\
  (forall k, k <> "data_entrada" -> serialize_coffee_lot lot !! k = lot !! k) /\
  dom (serialize_coffee_lot lot) = dom lot /\
  serialize_coffee_lot (serialize_coffee_lot lot) = serialize_coffee_lot lot.
Proof.
  assert (H1 : forall d, lot !! "data_entrada" = Some (PDate d) ->
                 serialize_coffee_lot lot = <["data_entrada" := PStr (isoformat d)]> lot).
  { intros d H. unfold serialize_coffee_lot, dict_get. rewrite H. reflexivity. }
  assert (H2 : forall l : gmap string pyval,
             (forall d, l !! "data_entrada" <> Some (PDate d)) -> serialize_coffee_lot l = l).
  { intros l H. unfold serialize_coffee_lot, dict_get.
    destruct (l !! "data_entrada") as [[ | | | | | d | | ] | ] eqn:E; try reflexivity.
    exfalso. apply (H d). reflexivity. }
  assert (H3 : forall d, serialize_coffee_lot lot !! "data_entrada" <> Some (PDate d)).
  { assert (Hcase : (exists d0, lot !! "data_entrada" = Some (PDate d0)) \/
                    (forall d, lot !! "data_entrada" <> Some (PDate d))).
    { destruct (lot !! "data_entrada") as [[ | | | | | d0 | | ] | ]; eauto;
        right; intros d; discriminate. }
    intros d. destruct Hcase as [[d0 E] | Hn].
    - rewrite (H1 d0 E), lookup_insert_eq. discriminate.
    - rewrite (H2 lot Hn). apply Hn. }
  split; [exact H1 | ]. split; [exact (H2 lot) | ]. split; [exact H3 | ].
  split; [apply serialize_lookup_ne | ]. split; [apply serialize_dom | ].
  apply H2. exact H3.
Qed.

Lemma find_keyed (lots : list (gmap string pyval)) (lot : gmap string pyval) (i : string) :
  NoDup (lot_ids lots) -> In lot lots -> lot_id lot = Some i ->
  find (fun l => sql_eq_str (dict_get l "id") i) lots = Some lot.
Proof.
  intros Hnd Hin Hid. induction lots as [ | x lots IH]; [destruct Hin | ].
  rewrite lot_ids_cons in Hnd. cbn [find].
  destruct (sql_eq_str (dict_get x "id") i) eqn:E.
  - apply lot_id_sql_eq in E. rewrite E in Hnd. apply NoDup_cons in Hnd as [Hi _].
    destruct Hin as [-> | Hin]; [reflexivity | ].
    exfalso. apply Hi, lot_ids_elem. exists lot. split; [assumption | ].
    apply lot_id_sql_eq. assumption.
  - destruct Hin as [-> | Hin].
    + apply lot_id_sql_eq in Hid. congruence.
    + apply IH; [ | assumption].
      destruct (lot_id x); [apply NoDup_cons in Hnd as [_ ?] | ]; assumption.
Qed.

(** X16.  The listing and the GET by id agree.  With the store reachable,
    [get_all_coffee_lots] answers 200 with the rows of the table, in the
    order of the table, each one serialised, and changes no table; under the
    primary key, each element of the listing is the body that
    [get_coffee_lot_by_id] answers, with 200, for the id of its row.  With the
    store unreachable the listing answers 500. *)
Theorem listing_agrees_with_get (w : world) :
  (db_up w = true ->
   get_all_coffee_lots w
     = (Ok (Lots (map serialize_coffee_lot (coffee_lots w)), 200), connected w)) /\
  (db_up w = true -> lots_keyed w ->
   forall lot, In lot (coffee_lots w) ->
     exists i, lot_id lot = Some i /\
       get_coffee_lot_by_id i w
         = (Ok (Response (JLot (serialize_coffee_lot lot)) 200), connected w)) /\
  (db_up w = false ->
   get_all_coffee_lots w
     = (Ok (NoLots (Text "Erro interno do servidor ao buscar lotes."), 500), connected w)).
Proof.
  split; [ | split].
  - intros Hup. unfold get_all_coffee_lots, try_except.
    rewrite (bind_ok _ _ _ _ _ (get_db_connection_up _ Hup)). reflexivity.
  - intros Hup Hk lot Hin. unfold lots_keyed, primary_key_ok in Hk.
    apply andb_true_iff in Hk as [Hall Hnd]. apply bool_decide_eq_true in Hnd.
    rewrite forallb_forall in Hall. specialize (Hall lot Hin).
    apply bool_decide_eq_true in Hall. destruct Hall as [i Hi].
    exists i. split; [assumption | ].
    apply get_coffee_lot_by_id_found; [assumption | | assumption].
    apply find_keyed; assumption.
  - intros Hup. unfold get_all_coffee_lots, try_except.
    rewrite (bind_raise _ _ _ _ _ (get_db_connection_down _ Hup)). reflexivity.
Qed.

Lemma listing_agrees_with_get_witness :
  get_all_coffee_lots occupied_world
    = (Ok (Lots [lot_L1], 200), connected occupied_world) /\
  exists i, lot_id lot_L1 = Some i /\
    get_coffee_lot_by_id i occupied_world
      = (Ok (Response (JLot (serialize_coffee_lot lot_L1)) 200), connected occupied_world).
Proof.
  destruct (listing_agrees_with_get occupied_world) as (Hlist & Hget & _).
  split.
  - exact (Hlist eq_refl).
  - apply (Hget eq_refl); [vm_compute; reflexivity | left; reflexivity].
Defined.

(** ** The import and a null property *)

Lemma import_loop_null_property (pre post : list pyval) (d : gmap string pyval) (n : pyval) :
  d !! "name" = Some n -> d !! "property" = Some PNone ->
  forall a u w, exists e w', import_loop (pre ++ PDict d :: post) a u w = (Raise e, w').
Proof.
  intros Hn Hp. induction pre as [ | item pre IH]; intros a u w.
  - cbn [app import_loop]. rewrite Hn. unfold bind at 1, lift at 1.
    destruct (py_strip n) as [name | e]; [ | eauto].
    unfold bind at 1, lift at 1, dict_get_default. rewrite Hp. cbn [default py_strip]. eauto.
  - cbn [app import_loop].
    destruct item; try apply IH.
    destruct (m !! "name") as [n0 | ]; [ | apply IH].
    unfold bind at 1, lift at 1.
    destruct (py_strip n0) as [name | e]; [ | eauto].
    unfold bind at 1, lift at 1.
    destruct (py_strip _) as [property | e]; [ | eauto].
    destruct (negb _); [ | apply IH].
    unfold bind at 1.
    destruct (insert_producer true name property w) as [[[id | ] | e] w1]; [apply IH | apply IH | eauto].
Qed.

(** C6 (where the code departs from it).  An entry whose property is null
    makes the whole import fail: whatever comes before and after it in the
    batch, and whatever the store holds, the answer is 500 with no summary,
    and the table of producers is as it was, the rows of the entries before
    it included.  The upsert of the same name with a null property returns
    normally. *)
Theorem import_null_property_fails :
  (forall pre post d n w,
      d !! "name" = Some n -> d !! "property" = Some PNone ->
      let r := import_producer_names (PList (pre ++ PDict d :: post)) w in
      r.1 = Ok import_failed /\ producers r.2 = producers w) /\
  (forall n w, exists w', add_producer_if_not_exists (PStr n) PNone w = (Ok tt, w')).
Proof.
  split.
  - intros pre post d n w Hn Hp r.
    assert (Hr : r = import_producer_names (PList (pre ++ PDict d :: post)) w) by reflexivity.
    clearbody r. unfold import_producer_names, try_except, rolled_back, bind at 1,
      get_db_connection in Hr.
    destruct (db_up w).
    + unfold bind in Hr.
      destruct (import_loop_null_property pre post d n Hn Hp 0%nat 0%nat (connected w))
        as (e & w' & Hloop).
      rewrite Hloop in Hr. subst r. split; reflexivity.
    + subst r. split; reflexivity.
  - intros n w.
    destruct (add_producer_total (PStr n) PNone "" w) as (w' & H & _);
      [right; eauto | reflexivity | ].
    exists w'. exact H.
Qed.

Lemma import_null_property_fails_witness :
  (import_producer_names (PList batch_B_C_null) empty_world).1 = Ok import_failed /\
  producers (import_producer_names (PList batch_B_C_null) empty_world).2 = [].
Proof.
  exact (proj1 import_null_property_fails [PDict {[ "name" := PStr "B" ]}] []
           (<["property" := PNone]> {[ "name" := PStr "C" ]}) (PStr "C") empty_world
           eq_refl eq_refl).
Defined.

(** The entry B alone is imported, and B is in the table. *)
Example import_B_alone :
  let r := import_producer_names (PList [PDict {[ "name" := PStr "B" ]}]) empty_world in
  r.1 = Ok (Response (JMessage (ImportacaoConcluida 1 0)) 200) /\
  producers r.2 = [Producer "u0" "B" (Some "")].
Proof. split; vm_compute; reflexivity. Qed.

(** ** The entry date on every path back to the client *)

Lemma get_all_coffee_lots_up (w : world) :
  db_up w = true ->
  get_all_coffee_lots w
    = (Ok (Lots (map serialize_coffee_lot (coffee_lots w)), 200), connected w).
Proof.
  intros Hup. unfold get_all_coffee_lots, try_except.
  rewrite (bind_ok _ _ _ _ _ (get_db_connection_up _ Hup)). reflexivity.
Qed.

Lemma get_all_coffee_lots_listing (w : world) (l : list (gmap string pyval)) (st : Z) :
  (get_all_coffee_lots w).1 = Ok (Lots l, st) ->
  st = 200 /\ l = map serialize_coffee_lot (coffee_lots w).
Proof.
  destruct (db_up w) eqn:Hup.
  - rewrite (get_all_coffee_lots_up w Hup). intros [= <- <-]. auto.
  - unfold get_all_coffee_lots, try_except.
    rewrite (bind_raise _ _ _ _ _ (get_db_connection_down _ Hup)). intros [=].
Qed.

Lemma update_coffee_lot_200 (i : string) (data : gmap string pyval) (w : world)
    (resp : response) :
  (update_coffee_lot i data w).1 = Ok resp -> status resp = 200 ->
  exists row, In row (coffee_lots (update_coffee_lot i data w).2) /\
              resp = Response (JLot (serialize_coffee_lot row)) 200.
Proof.
  set (r := update_coffee_lot i data w).
  assert (Hr : r = update_coffee_lot i data w) by reflexivity. clearbody r.
  unfold update_coffee_lot in Hr.
  destruct (handler_prefix data (Some i) (update_coffee_lot_write i) w)
    as [(_ & _ & _ & _ & Hs) | (d & w1 & v & _ & _ & _ & _ & _ & _ & _ & _ & _ & Heq)].
  - rewrite <- Hr in Hs. intros H H200. rewrite (Hs resp H) in H200. discriminate.
  - rewrite <- Hr in Heq. destruct (update_coffee_lot_write_effect i d w1) as (_ & H200 & _).
    rewrite <- Heq in H200. intros H Hst.
    destruct (H200 resp H Hst) as (_ & row & Hin & _ & ->). exists row. auto.
Qed.

(** C5.  A lot created with an entry date of the form YYYY-MM-DD is answered
    with that same text as [data_entrada] at its creation, at a later GET by
    its id and in the listing.  A stored date is sent as a text of the form
    YYYY-MM-DD that denotes it, with no time part; the dates the handlers
    store are dates of the calendar; and every lot that a GET by id, the
    listing or a PUT sends is a row of the table serialised that way. *)
Theorem data_entrada_round_trip :
  (forall data w w' r s d,
      data !! "data_entrada" = Some (PStr s) ->
      iso_date_shape s = true -> fromisoformat s = Some d ->
      add_coffee_lot data w = (Ok r, w') -> status r = 201 ->
      (String.length (uuids w (uuid_next w)) <= 255)%nat ->
      exists created fetched,
        body r = JLot created /\ created !! "data_entrada" = Some (PStr s) /\
        get_coffee_lot_by_id (uuids w (uuid_next w)) w'
          = (Ok (Response (JLot fetched) 200), connected w') /\
        fetched !! "data_entrada" = Some (PStr s) /\
        get_all_coffee_lots w'
          = (Ok (Lots (map serialize_coffee_lot (coffee_lots w) ++ [fetched]), 200),
             connected w')) /\
  (forall lot d,
      lot !! "data_entrada" = Some (PDate d) -> valid_date d = true ->
      exists s, serialize_coffee_lot lot !! "data_entrada" = Some (PStr s) /\
                iso_date_shape s = true /\ fromisoformat s = Some d) /\
  (forall s d, fromisoformat s = Some d -> valid_date d = true) /\
  (forall i w resp,
      (get_coffee_lot_by_id i w).1 = Ok resp -> status resp = 200 ->
      exists row, In row (coffee_lots w) /\
                  resp = Response (JLot (serialize_coffee_lot row)) 200) /\
  (forall w l st,
      (get_all_coffee_lots w).1 = Ok (Lots l, st) ->
      l = map serialize_coffee_lot (coffee_lots w)) /\
  (forall i data w resp,
      (update_coffee_lot i data w).1 = Ok resp -> status resp = 200 ->
      exists row, In row (coffee_lots (update_coffee_lot i data w).2) /\
                  resp = Response (JLot (serialize_coffee_lot row)) 200).
Proof.
  split; [ | split; [ | split; [ | split; [ | split]]]].
  - intros data w w' r s d Hs _ Hd Hadd H201 Hlen.
    destruct (add_coffee_lot_row _ _ _ _ Hadd H201 Hlen)
      as (data' & row & Hparse & -> & Hup & Hlots & Hdom & Hcols & Hid & Hfresh & Hfind).
    rewrite (parse_data_entrada_date data w s d Hs Hd) in Hparse. cbn [fst] in Hparse.
    injection Hparse as <-.
    set (i := uuids w (uuid_next w)) in *.
    assert (Hc : created_lot (<["data_entrada" := PDate d]> data) i !! "data_entrada"
                 = Some (PDate d)).
    { rewrite created_lot_other by discriminate. apply lookup_insert_eq. }
    assert (Hrow : row !! "data_entrada" = Some (PDate d)).
    { destruct (Hcols "data_entrada") as (t & v & Ht & Hv & Hlk).
      { apply list_elem_of_In. cbn. auto 10. }
      assert (t = DATE) as -> by (vm_compute in Ht; congruence).
      unfold dict_get in Hv. rewrite Hc in Hv. cbn in Hv. congruence. }
    rewrite <- (fromisoformat_isoformat s d Hd).
    exists (serialize_coffee_lot (created_lot (<["data_entrada" := PDate d]> data) i)),
           (serialize_coffee_lot row).
    split; [reflexivity | ].
    split; [apply serialize_date; assumption | ].
    split; [apply get_coffee_lot_by_id_found; assumption | ].
    split; [apply serialize_date; assumption | ].
    rewrite (get_all_coffee_lots_up w' Hup), Hlots, map_app. reflexivity.
  - intros lot d Hl Hv. exists (isoformat d).
    split; [apply serialize_date; assumption | ].
    apply isoformat_roundtrip. assumption.
  - apply fromisoformat_valid.
  - intros i w resp H H200.
    destruct (get_coffee_lot_by_id_200 i w resp H H200) as (row & Hin & _ & ->). eauto.
  - intros w l st H. apply (get_all_coffee_lots_listing w l st H).
  - apply update_coffee_lot_200.
Qed.

(** Witness of [data_entrada_round_trip]: the lot created with the entry
    date 2024-03-15 in an empty store. *)
Lemma data_entrada_round_trip_witness :
  (exists created fetched,
      body (add_coffee_lot_response_2024 : response) = JLot created /\
      created !! "data_entrada" = Some (PStr "2024-03-15") /\
      get_coffee_lot_by_id "u0" (add_coffee_lot lot_2024 empty_world).2
        = (Ok (Response (JLot fetched) 200), connected (add_coffee_lot lot_2024 empty_world).2) /\
      fetched !! "data_entrada" = Some (PStr "2024-03-15") /\
      get_all_coffee_lots (add_coffee_lot lot_2024 empty_world).2
        = (Ok (Lots (map serialize_coffee_lot (coffee_lots empty_world) ++ [fetched]), 200),
           connected (add_coffee_lot lot_2024 empty_world).2)) /\
  (exists s, serialize_coffee_lot (<["data_entrada" := PDate (Date 2024 3 15)]> ∅)
               !! "data_entrada" = Some (PStr s) /\
             iso_date_shape s = true /\ fromisoformat s = Some (Date 2024 3 15)) /\
  valid_date (Date 2024 3 15) = true.
Proof.
  destruct data_entrada_round_trip as (H1 & H2 & H3 & _).
  split; [ | split].
  - apply (H1 lot_2024 empty_world (add_coffee_lot lot_2024 empty_world).2
              add_coffee_lot_response_2024 "2024-03-15" (Date 2024 3 15)).
    + reflexivity.
    + reflexivity.
    + reflexivity.
    + vm_compute. reflexivity.
    + reflexivity.
    + vm_compute. lia.
  - apply H2; [apply lookup_insert_eq | reflexivity].
  - apply (H3 "2024-03-15"). reflexivity.
Defined.

Example listed_2024 :
  (get_all_coffee_lots (add_coffee_lot lot_2024 empty_world).2).1
    = Ok (Lots [<["data_entrada" := PStr "2024-03-15"]> stored_lot_2024], 200).
Proof. vm_compute. reflexivity. Qed.
